(** * pep8.py: a shallow embedding of the style checker and its fix pass

    The development follows [pep8.py] (version 0.5.1dev, Python 2).
    Python byte strings are lists of characters, Python integers are [Z],
    dictionaries are [gmap]s, exceptions are an explicit result type, and
    the mutable [Checker] object together with the global [options]
    object is an explicit record threaded through the methods.  The
    tokenizer ([tokenize.generate_tokens]) is an external service: its
    output is an input of the model. *)

From Stdlib Require Import ZArith Ascii String List Bool Lia DecimalString.
From Stdlib Require Import Sorted.
From stdpp Require Import base option list gmap strings.

Open Scope Z_scope.
Open Scope list_scope.

(** ** Python values *)

(** A Python 2 [str]: a sequence of bytes. *)
Abbreviation pystr := (list ascii).

(** String literals of the source. *)
Definition py (s : string) : pystr := list_ascii_of_string s.

Definition chr_tab : ascii := Ascii.ascii_of_nat 9.
Definition chr_nl : ascii := Ascii.ascii_of_nat 10.
Definition chr_vt : ascii := Ascii.ascii_of_nat 11.
Definition chr_ff : ascii := Ascii.ascii_of_nat 12.
Definition chr_cr : ascii := Ascii.ascii_of_nat 13.
Definition chr_sp : ascii := Ascii.ascii_of_nat 32.

(** Exceptions the modelled code can raise. *)
Inductive exn : Type :=
| IndexError
| NameError
| AssertionError
| AttributeError
| TypeError
| KeyError
| UnicodeDecodeError
| NonTermination.

Inductive res (A : Type) : Type :=
| Ok (a : A)
| Raise (e : exn).
Arguments Ok {A} a.
Arguments Raise {A} e.

(** The exception monad; [x ← m; k] runs [k] unless [m] raised. *)
Global Instance res_ret : MRet res := fun _ a => Ok a.
Global Instance res_bind : MBind res := fun _ _ f m =>
  match m with
  | Ok a => f a
  | Raise e => Raise e
  end.

Module Py.

(** [len(s)] *)
Definition len {A : Type} (l : list A) : Z := Z.of_nat (length l).

(** Normalisation of a slice bound: negative bounds count from the end,
    and every bound is clamped to [0, len]. *)
Definition norm_index (n i : Z) : Z :=
  if i <? 0 then Z.max 0 (i + n) else Z.min i n.

(** [l[lo:hi]]; [None] stands for an omitted bound. *)
Definition slice {A : Type} (l : list A) (lo hi : option Z) : list A :=
  let n := len l in
  let a := match lo with None => 0 | Some i => norm_index n i end in
  let b := match hi with None => n | Some j => norm_index n j end in
  take (Z.to_nat (b - a)) (drop (Z.to_nat a) l).

(** [l[i]], raising [IndexError] out of range. *)
Definition getitem {A : Type} (l : list A) (i : Z) : res A :=
  let j := if i <? 0 then i + len l else i in
  if (0 <=? j) && (j <? len l)
  then match l !! Z.to_nat j with
       | Some x => Ok x
       | None => Raise IndexError
       end
  else Raise IndexError.

(** [s.startswith(p)] *)
Fixpoint startswith (s p : pystr) {struct p} : bool :=
  match p, s with
  | [], _ => true
  | _ :: _, [] => false
  | a :: p', b :: s' => Ascii.eqb a b && startswith s' p'
  end.

(** [s.endswith(p)] *)
Definition endswith (s p : pystr) : bool :=
  startswith (rev s) (rev p).

Fixpoint find_from (s sub : pystr) (i : Z) : Z :=
  if startswith s sub then i
  else match s with
       | [] => -1
       | _ :: s' => find_from s' sub (i + 1)
       end.

(** [s.find(sub)] *)
Definition find (s sub : pystr) : Z := find_from s sub 0.

(** [sub in s] for strings: the substring test. *)
Definition contains (s sub : pystr) : bool := 0 <=? find s sub.

(** [x in (a, b, ...)] and [x in frozenset([...])] for strings. *)
Definition member (x : pystr) (l : list pystr) : bool :=
  existsb (fun y => bool_decide (x = y)) l.

(** [s.count(c)] for a one-character [c]. *)
Definition count (s : pystr) (c : ascii) : Z :=
  len (filter (fun x => x = c) s).

(** The characters [str.strip()] removes by default. *)
Definition is_space (c : ascii) : bool :=
  Ascii.eqb c chr_sp || Ascii.eqb c chr_tab || Ascii.eqb c chr_nl ||
  Ascii.eqb c chr_cr || Ascii.eqb c chr_vt || Ascii.eqb c chr_ff.

Fixpoint lstrip_by (p : ascii -> bool) (s : pystr) : pystr :=
  match s with
  | [] => []
  | c :: s' => if p c then lstrip_by p s' else s
  end.

Definition rstrip_by (p : ascii -> bool) (s : pystr) : pystr :=
  rev (lstrip_by p (rev s)).

(** [s.lstrip()], [s.rstrip()], [s.strip()] *)
Definition lstrip (s : pystr) : pystr := lstrip_by is_space s.
Definition rstrip (s : pystr) : pystr := rstrip_by is_space s.
Definition strip (s : pystr) : pystr := lstrip (rstrip s).

(** [s.rstrip(c)] and [s.lstrip(c)] for a one-character [c]. *)
Definition rstrip_chr (c : ascii) (s : pystr) : pystr :=
  rstrip_by (Ascii.eqb c) s.
Definition lstrip_chr (c : ascii) (s : pystr) : pystr :=
  lstrip_by (Ascii.eqb c) s.

(** [s.replace(c, new)] for a one-character [c]. *)
Fixpoint replace (s : pystr) (c : ascii) (new : pystr) : pystr :=
  match s with
  | [] => []
  | x :: s' => (if Ascii.eqb x c then new else [x]) ++ replace s' c new
  end.

(** [s * n]; a negative count gives the empty string. *)
Definition repeat (s : pystr) (n : Z) : pystr :=
  concat (replicate (Z.to_nat n) s).

(** [''.join(l)] *)
Definition join (l : list pystr) : pystr := concat l.

(** ['%d' % n] and ['%s' % n] for an integer *)
Definition str_of_int (n : Z) : pystr :=
  py (NilEmpty.string_of_int (Z.to_int n)).

End Py.

(** ** Regular expressions

    The part of Python's [re] the program uses: a backtracking matcher
    with greedy repetition, ordered alternatives and numbered groups. *)

Module Re.

Inductive regex : Type :=
| Eps
| Chr (p : ascii -> bool)
| Seq (r1 r2 : regex)
| Alt (r1 r2 : regex)
| Star (r : regex)
| Group (n : nat) (r : regex)
| Bol
| Eol
| WordB
| NegLook (r : regex).

(** Spans of the groups matched so far, most recent first. *)
Abbreviation groups := (list (nat * (nat * nat))).

(** [\w] and [\s] of a byte pattern without flags *)
Definition is_word (c : ascii) : bool :=
  let n := nat_of_ascii c in
  ((48 <=? n) && (n <=? 57) || (65 <=? n) && (n <=? 90) ||
   (97 <=? n) && (n <=? 122) || (n =? 95))%nat.

Definition word_at (s : pystr) (i : nat) : bool :=
  match s !! i with
  | Some c => is_word c
  | None => false
  end.

(** Greedy repetition of [body] at most [n] times, each time over at
    least one character: one more iteration first, the continuation [k]
    when that fails. *)
Fixpoint star_loop (M : Type)
    (body : nat -> groups -> (nat -> groups -> option M) -> option M)
    (k : nat -> groups -> option M) (n i : nat) (g : groups) {struct n}
  : option M :=
  match n with
  | O => k i g
  | S n' =>
      match body i g (fun j g' => if (i <? j)%nat
                                  then star_loop M body k n' j g'
                                  else None) with
      | Some m => Some m
      | None => k i g
      end
  end.

(** [rx r s i g k]: match [r] in [s] from position [i] with groups [g],
    then continue with [k]; the first success in backtracking order. *)
Fixpoint rx (M : Type) (r : regex) (s : pystr) (i : nat) (g : groups)
    (k : nat -> groups -> option M) {struct r} : option M :=
  match r with
  | Eps => k i g
  | Chr p =>
      match s !! i with
      | Some c => if p c then k (S i) g else None
      | None => None
      end
  | Seq r1 r2 => rx M r1 s i g (fun j g' => rx M r2 s j g' k)
  | Alt r1 r2 =>
      match rx M r1 s i g k with
      | Some m => Some m
      | None => rx M r2 s i g k
      end
  | Star r1 =>
      star_loop M (fun j g' k' => rx M r1 s j g' k') k
        (S (length s - i)) i g
  | Group n r1 => rx M r1 s i g (fun j g' => k j ((n, (i, j)) :: g'))
  | Bol => if (i =? 0)%nat then k i g else None
  | Eol =>
      if (i =? length s)%nat ||
         ((S i =? length s)%nat && bool_decide (s !! i = Some chr_nl))
      then k i g else None
  | WordB =>
      let before := match i with O => false | S j => word_at s j end in
      if xorb before (word_at s i) then k i g else None
  | NegLook r1 =>
      match rx unit r1 s i g (fun _ _ => Some tt) with
      | Some _ => None
      | None => k i g
      end
  end.

(** A match object: its span and the spans of its groups. *)
Record rmatch : Type := {
  m_start : nat;
  m_end : nat;
  m_groups : groups
}.

Definition match_at (r : regex) (s : pystr) (i : nat) : option rmatch :=
  rx rmatch r s i []
     (fun j g => Some {| m_start := i; m_end := j; m_groups := g |}).

(** [pattern.match(s)] *)
Definition re_match (r : regex) (s : pystr) : option rmatch :=
  match_at r s 0.

Fixpoint search_from (n : nat) (r : regex) (s : pystr) (i : nat)
  : option rmatch :=
  match match_at r s i with
  | Some m => Some m
  | None =>
      match n with
      | O => None
      | S n' => search_from n' r s (S i)
      end
  end.

(** [pattern.search(s)] *)
Definition re_search (r : regex) (s : pystr) : option rmatch :=
  search_from (length s) r s 0.

Fixpoint finditer_from (fuel : nat) (r : regex) (s : pystr) (i : nat)
  : list rmatch :=
  match fuel with
  | O => []
  | S fuel' =>
      if (length s <? i)%nat then []
      else match search_from (length s - i) r s i with
           | None => []
           | Some m =>
               m :: finditer_from fuel' r s
                      (if (m_end m =? m_start m)%nat then S (m_end m)
                       else m_end m)
           end
  end.

(** [pattern.finditer(s)]: the non-overlapping matches, left to right. *)
Definition finditer (r : regex) (s : pystr) : list rmatch :=
  finditer_from (S (length s)) r s 0.

(** [match.group()] *)
Definition group0 (s : pystr) (m : rmatch) : pystr :=
  take (m_end m - m_start m) (drop (m_start m) s).

Fixpoint span_in (g : groups) (n : nat) : option (nat * nat) :=
  match g with
  | [] => None
  | (k, sp) :: g' => if (k =? n)%nat then Some sp else span_in g' n
  end.

Definition group_span (m : rmatch) (n : nat) : option (nat * nat) :=
  span_in (m_groups m) n.

(** [match.group(n)]; every group of the program's patterns takes part
    in every match, so the [None] of an unmatched group does not arise. *)
Definition group (s : pystr) (m : rmatch) (n : nat) : pystr :=
  match group_span m n with
  | Some (a, b) => take (b - a) (drop a s)
  | None => []
  end.

(** [match.start(n)] *)
Definition group_start (m : rmatch) (n : nat) : Z :=
  match group_span m n with
  | Some (a, _) => Z.of_nat a
  | None => -1
  end.

Fixpoint sub_pieces (repl : rmatch -> pystr) (ms : list rmatch)
    (s : pystr) (pos : nat) : pystr :=
  match ms with
  | [] => drop pos s
  | m :: ms' =>
      take (m_start m - pos) (drop pos s) ++ repl m ++
      sub_pieces repl ms' s (m_end m)
  end.

(** [pattern.sub(repl, s)] with a function [repl], for patterns that
    match no empty string. *)
Definition sub (r : regex) (repl : rmatch -> pystr) (s : pystr) : pystr :=
  sub_pieces repl (finditer r s) s 0.

(** Pattern syntax *)
Definition chr (c : ascii) : regex := Chr (Ascii.eqb c).
Definition lit (s : string) : regex :=
  fold_right (fun c r => Seq (chr c) r) Eps (list_ascii_of_string s).
Definition one_of (l : pystr) (c : ascii) : bool := existsb (Ascii.eqb c) l.
Definition set (l : pystr) : regex := Chr (one_of l).
Definition nset (l : pystr) : regex := Chr (fun c => negb (one_of l c)).
Definition plus (r : regex) : regex := Seq r (Star r).
Definition opt (r : regex) : regex := Alt r Eps.
Definition space : regex := Chr Py.is_space.
Definition word : regex := Chr is_word.
Definition dot : regex := Chr (fun c => negb (Ascii.eqb c chr_nl)).
Definition seq (l : list regex) : regex := fold_right Seq Eps l.

End Re.

(** ** Tokens, as [tokenize.generate_tokens] yields them *)

Inductive token_type : Type :=
| ENDMARKER | NAME | NUMBER | STRING | NEWLINE | INDENT | DEDENT
| OP | ERRORTOKEN | COMMENT | NL.

Global Instance token_type_eq_dec : EqDecision token_type.
Proof. solve_decision. Defined.

(** The 5-tuple [(type, text, (srow, scol), (erow, ecol), line)]. *)
Record token : Type := {
  t_type : token_type;
  t_text : pystr;
  t_start : Z * Z;
  t_end : Z * Z;
  t_line : pystr
}.

(** ** Module constants *)

Definition chr_dq : ascii := Ascii.ascii_of_nat 34.
Definition chr_sq : ascii := Ascii.ascii_of_nat 39.

Definition DEFAULT_IGNORE : pystr := py "E24".
Definition MAX_LINE_LENGTH : Z := 120.
Definition TAB_SIZE : Z := 4.

(** [WHITESPACE = ' \t'] *)
Definition WHITESPACE : pystr := [chr_sp; chr_tab].

Definition INDENT_REGEX : Re.regex :=
  Re.seq [Re.Bol; Re.Group 1 (Re.Star (Re.set [chr_sp; chr_tab]))].

Definition RAISE_COMMA_REGEX : Re.regex :=
  Re.seq [Re.lit "raise"; Re.plus Re.space; Re.Group 1 (Re.plus Re.word);
          Re.Star Re.space; Re.chr ","; Re.Star Re.space;
          Re.Group 2 (Re.Star Re.dot); Re.Star Re.space].

Definition DOCSTRING_REGEX : Re.regex :=
  Re.seq [Re.opt (Re.chr "u"); Re.opt (Re.chr "r");
          Re.set [chr_dq; chr_sq]].

(** [[^\w\s]] *)
Definition not_word_space : Re.regex :=
  Re.Chr (fun c => negb (Re.is_word c) && negb (Py.is_space c)).

Definition WHITESPACE_AROUND_OPERATOR_REGEX : Re.regex :=
  Re.seq [Re.Group 1 (Re.Star not_word_space); Re.Star Re.space;
          Re.Group 2 (Re.Alt (Re.chr chr_tab) (Re.lit "  "));
          Re.Star Re.space; Re.Group 3 (Re.Star not_word_space)].

Definition EXTRANEOUS_WHITESPACE_REGEX : Re.regex :=
  Re.Alt (Re.seq [Re.set (py "[({"); Re.chr " "])
         (Re.seq [Re.chr " "; Re.plus (Re.set (py "]}),;:"))]).

Definition WHITESPACE_AROUND_NAMED_PARAMETER_REGEX : Re.regex :=
  Re.Alt (Re.set (py "()"))
    (Re.Alt (Re.seq [Re.space; Re.chr "="; Re.nset (py "=")])
            (Re.seq [Re.nset (py "=!<>"); Re.chr "="; Re.space])).

Definition BINARY_OPERATORS : list pystr :=
  map py ["**="; "*="; "+="; "-="; "!="; "<>";
          "%="; "^="; "&="; "|="; "=="; "/="; "//="; "<="; ">="; "<<=";
          ">>="; "%"; "^"; "&"; "|"; "="; "/"; "//"; "<"; ">"; "<<"]%string.
Definition UNARY_OPERATORS : list pystr :=
  map py [">>"; "**"; "*"; "+"; "-"]%string.
Definition OPERATORS : list pystr := BINARY_OPERATORS ++ UNARY_OPERATORS.
Definition SKIP_TOKENS : list token_type := [NL; INDENT; DEDENT; NEWLINE].

(** [keyword.kwlist] of Python 2.7, the interpreter the program runs on. *)
Definition kwlist : list pystr :=
  map py ["and"; "as"; "assert"; "break"; "class"; "continue"; "def";
          "del"; "elif"; "else"; "except"; "exec"; "finally"; "for";
          "from"; "global"; "if"; "import"; "in"; "is"; "lambda"; "not";
          "or"; "pass"; "print"; "raise"; "return"; "try"; "while";
          "with"; "yield"]%string.

Definition iskeyword (s : pystr) : bool := Py.member s kwlist.

Definition E225NOT_KEYWORDS : list pystr :=
  filter (fun k => negb (Py.member k (map py ["False"; "None"; "True"]%string)))
         (kwlist ++ [py "print"]).

Definition BENCHMARK_KEYS : list pystr :=
  map py ["directories"; "files"; "logical lines"; "physical lines"]%string.

(** ** The options object and the checker object *)

(** The fields of [options] the checks read.  [options.verbose] is 0 and
    [options.show_pep8] is unset, their defaults: the branches that only
    print trace or documentation text are left out. *)
Record options : Type := {
  select : list pystr;
  ignore : list pystr;
  quiet : Z;
  repeat_ : bool;
  show_source : bool;
  show_pep8 : bool;
  fix_ : bool;
  inplace : bool
}.

(** What a check returns as position: an offset in the checked line, a
    [(row, col)] pair of the source, or [None]. *)
Inductive offset : Type :=
| OffInt (n : Z)
| OffPos (p : Z * Z)
| OffNone.

(** The attributes of a [Checker], with the mutable state it shares with
    the rest of the process: [options.counters], [options.messages], the
    lines printed on standard output and the file written at the end.
    A string of Python 2 is a [str] of bytes or a [unicode] object:
    [logical_unicode] says that [logical_line] is a [unicode] object, and
    [writer_unicode] that a [unicode] object has been written to
    [writer]; all other strings of a checker are [str]. *)
Record Checker : Type := {
  filename : pystr;
  lines : list pystr;
  fixed_physical_lines : list pystr;
  write_filename : option pystr;
  comment : option pystr;
  expected : list pystr;
  line_offset : Z;
  line_number : Z;
  file_errors : Z;
  indent_char : option ascii;
  indent_level : Z;
  previous_indent_level : Z;
  previous_logical : pystr;
  blank_lines : Z;
  blank_lines_before_comment : Z;
  tokens : list token;
  writer : pystr;
  physical_line : pystr;
  logical_line : pystr;
  mapping : list (Z * token);
  muted_strings : list pystr;
  counters : gmap pystr Z;
  messages : gmap pystr pystr;
  stdout : list pystr;
  written : option (pystr * pystr);
  logical_unicode : bool;
  writer_unicode : bool
}.

(** Attribute assignment, [self.f = v]. *)
Definition set_fixed_physical_lines (v : list pystr) (c : Checker) : Checker :=
  let 'Build_Checker
    a0 a1 a2 a3 a4 a5 a6 a7 a8 a9 a10 a11 a12 a13 a14 a15 a16 a17
    a18 a19 a20 a21 a22 a23 a24 a25 a26 := c in
  Build_Checker
    a0 a1 v a3 a4 a5 a6 a7 a8 a9 a10 a11 a12 a13 a14 a15 a16 a17
    a18 a19 a20 a21 a22 a23 a24 a25 a26.

Definition set_comment (v : option pystr) (c : Checker) : Checker :=
  let 'Build_Checker
    a0 a1 a2 a3 a4 a5 a6 a7 a8 a9 a10 a11 a12 a13 a14 a15 a16 a17
    a18 a19 a20 a21 a22 a23 a24 a25 a26 := c in
  Build_Checker
    a0 a1 a2 a3 v a5 a6 a7 a8 a9 a10 a11 a12 a13 a14 a15 a16 a17
    a18 a19 a20 a21 a22 a23 a24 a25 a26.

Definition set_line_number (v : Z) (c : Checker) : Checker :=
  let 'Build_Checker
    a0 a1 a2 a3 a4 a5 a6 a7 a8 a9 a10 a11 a12 a13 a14 a15 a16 a17
    a18 a19 a20 a21 a22 a23 a24 a25 a26 := c in
  Build_Checker
    a0 a1 a2 a3 a4 a5 a6 v a8 a9 a10 a11 a12 a13 a14 a15 a16 a17
    a18 a19 a20 a21 a22 a23 a24 a25 a26.

Definition set_file_errors (v : Z) (c : Checker) : Checker :=
  let 'Build_Checker
    a0 a1 a2 a3 a4 a5 a6 a7 a8 a9 a10 a11 a12 a13 a14 a15 a16 a17
    a18 a19 a20 a21 a22 a23 a24 a25 a26 := c in
  Build_Checker
    a0 a1 a2 a3 a4 a5 a6 a7 v a9 a10 a11 a12 a13 a14 a15 a16 a17
    a18 a19 a20 a21 a22 a23 a24 a25 a26.

Definition set_indent_char (v : option ascii) (c : Checker) : Checker :=
  let 'Build_Checker
    a0 a1 a2 a3 a4 a5 a6 a7 a8 a9 a10 a11 a12 a13 a14 a15 a16 a17
    a18 a19 a20 a21 a22 a23 a24 a25 a26 := c in
  Build_Checker
    a0 a1 a2 a3 a4 a5 a6 a7 a8 v a10 a11 a12 a13 a14 a15 a16 a17
    a18 a19 a20 a21 a22 a23 a24 a25 a26.

Definition set_indent_level (v : Z) (c : Checker) : Checker :=
  let 'Build_Checker
    a0 a1 a2 a3 a4 a5 a6 a7 a8 a9 a10 a11 a12 a13 a14 a15 a16 a17
    a18 a19 a20 a21 a22 a23 a24 a25 a26 := c in
  Build_Checker
    a0 a1 a2 a3 a4 a5 a6 a7 a8 a9 v a11 a12 a13 a14 a15 a16 a17
    a18 a19 a20 a21 a22 a23 a24 a25 a26.

Definition set_previous_indent_level (v : Z) (c : Checker) : Checker :=
  let 'Build_Checker
    a0 a1 a2 a3 a4 a5 a6 a7 a8 a9 a10 a11 a12 a13 a14 a15 a16 a17
    a18 a19 a20 a21 a22 a23 a24 a25 a26 := c in
  Build_Checker
    a0 a1 a2 a3 a4 a5 a6 a7 a8 a9 a10 v a12 a13 a14 a15 a16 a17
    a18 a19 a20 a21 a22 a23 a24 a25 a26.

Definition set_previous_logical (v : pystr) (c : Checker) : Checker :=
  let 'Build_Checker
    a0 a1 a2 a3 a4 a5 a6 a7 a8 a9 a10 a11 a12 a13 a14 a15 a16 a17
    a18 a19 a20 a21 a22 a23 a24 a25 a26 := c in
  Build_Checker
    a0 a1 a2 a3 a4 a5 a6 a7 a8 a9 a10 a11 v a13 a14 a15 a16 a17
    a18 a19 a20 a21 a22 a23 a24 a25 a26.

Definition set_blank_lines (v : Z) (c : Checker) : Checker :=
  let 'Build_Checker
    a0 a1 a2 a3 a4 a5 a6 a7 a8 a9 a10 a11 a12 a13 a14 a15 a16 a17
    a18 a19 a20 a21 a22 a23 a24 a25 a26 := c in
  Build_Checker
    a0 a1 a2 a3 a4 a5 a6 a7 a8 a9 a10 a11 a12 v a14 a15 a16 a17
    a18 a19 a20 a21 a22 a23 a24 a25 a26.

Definition set_blank_lines_before_comment (v : Z) (c : Checker) : Checker :=
  let 'Build_Checker
    a0 a1 a2 a3 a4 a5 a6 a7 a8 a9 a10 a11 a12 a13 a14 a15 a16 a17
    a18 a19 a20 a21 a22 a23 a24 a25 a26 := c in
  Build_Checker
    a0 a1 a2 a3 a4 a5 a6 a7 a8 a9 a10 a11 a12 a13 v a15 a16 a17
    a18 a19 a20 a21 a22 a23 a24 a25 a26.

Definition set_tokens (v : list token) (c : Checker) : Checker :=
  let 'Build_Checker
    a0 a1 a2 a3 a4 a5 a6 a7 a8 a9 a10 a11 a12 a13 a14 a15 a16 a17
    a18 a19 a20 a21 a22 a23 a24 a25 a26 := c in
  Build_Checker
    a0 a1 a2 a3 a4 a5 a6 a7 a8 a9 a10 a11 a12 a13 a14 v a16 a17
    a18 a19 a20 a21 a22 a23 a24 a25 a26.

Definition set_writer (v : pystr) (c : Checker) : Checker :=
  let 'Build_Checker
    a0 a1 a2 a3 a4 a5 a6 a7 a8 a9 a10 a11 a12 a13 a14 a15 a16 a17
    a18 a19 a20 a21 a22 a23 a24 a25 a26 := c in
  Build_Checker
    a0 a1 a2 a3 a4 a5 a6 a7 a8 a9 a10 a11 a12 a13 a14 a15 v a17
    a18 a19 a20 a21 a22 a23 a24 a25 a26.

Definition set_physical_line (v : pystr) (c : Checker) : Checker :=
  let 'Build_Checker
    a0 a1 a2 a3 a4 a5 a6 a7 a8 a9 a10 a11 a12 a13 a14 a15 a16 a17
    a18 a19 a20 a21 a22 a23 a24 a25 a26 := c in
  Build_Checker
    a0 a1 a2 a3 a4 a5 a6 a7 a8 a9 a10 a11 a12 a13 a14 a15 a16 v
    a18 a19 a20 a21 a22 a23 a24 a25 a26.

Definition set_logical_line (v : pystr) (c : Checker) : Checker :=
  let 'Build_Checker
    a0 a1 a2 a3 a4 a5 a6 a7 a8 a9 a10 a11 a12 a13 a14 a15 a16 a17
    a18 a19 a20 a21 a22 a23 a24 a25 a26 := c in
  Build_Checker
    a0 a1 a2 a3 a4 a5 a6 a7 a8 a9 a10 a11 a12 a13 a14 a15 a16 a17
    v a19 a20 a21 a22 a23 a24 a25 a26.

Definition set_mapping (v : list (Z * token)) (c : Checker) : Checker :=
  let 'Build_Checker
    a0 a1 a2 a3 a4 a5 a6 a7 a8 a9 a10 a11 a12 a13 a14 a15 a16 a17
    a18 a19 a20 a21 a22 a23 a24 a25 a26 := c in
  Build_Checker
    a0 a1 a2 a3 a4 a5 a6 a7 a8 a9 a10 a11 a12 a13 a14 a15 a16 a17
    a18 v a20 a21 a22 a23 a24 a25 a26.

Definition set_muted_strings (v : list pystr) (c : Checker) : Checker :=
  let 'Build_Checker
    a0 a1 a2 a3 a4 a5 a6 a7 a8 a9 a10 a11 a12 a13 a14 a15 a16 a17
    a18 a19 a20 a21 a22 a23 a24 a25 a26 := c in
  Build_Checker
    a0 a1 a2 a3 a4 a5 a6 a7 a8 a9 a10 a11 a12 a13 a14 a15 a16 a17
    a18 a19 v a21 a22 a23 a24 a25 a26.

Definition set_counters (v : gmap pystr Z) (c : Checker) : Checker :=
  let 'Build_Checker
    a0 a1 a2 a3 a4 a5 a6 a7 a8 a9 a10 a11 a12 a13 a14 a15 a16 a17
    a18 a19 a20 a21 a22 a23 a24 a25 a26 := c in
  Build_Checker
    a0 a1 a2 a3 a4 a5 a6 a7 a8 a9 a10 a11 a12 a13 a14 a15 a16 a17
    a18 a19 a20 v a22 a23 a24 a25 a26.

Definition set_messages (v : gmap pystr pystr) (c : Checker) : Checker :=
  let 'Build_Checker
    a0 a1 a2 a3 a4 a5 a6 a7 a8 a9 a10 a11 a12 a13 a14 a15 a16 a17
    a18 a19 a20 a21 a22 a23 a24 a25 a26 := c in
  Build_Checker
    a0 a1 a2 a3 a4 a5 a6 a7 a8 a9 a10 a11 a12 a13 a14 a15 a16 a17
    a18 a19 a20 a21 v a23 a24 a25 a26.

Definition set_stdout (v : list pystr) (c : Checker) : Checker :=
  let 'Build_Checker
    a0 a1 a2 a3 a4 a5 a6 a7 a8 a9 a10 a11 a12 a13 a14 a15 a16 a17
    a18 a19 a20 a21 a22 a23 a24 a25 a26 := c in
  Build_Checker
    a0 a1 a2 a3 a4 a5 a6 a7 a8 a9 a10 a11 a12 a13 a14 a15 a16 a17
    a18 a19 a20 a21 a22 v a24 a25 a26.

Definition set_written (v : option (pystr * pystr)) (c : Checker) : Checker :=
  let 'Build_Checker
    a0 a1 a2 a3 a4 a5 a6 a7 a8 a9 a10 a11 a12 a13 a14 a15 a16 a17
    a18 a19 a20 a21 a22 a23 a24 a25 a26 := c in
  Build_Checker
    a0 a1 a2 a3 a4 a5 a6 a7 a8 a9 a10 a11 a12 a13 a14 a15 a16 a17
    a18 a19 a20 a21 a22 a23 v a25 a26.

Definition set_logical_unicode (v : bool) (c : Checker) : Checker :=
  let 'Build_Checker
    a0 a1 a2 a3 a4 a5 a6 a7 a8 a9 a10 a11 a12 a13 a14 a15 a16 a17
    a18 a19 a20 a21 a22 a23 a24 a25 a26 := c in
  Build_Checker
    a0 a1 a2 a3 a4 a5 a6 a7 a8 a9 a10 a11 a12 a13 a14 a15 a16 a17
    a18 a19 a20 a21 a22 a23 a24 v a26.

Definition set_writer_unicode (v : bool) (c : Checker) : Checker :=
  let 'Build_Checker
    a0 a1 a2 a3 a4 a5 a6 a7 a8 a9 a10 a11 a12 a13 a14 a15 a16 a17
    a18 a19 a20 a21 a22 a23 a24 a25 a26 := c in
  Build_Checker
    a0 a1 a2 a3 a4 a5 a6 a7 a8 a9 a10 a11 a12 a13 a14 a15 a16 a17
    a18 a19 a20 a21 a22 a23 a24 a25 v.

(** ** Helper functions *)

(** [ignore_code(code)].  The function returns [False] from its first
    loop, [True] from its second one and falls off its end ([None])
    otherwise; its callers test the truth value only. *)
Fixpoint ignore_loop (ign : list pystr) (code : pystr) : option bool :=
  match ign with
  | [] => None
  | i :: rest => if Py.startswith code i then Some true
                 else ignore_loop rest code
  end.

Fixpoint select_loop (sel ign : list pystr) (code : pystr) : option bool :=
  match sel with
  | [] => ignore_loop ign code
  | s :: rest => if Py.startswith code s then Some false
                 else select_loop rest ign code
  end.

Definition ignore_code (o : options) (code : pystr) : option bool :=
  select_loop (select o) (ignore o) code.

(** The truth value of an optional boolean, as in [if ignore_code(c):]. *)
Definition truthy (r : option bool) : bool :=
  match r with
  | Some b => b
  | None => false
  end.

Fixpoint expand_indent_loop (line : pystr) (result : Z) : Z :=
  match line with
  | [] => result
  | char :: rest =>
      if Ascii.eqb char chr_tab
      then expand_indent_loop rest (result / TAB_SIZE * TAB_SIZE + TAB_SIZE)
      else if Ascii.eqb char chr_sp
           then expand_indent_loop rest (result + 1)
           else result
  end.

(** [expand_indent(line)] *)
Definition expand_indent (line : pystr) : Z := expand_indent_loop line 0.

(** [mute_string(text)] *)
Definition mute_string (text : pystr) : pystr :=
  let start := 1 in
  let end_ := Py.len text - 1 in
  let start :=
    if Py.endswith text [chr_dq] then start + Py.find text [chr_dq]
    else if Py.endswith text [chr_sq] then start + Py.find text [chr_sq]
    else start in
  let '(start, end_) :=
    if Py.endswith text [chr_dq; chr_dq; chr_dq] ||
       Py.endswith text [chr_sq; chr_sq; chr_sq]
    then (start + 2, end_ - 2) else (start, end_) in
  Py.slice text None (Some start) ++ Py.repeat (py "x") (end_ - start) ++
  Py.slice text (Some end_) None.

(** [message(text)]: one more line on standard output. *)
Definition message (text : pystr) (c : Checker) : Checker :=
  set_stdout (stdout c ++ [text]) c.

(** [Checker.report_fix(msg, old, new)] *)
Definition report_fix (o : options) (msg old new : pystr) (c : Checker)
  : Checker :=
  if quiet o =? 0
  then
    let old := Py.replace old chr_nl (py "\n") in
    let new := Py.replace new chr_nl (py "\n") in
    message (py " - pep8 fix: " ++ msg ++ [chr_nl; chr_tab] ++ py "-" ++
             old ++ [chr_nl; chr_tab] ++ py "+" ++ new) c
  else c.

(** ** The checks

    Every check class is a [check] function of the attributes its
    signature names and, for some, a [fix] function that also takes the
    checker. *)

Module Checks.

(** A violation: where, and the text that starts with the code. *)
Abbreviation result := (option (offset * pystr)).

(** [INDENT_REGEX.match(physical_line).group(1)] *)
Definition indent_of (physical_line : pystr) : res pystr :=
  match Re.re_match INDENT_REGEX physical_line with
  | Some m => Ok (Re.group physical_line m 1)
  | None => Raise AttributeError
  end.

(** *** Physical lines *)

Fixpoint tabs_or_spaces_loop (indent : pystr) (indent_char : option ascii)
    (offset : Z) : result :=
  match indent with
  | [] => None
  | char :: rest =>
      if bool_decide (Some char <> indent_char)
      then Some (OffInt offset,
                 py "E101 indentation contains mixed spaces and tabs")
      else tabs_or_spaces_loop rest indent_char (offset + 1)
  end.

Definition tabs_or_spaces_check (physical_line : pystr)
    (indent_char : option ascii) : res result :=
  indent ← indent_of physical_line;
  Ok (tabs_or_spaces_loop indent indent_char 0).

Definition tabs_or_spaces_fix (o : options) (checker : Checker)
    (physical_line : pystr) (indent_char : option ascii)
  : res (Checker * option pystr) :=
  indent ← indent_of physical_line;
  let fixed := Py.replace indent chr_tab (py "    ") ++
               Py.slice physical_line (Some (Py.len indent)) None in
  Ok (report_fix o (py "mixed tabs and spaces converted to all spaces.")
        physical_line fixed checker, Some fixed).

Definition tabs_obsolete_check (physical_line : pystr) : res result :=
  indent ← indent_of physical_line;
  Ok (if negb (Py.count indent chr_tab =? 0)
      then Some (OffInt (Py.find indent [chr_tab]),
                 py "W191 indentation contains tabs")
      else None).

Definition tabs_obsolete_fix (o : options) (checker : Checker)
    (physical_line : pystr) : res (Checker * option pystr) :=
  let fixed := Py.replace physical_line chr_tab (py "    ") in
  Ok (report_fix o (py "tab converted to 4 spaces.") physical_line fixed
        checker, Some fixed).

Definition trailing_whitespace_check (physical_line : pystr) : result :=
  let physical_line := Py.rstrip_chr chr_nl physical_line in
  let physical_line := Py.rstrip_chr chr_cr physical_line in
  let physical_line := Py.rstrip_chr chr_ff physical_line in
  let stripped := Py.rstrip physical_line in
  if bool_decide (physical_line <> stripped)
  then if bool_decide (stripped <> [])
       then Some (OffInt (Py.len stripped), py "W291 trailing whitespace")
       else Some (OffInt 0, py "W293 blank line contains whitespace")
  else None.

(** [r'[ \n\r\t]+$'] *)
Definition TRAILING_REGEX : Re.regex :=
  Re.seq [Re.plus (Re.set [chr_sp; chr_nl; chr_cr; chr_tab]); Re.Eol].

Definition trailing_whitespace_fix (o : options) (checker : Checker)
    (physical_line : pystr) : res (Checker * option pystr) :=
  let fixed := Re.sub TRAILING_REGEX (fun _ => [chr_nl]) physical_line in
  Ok (report_fix o (py "whitespace stripped from end of line.")
        physical_line fixed checker, Some fixed).

Definition trailing_blank_lines_check (physical_line : pystr)
    (lines : list pystr) (line_number : Z) : result :=
  if bool_decide (Py.strip physical_line = []) &&
     (line_number =? Py.len lines)
  then Some (OffInt 0, py "W391 blank line at end of file")
  else None.

Definition trailing_blank_lines_fix (o : options) (checker : Checker)
    (physical_line : pystr) (lines : list pystr) (line_number : Z)
  : res (Checker * option pystr) :=
  let fixed := [] in
  Ok (report_fix o
        (py "superfluous trailing blank line removed from end of file.")
        physical_line fixed checker, Some fixed).

Definition missing_newline_check (physical_line : pystr) : result :=
  if bool_decide (Py.rstrip physical_line = physical_line)
  then Some (OffInt (Py.len physical_line),
             py "W292 no newline at end of file")
  else None.

Definition missing_newline_fix (o : options) (checker : Checker)
    (physical_line : pystr) : res (Checker * option pystr) :=
  let fixed := physical_line ++ [chr_nl] in
  Ok (report_fix o (py "newline added to end of file.") physical_line fixed
        checker, Some fixed).

(** [len(line.decode('utf-8'))], or [None] for [UnicodeDecodeError]: the
    number of code points of a well-formed UTF-8 byte sequence. *)
Definition byte (c : ascii) : Z := Z.of_nat (nat_of_ascii c).

Definition between (lo hi : Z) (c : ascii) : bool :=
  (lo <=? byte c) && (byte c <=? hi).

Fixpoint utf8_len (s : pystr) (n : Z) {struct s} : option Z :=
  match s with
  | [] => Some n
  | b0 :: s1 =>
      if between 0 127 b0 then utf8_len s1 (n + 1)
      else match s1 with
      | [] => None
      | b1 :: s2 =>
          if between 194 223 b0
          then if between 128 191 b1 then utf8_len s2 (n + 1) else None
          else match s2 with
          | [] => None
          | b2 :: s3 =>
              if between 224 239 b0
              then if (if byte b0 =? 224 then between 160 191 b1
                       else if byte b0 =? 237 then between 128 159 b1
                       else between 128 191 b1) && between 128 191 b2
                   then utf8_len s3 (n + 1) else None
              else match s3 with
              | [] => None
              | b3 :: s4 =>
                  if between 240 244 b0 &&
                     (if byte b0 =? 240 then between 144 191 b1
                      else if byte b0 =? 244 then between 128 143 b1
                      else between 128 191 b1) &&
                     between 128 191 b2 && between 128 191 b3
                  then utf8_len s4 (n + 1) else None
              end
          end
      end
  end.

Definition decode_utf8_len (line : pystr) : option Z := utf8_len line 0.

Definition maximum_line_length_check (physical_line : pystr) : result :=
  let line := Py.rstrip physical_line in
  let length := Py.len line in
  let length :=
    if length >? MAX_LINE_LENGTH
    then match decode_utf8_len line with
         | Some n => n
         | None => length
         end
    else length in
  if length >? MAX_LINE_LENGTH
  then Some (OffInt MAX_LINE_LENGTH,
             py "E501 line too long (" ++ Py.str_of_int length ++
             py " characters)")
  else None.

(** *** Logical lines *)

Definition starts_definition (logical_line : pystr) : bool :=
  Py.startswith logical_line (py "def ") ||
  Py.startswith logical_line (py "class ") ||
  Py.startswith logical_line (py "@").

Definition blank_lines_check (logical_line : pystr)
    (blank_lines indent_level line_number : Z) (previous_logical : pystr)
    (previous_indent_level blank_lines_before_comment : Z) : result :=
  if line_number =? 1 then None
  else
    let max_blank_lines := Z.max blank_lines blank_lines_before_comment in
    if Py.startswith previous_logical (py "@")
    then if negb (max_blank_lines =? 0)
         then Some (OffInt 0,
                    py "E304 blank lines found after function decorator")
         else None
    else if (max_blank_lines >? 2) ||
            (negb (indent_level =? 0) && (max_blank_lines =? 2))
    then Some (OffInt 0, py "E303 too many blank lines (" ++
                         Py.str_of_int max_blank_lines ++ py ")")
    else if starts_definition logical_line
    then if negb (indent_level =? 0)
         then if negb (negb (max_blank_lines =? 0) ||
                       (previous_indent_level <? indent_level) ||
                       bool_decide (is_Some (Re.re_match DOCSTRING_REGEX
                                               previous_logical)))
              then Some (OffInt 0, py "E301 expected 1 blank line, found 0")
              else None
         else if negb (max_blank_lines =? 2)
         then Some (OffInt 0, py "E302 expected 2 blank lines, found " ++
                              Py.str_of_int max_blank_lines)
         else None
    else None.

Definition blank_lines_fix (checker : Checker) (logical_line : pystr)
    (blank_lines indent_level line_number : Z) (previous_logical : pystr)
    (previous_indent_level blank_lines_before_comment : Z) : Checker :=
  if line_number =? 1 then checker
  else
    let expected_blank_lines := if negb (indent_level =? 0) then 1 else 2 in
    let max_blank_lines := Z.max blank_lines blank_lines_before_comment in
    if Py.startswith previous_logical (py "@")
    then if negb (max_blank_lines =? 0)
         then set_blank_lines 0 checker
         else checker
    else if max_blank_lines >? expected_blank_lines
    then set_blank_lines (Z.min max_blank_lines expected_blank_lines) checker
    else if starts_definition logical_line
    then if negb (indent_level =? 0)
         then if negb (negb (max_blank_lines =? 0) ||
                       (previous_indent_level <? indent_level) ||
                       bool_decide (is_Some (Re.re_match DOCSTRING_REGEX
                                               previous_logical)))
              then set_blank_lines 1 checker
              else checker
         else if negb (max_blank_lines =? 2)
         then set_blank_lines 2 checker
         else checker
    else checker.

Fixpoint extraneous_whitespace_loop (line : pystr) (ms : list Re.rmatch)
  : res result :=
  match ms with
  | [] => Ok None
  | m :: rest =>
      let text := Re.group0 line m in
      let char := Py.strip text in
      let found := Z.of_nat (Re.m_start m) in
      if bool_decide (text = char ++ py " ") && Py.contains (py "([{") char
      then Ok (Some (OffInt (found + 1),
                     py "E201 whitespace after '" ++ char ++ py "'"))
      else
        before ← (if bool_decide (text = py " " ++ char)
                  then c ← Py.getitem line (found - 1);
                       Ok (negb (Ascii.eqb c ","))
                  else Ok false);
        if (before : bool)
        then if Py.contains (py "}])") char
             then Ok (Some (OffInt found,
                            py "E202 whitespace before '" ++ char ++ py "'"))
             else if Py.contains (py ",;:") char
             then Ok (Some (OffInt found,
                            py "E203 whitespace before '" ++ char ++ py "'"))
             else extraneous_whitespace_loop line rest
        else extraneous_whitespace_loop line rest
  end.

Definition extraneous_whitespace_check (logical_line : pystr) : res result :=
  let line := logical_line in
  extraneous_whitespace_loop line
    (Re.finditer EXTRANEOUS_WHITESPACE_REGEX line).

Definition extraneous_whitespace_fix (checker : Checker)
    (logical_line : pystr) : Checker :=
  set_logical_line
    (Re.sub EXTRANEOUS_WHITESPACE_REGEX
       (fun m => Py.strip (Re.group0 logical_line m)) logical_line)
    checker.

(** [range(n)] *)
Definition range (n : Z) : list Z := map Z.of_nat (seq 0 (Z.to_nat n)).

(** The test both [missing_whitespace] methods make at an index: the
    character is a separator, the next one is no blank, and neither the
    slice nor the one-element exemption applies. *)
Definition separator_needs_space (line : pystr) (index : Z) (char next : ascii)
  : bool :=
  if Py.contains (py ",;:") [char] && negb (Py.contains WHITESPACE [next])
  then
    let before := Py.slice line None (Some index) in
    if Ascii.eqb char ":" && (Py.count before "[" >? Py.count before "]")
    then false
    else if Ascii.eqb char "," && Py.contains (py ")]") [next]
    then false
    else true
  else false.

Fixpoint missing_whitespace_loop (line : pystr) (indices : list Z)
  : res result :=
  match indices with
  | [] => Ok None
  | index :: more =>
      char ← Py.getitem line index;
      next ← Py.getitem line (index + 1);
      if separator_needs_space line index char next
      then Ok (Some (OffInt index,
                     py "E231 missing whitespace after '" ++ [char] ++ py "'"))
      else missing_whitespace_loop line more
  end.

Definition missing_whitespace_check (logical_line : pystr) : res result :=
  let line := logical_line in
  missing_whitespace_loop line (range (Py.len line - 1)).

Fixpoint missing_whitespace_fix_loop (line : pystr)
    (pairs : list (Z * ascii)) : res pystr :=
  match pairs with
  | [] => Ok line
  | (index, char) :: more =>
      next ← Py.getitem line (index + 1);
      if separator_needs_space line index char next
      then missing_whitespace_fix_loop
             (Py.slice line None (Some (index + 1)) ++ py " " ++
              Py.slice line (Some (index + 1)) None) more
      else missing_whitespace_fix_loop line more
  end.

(** [enumerate(l)] *)
Definition enumerate {A : Type} (l : list A) : list (Z * A) :=
  zip (range (Py.len l)) l.

Definition missing_whitespace_fix (checker : Checker) (logical_line : pystr)
  : res Checker :=
  let line := logical_line in
  line ← missing_whitespace_fix_loop line
            (rev (enumerate (Py.slice line None (Some (-1)))));
  Ok (set_logical_line line checker).

Definition indentation_check (logical_line previous_logical : pystr)
    (indent_char : option ascii) (indent_level previous_indent_level : Z)
  : result :=
  if bool_decide (indent_char = Some chr_sp) &&
     negb (indent_level mod 4 =? 0)
  then Some (OffInt 0, py "E111 indentation is not a multiple of four")
  else
    let indent_expect := Py.endswith previous_logical (py ":") in
    if indent_expect && (indent_level <=? previous_indent_level)
    then Some (OffInt 0, py "E112 expected an indented block")
    else if (indent_level >? previous_indent_level) && negb indent_expect
    then Some (OffInt 0, py "E113 unexpected indentation")
    else None.

Fixpoint whitespace_before_parameters_loop (tokens rest : list token)
    (index : Z) (prev_type : token_type) (prev_text : pystr)
    (prev_end : Z * Z) : res result :=
  match rest with
  | [] => Ok None
  | tok :: more =>
      let token_type := t_type tok in
      let text := t_text tok in
      let start := t_start tok in
      let end_ := t_end tok in
      not_class ← (if index <? 2 then Ok true
                   else t ← Py.getitem tokens (index - 2);
                        Ok (bool_decide (t_text t <> py "class")));
      if bool_decide (token_type = OP) &&
         Py.contains (py "([") text &&
         bool_decide (start <> prev_end) &&
         (bool_decide (prev_type = NAME) || Py.contains (py "}])") prev_text) &&
         (not_class : bool) &&
         negb (iskeyword prev_text)
      then Ok (Some (OffPos prev_end,
                     py "E211 whitespace before '" ++ text ++ py "'"))
      else whitespace_before_parameters_loop tokens more (index + 1)
             token_type text end_
  end.

Definition whitespace_before_parameters_check (logical_line : pystr)
    (tokens : list token) : res result :=
  t0 ← Py.getitem tokens 0;
  whitespace_before_parameters_loop tokens (Py.slice tokens (Some 1) None) 1
    (t_type t0) (t_text t0) (t_end t0).

Fixpoint whitespace_around_operator_loop (line : pystr)
    (ms : list Re.rmatch) : result :=
  match ms with
  | [] => None
  | m :: rest =>
      let before := Re.group line m 1 in
      let whitespace := Re.group line m 2 in
      let after := Re.group line m 3 in
      let tab := bool_decide (whitespace = [chr_tab]) in
      let offset := Re.group_start m 2 in
      if Py.member before OPERATORS
      then Some (OffInt offset,
                 if tab then py "E224 tab after operator"
                 else py "E222 multiple spaces after operator")
      else if Py.member after OPERATORS
      then Some (OffInt offset,
                 if tab then py "E223 tab before operator"
                 else py "E221 multiple spaces before operator")
      else whitespace_around_operator_loop line rest
  end.

Definition whitespace_around_operator_check (logical_line : pystr) : result :=
  whitespace_around_operator_loop logical_line
    (Re.finditer WHITESPACE_AROUND_OPERATOR_REGEX logical_line).

Fixpoint whitespace_around_operator_fix_loop (original logical_line : pystr)
    (ms : list Re.rmatch) : pystr :=
  match ms with
  | [] => logical_line
  | m :: rest =>
      let before := Re.group original m 1 in
      let after := Re.group original m 3 in
      let logical_line :=
        if Py.member before OPERATORS || Py.member after OPERATORS
        then Py.slice logical_line None (Some (Z.of_nat (Re.m_start m))) ++
             before ++ py " " ++ after ++
             Py.slice logical_line (Some (Z.of_nat (Re.m_end m))) None
        else logical_line in
      whitespace_around_operator_fix_loop original logical_line rest
  end.

Definition whitespace_around_operator_fix (checker : Checker)
    (logical_line : pystr) : Checker :=
  set_logical_line
    (whitespace_around_operator_fix_loop logical_line logical_line
       (rev (Re.finditer WHITESPACE_AROUND_OPERATOR_REGEX logical_line)))
    checker.

(** The local variables of the loop of [missing_whitespace_around_operator]. *)
Record operator_state : Type := {
  parens : Z;
  need_space : bool;
  prev_type : token_type;
  prev_text : option pystr;
  prev_end : option (Z * Z)
}.

Definition operator_init : operator_state :=
  {| parens := 0; need_space := false; prev_type := OP;
     prev_text := None; prev_end := None |}.

Definition offset_of (p : option (Z * Z)) : offset :=
  match p with
  | Some q => OffPos q
  | None => OffNone
  end.

(** [self.parens] after the token, and whether the operator token needs
    a space, the part both methods share. *)
Definition count_parens (st : operator_state) (text : pystr) : Z :=
  if Py.member text [py "("; py "lambda"] then parens st + 1
  else if bool_decide (text = py ")") then parens st - 1
  else parens st.

Definition operator_needs_space (st : operator_state) (parens : Z)
    (text : pystr) : res bool :=
  if bool_decide (text = py "=") && negb (parens =? 0) then Ok (need_space st)
  else if Py.member text BINARY_OPERATORS then Ok true
  else if Py.member text UNARY_OPERATORS
  then if bool_decide (prev_type st = OP)
       then match prev_text st with
            | Some p => Ok (if Py.contains (py "}])") p then true
                            else need_space st)
            | None => Raise TypeError
            end
       else if bool_decide (prev_type st = NAME)
       then Ok (if negb (Py.member (default [] (prev_text st))
                           E225NOT_KEYWORDS)
                then true else need_space st)
       else Ok true
  else Ok (need_space st).

Definition skipped_by_operator_checks (ty : token_type) : bool :=
  bool_decide (ty = NL) || bool_decide (ty = NEWLINE) ||
  bool_decide (ty = ERRORTOKEN).

Fixpoint missing_whitespace_around_operator_loop (tokens : list token)
    (st : operator_state) : res result :=
  match tokens with
  | [] => Ok None
  | tok :: more =>
      let token_type := t_type tok in
      let text := t_text tok in
      let start := t_start tok in
      let end_ := t_end tok in
      if skipped_by_operator_checks token_type
      then missing_whitespace_around_operator_loop more st
      else
        let parens := count_parens st text in
        let next need :=
          missing_whitespace_around_operator_loop more
            {| parens := parens; need_space := need;
               prev_type := token_type; prev_text := Some text;
               prev_end := Some end_ |} in
        let error :=
          Ok (Some (offset_of (prev_end st),
                    py "E225 missing whitespace around operator")) in
        if need_space st
        then if bool_decide (Some start <> prev_end st) then next false
             else if bool_decide (text = py ">") &&
                     bool_decide (prev_text st = Some (py "<"))
             then next true
             else error
        else if bool_decide (token_type = OP) &&
                bool_decide (prev_end st <> None)
        then need ← operator_needs_space st parens text;
             if (need : bool) && bool_decide (Some start = prev_end st)
             then error
             else next need
        else next false
  end.

Definition missing_whitespace_around_operator_check (logical_line : pystr)
    (tokens : list token) : res result :=
  missing_whitespace_around_operator_loop tokens operator_init.

Fixpoint missing_whitespace_around_operator_fix_loop (tokens : list token)
    (st : operator_state) (space_insertions : list Z) : res (list Z) :=
  match tokens with
  | [] => Ok space_insertions
  | tok :: more =>
      let token_type := t_type tok in
      let text := t_text tok in
      let start := t_start tok in
      let end_ := t_end tok in
      if skipped_by_operator_checks token_type
      then missing_whitespace_around_operator_fix_loop more st
             space_insertions
      else
        let parens := count_parens st text in
        let next need ins :=
          missing_whitespace_around_operator_fix_loop more
            {| parens := parens; need_space := need;
               prev_type := token_type; prev_text := Some text;
               prev_end := Some end_ |} ins in
        if need_space st
        then if bool_decide (Some start <> prev_end st)
             then next false space_insertions
             else if bool_decide (text = py ">") &&
                     bool_decide (prev_text st = Some (py "<"))
             then next true space_insertions
             else match prev_end st with
                  | Some p => next false (space_insertions ++ [snd p])
                  | None => Raise TypeError
                  end
        else if bool_decide (token_type = OP) &&
                bool_decide (prev_end st <> None)
        then need ← operator_needs_space st parens text;
             if (need : bool) && bool_decide (Some start = prev_end st)
             then next need (space_insertions ++ [snd start])
             else next need space_insertions
        else next false space_insertions
  end.

Fixpoint insert_spaces (index_offset : Z) (logical_line : pystr)
    (indices : list Z) : pystr :=
  match indices with
  | [] => logical_line
  | index :: more =>
      let index := index - index_offset in
      insert_spaces index_offset
        (Py.slice logical_line None (Some index) ++ py " " ++
         Py.slice logical_line (Some index) None) more
  end.

Definition missing_whitespace_around_operator_fix (checker : Checker)
    (logical_line : pystr) (tokens : list token) : res Checker :=
  space_insertions ←
    missing_whitespace_around_operator_fix_loop tokens operator_init [];
  let index_offset :=
    Py.len (Py.repeat (match indent_char checker with
                       | Some c => [c]
                       | None => []
                       end) (indent_level checker)) in
  Ok (set_logical_line
        (insert_spaces index_offset logical_line (rev space_insertions))
        checker).

Fixpoint whitespace_around_comma_loop (line : pystr) (separators : pystr)
  : result :=
  match separators with
  | [] => None
  | separator :: more =>
      let found := Py.find line ([separator] ++ py "  ") in
      if found >? -1
      then Some (OffInt (found + 1),
                 py "E241 multiple spaces after '" ++ [separator] ++ py "'")
      else
        let found := Py.find line ([separator] ++ [chr_tab]) in
        if found >? -1
        then Some (OffInt (found + 1),
                   py "E242 tab after '" ++ [separator] ++ py "'")
        else whitespace_around_comma_loop line more
  end.

Definition whitespace_around_comma_check (logical_line : pystr) : result :=
  whitespace_around_comma_loop logical_line (py ",;:").

(** [r'[,;:][ \t]+(?!#)'] *)
Definition COMMA_SPACES_REGEX : Re.regex :=
  Re.seq [Re.set (py ",;:"); Re.plus (Re.set [chr_sp; chr_tab]);
          Re.NegLook (Re.chr "#")].

Definition whitespace_around_comma_fix (checker : Checker)
    (logical_line : pystr) : Checker :=
  set_logical_line
    (Re.sub COMMA_SPACES_REGEX
       (fun m => Py.strip (Re.group0 logical_line m) ++ py " ") logical_line)
    checker.

Fixpoint named_parameter_equals_loop (line : pystr) (ms : list Re.rmatch)
    (parens : Z) : result :=
  match ms with
  | [] => None
  | m :: rest =>
      let text := Re.group0 line m in
      if negb (parens =? 0) && (Py.len text =? 3)
      then Some (OffInt (Z.of_nat (Re.m_start m)),
                 py "E251 no spaces around keyword / parameter equals")
      else named_parameter_equals_loop line rest
             (if bool_decide (text = py "(") then parens + 1
              else if bool_decide (text = py ")") then parens - 1
              else parens)
  end.

Definition whitespace_around_named_parameter_equals_check
    (logical_line : pystr) : result :=
  named_parameter_equals_loop logical_line
    (Re.finditer WHITESPACE_AROUND_NAMED_PARAMETER_REGEX logical_line) 0.

Fixpoint named_parameter_equals_fix_loop (original logical_line : pystr)
    (ms : list Re.rmatch) (parens : Z) : pystr :=
  match ms with
  | [] => logical_line
  | m :: rest =>
      let text := Re.group0 original m in
      let logical_line :=
        if negb (parens =? 0) && (Py.len text =? 3)
        then Py.slice logical_line None (Some (Z.of_nat (Re.m_start m))) ++
             Py.strip text ++
             Py.slice logical_line (Some (Z.of_nat (Re.m_end m))) None
        else logical_line in
      named_parameter_equals_fix_loop original logical_line rest
        (if bool_decide (text = py ")") then parens + 1
         else if bool_decide (text = py "(") then parens - 1
         else parens)
  end.

Definition whitespace_around_named_parameter_equals_fix (checker : Checker)
    (logical_line : pystr) : Checker :=
  set_logical_line
    (named_parameter_equals_fix_loop logical_line logical_line
       (rev (Re.finditer WHITESPACE_AROUND_NAMED_PARAMETER_REGEX
               logical_line)) 0)
    checker.

Fixpoint whitespace_before_inline_comment_loop (tokens : list token)
    (prev_end : Z * Z) : result :=
  match tokens with
  | [] => None
  | tok :: more =>
      let token_type := t_type tok in
      let text := t_text tok in
      let start := t_start tok in
      let end_ := t_end tok in
      let line := t_line tok in
      if bool_decide (token_type = NL)
      then whitespace_before_inline_comment_loop more prev_end
      else if bool_decide (token_type = COMMENT)
      then
        if bool_decide (Py.strip (Py.slice line None (Some (snd start))) = [])
        then whitespace_before_inline_comment_loop more prev_end
        else if (fst prev_end =? fst start) && (snd start <? snd prev_end + 2)
        then Some (OffPos prev_end,
                   py "E261 at least two spaces before inline comment")
        else if (Py.len text >? 1) && Py.startswith text (py "#  ") ||
                negb (Py.startswith text (py "# "))
        then Some (OffPos start,
                   py "E262 inline comment should start with '# '")
        else whitespace_before_inline_comment_loop more prev_end
      else whitespace_before_inline_comment_loop more end_
  end.

Definition whitespace_before_inline_comment_check (logical_line : pystr)
    (tokens : list token) : result :=
  whitespace_before_inline_comment_loop tokens (0, 0).

Definition imports_on_separate_lines_check (logical_line : pystr) : result :=
  let line := logical_line in
  if Py.startswith line (py "import ")
  then
    let found := Py.find line (py ",") in
    if found >? -1
    then Some (OffInt found, py "E401 multiple imports on one line")
    else None
  else None.

(** [r'\blambda\b'] *)
Definition LAMBDA_REGEX : Re.regex :=
  Re.seq [Re.WordB; Re.lit "lambda"; Re.WordB].

Definition compound_statements_check (logical_line : pystr) : result :=
  let line := logical_line in
  let found := Py.find line (py ":") in
  let colon :=
    if (-1 <? found) && (found <? Py.len line - 1)
    then
      let before := Py.slice line None (Some found) in
      if (Py.count before "{" <=? Py.count before "}") &&
         (Py.count before "[" <=? Py.count before "]") &&
         negb (bool_decide (is_Some (Re.re_search LAMBDA_REGEX before)))
      then Some (OffInt found,
                 py "E701 multiple statements on one line (colon)")
      else None
    else None in
  match colon with
  | Some r => Some r
  | None =>
      let found := Py.find line (py ";") in
      if -1 <? found
      then Some (OffInt found,
                 py "E702 multiple statements on one line (semicolon)")
      else None
  end.

Definition python_3000_has_key_check (logical_line : pystr) : result :=
  let pos := Py.find logical_line (py ".has_key(") in
  if pos >? -1
  then Some (OffInt pos, py "W601 .has_key() is deprecated, use 'in'")
  else None.

Definition python_3000_raise_comma_check (logical_line : pystr) : result :=
  match Re.re_match RAISE_COMMA_REGEX logical_line with
  | Some m => Some (OffInt (Re.group_start m 1),
                    py "W602 deprecated form of raising exception")
  | None => None
  end.

(** The replacement [u'raise %s(%s)' % match.groups()] *)
Definition raise_call (line : pystr) (m : Re.rmatch) : pystr :=
  py "raise " ++ Re.group line m 1 ++ py "(" ++ Re.group line m 2 ++ py ")".

(** A byte that the ASCII codec decodes. *)
Definition is_ascii (c : ascii) : bool := byte c <? 128.

(** [RAISE_COMMA_REGEX.sub(lambda match: u'raise %s(%s)' % match.groups(),
    logical_line)].  The replacement is a [unicode] object: formatting
    decodes the groups with the ASCII codec, and joining the replacements
    with the text between the matches decodes that text; either raises
    [UnicodeDecodeError] at a byte from 128 on, and the result is a
    [unicode] object.  Without a match the line is returned as it is; on
    a line that is a [unicode] object nothing is decoded. *)
Definition python_3000_raise_comma_fix (checker : Checker)
    (logical_line : pystr) : res Checker :=
  let matches := Re.finditer RAISE_COMMA_REGEX logical_line in
  let fixed :=
    set_logical_line
      (Re.sub RAISE_COMMA_REGEX (raise_call logical_line) logical_line)
      checker in
  match matches with
  | [] => Ok fixed
  | _ :: _ =>
      if logical_unicode checker then Ok fixed
      else if forallb (fun m =>
                         forallb is_ascii (Re.group logical_line m 1) &&
                         forallb is_ascii (Re.group logical_line m 2))
                matches &&
              forallb is_ascii
                (Re.sub_pieces (fun _ => []) matches logical_line 0)
      then Ok (set_logical_unicode true fixed)
      else Raise UnicodeDecodeError
  end.

Definition python_3000_not_equal_check (logical_line : pystr) : result :=
  let pos := Py.find logical_line (py "<>") in
  if pos >? -1
  then Some (OffInt pos, py "W603 '<>' is deprecated, use '!='")
  else None.

Definition python_3000_backticks_check (logical_line : pystr) : result :=
  let pos := Py.find logical_line (py "`") in
  if pos >? -1
  then Some (OffInt pos, py "W604 backticks are deprecated, use 'repr()'")
  else None.

End Checks.

(** ** The docstrings of the checks

    [check.__doc__] of each class, line by line; [--show-pep8] prints
    them. *)

Module Docs.

(** The text whose lines are [l], with a newline between two lines. *)
Definition text (l : list pystr) : pystr :=
  match l with
  | [] => []
  | first :: rest => first ++ concat (map (fun line => chr_nl :: line) rest)
  end.

Definition tabs_or_spaces : pystr :=
  text
    [[];
     py "    Never mix tabs and spaces.";
     [];
     py "    The most popular way of indenting Python is with spaces only.  The";
     py "    second-most popular way is with tabs only.  Code indented with a mixture";
     py "    of tabs and spaces should be converted to using spaces exclusively.  When";
     py "    invoking the Python command line interpreter with the -t option, it issues";
     py "    warnings about code that illegally mixes tabs and spaces.  When using -tt";
     py "    these warnings become errors.  These options are highly recommended!";
     [];
     py "    Okay: if a == 0:\n        a = 1\n        b = 1";
     py "    E101: if a == 0:\n        a = 1\n\tb = 1";
     py "    "].

Definition tabs_obsolete : pystr :=
  text
    [[];
     py "    For new projects, spaces-only are strongly recommended over tabs.  Most";
     py "    editors have features that make this easy to do.";
     [];
     py "    Okay: if True:\n    return";
     py "    W191: if True:\n\treturn";
     py "    "].

Definition trailing_whitespace : pystr :=
  text
    [[];
     py "    JCR: Trailing whitespace is superfluous.";
     py "    FBM: Except when it occurs as part of a blank line (i.e. the line is";
     py "         nothing but whitespace). According to Python docs[1] a line with only";
     py "         whitespace is considered a blank line, and is to be ignored. However,";
     py "         matching a blank line to its indentation level avoids mistakenly";
     py "         terminating a multi-line statement (e.g. class declaration) when";
     py "         pasting code into the standard Python interpreter.";
     [];
     py "         [1] http://docs.python.org/reference/lexical_analysis.html#blank-lines";
     [];
     py "    The warning returned varies on whether the line itself is blank, for easier";
     py "    filtering for those who want to indent their blank lines.";
     [];
     py "    Okay: spam(1)";
     py "    W291: spam(1)\s";
     py "    W293: class Foo(object):\n    \n    bang = 12";
     py "    "].

Definition trailing_blank_lines : pystr :=
  text
    [[];
     py "    JCR: Trailing blank lines are superfluous.";
     [];
     py "    Okay: spam(1)";
     py "    W391: spam(1)\n";
     py "    "].

Definition missing_newline : pystr :=
  text
    [[];
     py "    JCR: The last line should have a newline.";
     py "    "].

Definition maximum_line_length : pystr :=
  text
    [[];
     py "    Limit all lines to a maximum of 79 characters.";
     [];
     py "    There are still many devices around that are limited to 80 character";
     py "    lines; plus, limiting windows to 80 characters makes it possible to have";
     py "    several windows side-by-side.  The default wrapping on such devices looks";
     py "    ugly.  Therefore, please limit all lines to a maximum of 79 characters.";
     py "    For flowing long blocks of text (docstrings or comments), limiting the";
     py "    length to 72 characters is recommended.";
     py "    "].

Definition blank_lines : pystr :=
  text
    [[];
     py "    Separate top-level function and class definitions with two blank lines.";
     [];
     py "    Method definitions inside a class are separated by a single blank line.";
     [];
     py "    Extra blank lines may be used (sparingly) to separate groups of related";
     py "    functions.  Blank lines may be omitted between a bunch of related";
     py "    one-liners (e.g. a set of dummy implementations).";
     [];
     py "    Use blank lines in functions, sparingly, to indicate logical sections.";
     [];
     py "    Okay: def a():\n    pass\n\n\ndef b():\n    pass";
     py "    Okay: def a():\n    pass\n\n\n# Foo\n# Bar\n\ndef b():\n    pass";
     [];
     py "    E301: class Foo:\n    b = 0\n    def bar():\n        pass";
     py "    E302: def a():\n    pass\n\ndef b(n):\n    pass";
     py "    E303: def a():\n    pass\n\n\n\ndef b(n):\n    pass";
     py "    E303: def a():\n\n\n\n    pass";
     py "    E304: @decorator\n\ndef a():\n    pass";
     py "    "].

Definition extraneous_whitespace : pystr :=
  text
    [[];
     py "    Avoid extraneous whitespace in the following situations:";
     [];
     py "    - Immediately inside parentheses, brackets or braces.";
     [];
     py "    - Immediately before a comma, semicolon, or colon.";
     [];
     py "    Okay: spam(ham[1], {eggs: 2})";
     py "    E201: spam( ham[1], {eggs: 2})";
     py "    E201: spam(ham[ 1], {eggs: 2})";
     py "    E201: spam(ham[1], { eggs: 2})";
     py "    E202: spam(ham[1], {eggs: 2} )";
     py "    E202: spam(ham[1 ], {eggs: 2})";
     py "    E202: spam(ham[1], {eggs: 2 })";
     [];
     py "    E203: if x == 4: print x, y; x, y = y , x";
     py "    E203: if x == 4: print x, y ; x, y = y, x";
     py "    E203: if x == 4 : print x, y; x, y = y, x";
     py "    "].

Definition missing_whitespace : pystr :=
  text
    [[];
     py "    JCR: Each comma, semicolon or colon should be followed by whitespace.";
     [];
     py "    Okay: [a, b]";
     py "    Okay: (3,)";
     py "    Okay: a[1:4]";
     py "    Okay: a[:4]";
     py "    Okay: a[1:]";
     py "    Okay: a[1:4:2]";
     py "    E231: ['a','b']";
     py "    E231: foo(bar,baz)";
     py "    "].

Definition indentation : pystr :=
  text
    [[];
     py "    Use 4 spaces per indentation level.";
     [];
     py "    For really old code that you don't want to mess up, you can continue to";
     py "    use 8-space tabs.";
     [];
     py "    Okay: a = 1";
     py "    Okay: if a == 0:\n    a = 1";
     py "    E111:   a = 1";
     [];
     py "    Okay: for item in items:\n    pass";
     py "    E112: for item in items:\npass";
     [];
     py "    Okay: a = 1\nb = 2";
     py "    E113: a = 1\n    b = 2";
     py "    "].

Definition whitespace_before_parameters : pystr :=
  text
    [[];
     py "    Avoid extraneous whitespace in the following situations:";
     [];
     py "    - Immediately before the open parenthesis that starts the argument";
     py "      list of a function call.";
     [];
     py "    - Immediately before the open parenthesis that starts an indexing or";
     py "      slicing.";
     [];
     py "    Okay: spam(1)";
     py "    E211: spam (1)";
     [];
     py "    Okay: dict['key'] = list[index]";
     py "    E211: dict ['key'] = list[index]";
     py "    E211: dict['key'] = list [index]";
     py "    "].

Definition whitespace_around_operator : pystr :=
  text
    [[];
     py "    Avoid extraneous whitespace in the following situations:";
     [];
     py "    - More than one space around an assignment (or other) operator to";
     py "      align it with another.";
     [];
     py "    Okay: a = 12 + 3";
     py "    E221: a = 4  + 5";
     py "    E222: a = 4 +  5";
     py "    E223: a = 4" ++ [chr_tab] ++ py "+ 5";
     py "    E224: a = 4 +" ++ [chr_tab] ++ py "5";
     py "    "].

Definition missing_whitespace_around_operator : pystr :=
  text
    [[];
     py "    - Always surround these binary operators with a single space on";
     py "      either side: assignment (=), augmented assignment (+=, -= etc.),";
     py "      comparisons (==, <, >, !=, <>, <=, >=, in, not in, is, is not),";
     py "      Booleans (and, or, not).";
     [];
     py "    - Use spaces around arithmetic operators.";
     [];
     py "    Okay: i = i + 1";
     py "    Okay: submitted += 1";
     py "    Okay: x = x * 2 - 1";
     py "    Okay: hypot2 = x * x + y * y";
     py "    Okay: c = (a + b) * (a - b)";
     py "    Okay: foo(bar, key='word', *args, **kwargs)";
     py "    Okay: baz(**kwargs)";
     py "    Okay: negative = -1";
     py "    Okay: spam(-1)";
     py "    Okay: alpha[:-i]";
     py "    Okay: if not -5 < x < +5:\n    pass";
     py "    Okay: lambda *args, **kw: (args, kw)";
     [];
     py "    E225: i=i+1";
     py "    E225: submitted +=1";
     py "    E225: x = x*2 - 1";
     py "    E225: hypot2 = x*x + y*y";
     py "    E225: c = (a+b) * (a-b)";
     py "    E225: c = alpha -4";
     py "    E225: z = x **y";
     py "    "].

Definition whitespace_around_comma : pystr :=
  text
    [[];
     py "    Avoid extraneous whitespace in the following situations:";
     [];
     py "    - More than one space around an assignment (or other) operator to";
     py "      align it with another.";
     [];
     py "    JCR: This should also be applied around comma etc.";
     py "    Note: these checks are disabled by default";
     [];
     py "    Okay: a = (1, 2)";
     py "    E241: a = (1,  2)";
     py "    E242: a = (1," ++ [chr_tab] ++ py "2)";
     py "    "].

Definition whitespace_around_named_parameter_equals : pystr :=
  text
    [[];
     py "    Don't use spaces around the '=' sign when used to indicate a";
     py "    keyword argument or a default parameter value.";
     [];
     py "    Okay: def complex(real, imag=0.0):";
     py "    Okay: return magic(r=real, i=imag)";
     py "    Okay: boolean(a == b)";
     py "    Okay: boolean(a != b)";
     py "    Okay: boolean(a <= b)";
     py "    Okay: boolean(a >= b)";
     [];
     py "    E251: def complex(real, imag = 0.0):";
     py "    E251: return magic(r = real, i = imag)";
     py "    "].

Definition whitespace_before_inline_comment : pystr :=
  text
    [[];
     py "    Separate inline comments by at least two spaces.";
     [];
     py "    An inline comment is a comment on the same line as a statement.  Inline";
     py "    comments should be separated by at least two spaces from the statement.";
     py "    They should start with a # and a single space.";
     [];
     py "    Okay: x = x + 1  # Increment x";
     py "    Okay: x = x + 1    # Increment x";
     py "    E261: x = x + 1 # Increment x";
     py "    E262: x = x + 1  #Increment x";
     py "    E262: x = x + 1  #  Increment x";
     py "    "].

Definition imports_on_separate_lines : pystr :=
  text
    [[];
     py "    Imports should usually be on separate lines.";
     [];
     py "    Okay: import os\nimport sys";
     py "    E401: import sys, os";
     [];
     py "    Okay: from subprocess import Popen, PIPE";
     py "    Okay: from myclas import MyClass";
     py "    Okay: from foo.bar.yourclass import YourClass";
     py "    Okay: import myclass";
     py "    Okay: import foo.bar.yourclass";
     py "    "].

Definition compound_statements : pystr :=
  text
    [[];
     py "    Compound statements (multiple statements on the same line) are";
     py "    generally discouraged.";
     [];
     py "    While sometimes it's okay to put an if/for/while with a small body";
     py "    on the same line, never do this for multi-clause statements. Also";
     py "    avoid folding such long lines!";
     [];
     py "    Okay: if foo == 'blah':\n    do_blah_thing()";
     py "    Okay: do_one()";
     py "    Okay: do_two()";
     py "    Okay: do_three()";
     [];
     py "    E701: if foo == 'blah': do_blah_thing()";
     py "    E701: for x in lst: total += x";
     py "    E701: while t < 10: t = delay()";
     py "    E701: if foo == 'blah': do_blah_thing()";
     py "    E701: else: do_non_blah_thing()";
     py "    E701: try: something()";
     py "    E701: finally: cleanup()";
     py "    E701: if foo == 'blah': one(); two(); three()";
     [];
     py "    E702: do_one(); do_two(); do_three()";
     py "    "].

Definition python_3000_has_key : pystr :=
  text
    [[];
     py "    The {}.has_key() method will be removed in the future version of";
     py "    Python. Use the 'in' operation instead, like:";
     py "    d = {" ++ [chr_dq] ++ py "a" ++ [chr_dq] ++ py ": 1, " ++ [chr_dq] ++ py "b" ++ [chr_dq] ++ py ": 2}";
     py "    if " ++ [chr_dq] ++ py "b" ++ [chr_dq] ++ py " in d:";
     py "        print d[" ++ [chr_dq] ++ py "b" ++ [chr_dq] ++ py "]";
     py "    "].

Definition python_3000_raise_comma : pystr :=
  text
    [[];
     py "    When raising an exception, use " ++ [chr_dq] ++ py "raise ValueError('message')" ++ [chr_dq];
     py "    instead of the older form " ++ [chr_dq] ++ py "raise ValueError, 'message'" ++ [chr_dq] ++ py ".";
     [];
     py "    The paren-using form is preferred because when the exception arguments";
     py "    are long or include string formatting, you don't need to use line";
     py "    continuation characters thanks to the containing parentheses.  The older";
     py "    form will be removed in Python 3000.";
     py "    "].

Definition python_3000_not_equal : pystr :=
  text
    [[];
     py "    != can also be written <>, but this is an obsolete usage kept for";
     py "    backwards compatibility only. New code should always use !=.";
     py "    The older syntax is removed in Python 3000.";
     py "    "].

Definition python_3000_backticks : pystr :=
  text
    [[];
     py "    Backticks are removed in Python 3000.";
     py "    Use repr() instead.";
     py "    "].

End Docs.

(** ** The registry of checks *)

(** A check instance: its class name, its [codes], the name of the first
    argument of [check], the [check] method applied to the attributes its
    signature names, and the [fix] method when the class has one
    ([hasattr(check, 'fix')]).  A fix returns the checker it may have
    changed and its return value. *)
Record Check : Type := {
  name : pystr;
  doc : pystr;
  codes : list pystr;
  first_argument : pystr;
  check : Checker -> res Checks.result;
  fix_method : option (options -> Checker -> res (Checker * option pystr))
}.

Module Registry.
Import Checks.

Definition pure_fix (f : Checker -> Checker)
  : option (options -> Checker -> res (Checker * option pystr)) :=
  Some (fun _ c => Ok (f c, None)).

Definition tabs_or_spaces : Check :=
  {| name := py "tabs_or_spaces"; doc := Docs.tabs_or_spaces;
     codes := [py "E101"];
     first_argument := py "physical_line";
     check := fun c => tabs_or_spaces_check (physical_line c) (indent_char c);
     fix_method := Some (fun o c =>
                    tabs_or_spaces_fix o c (physical_line c) (indent_char c)) |}.

Definition tabs_obsolete : Check :=
  {| name := py "tabs_obsolete"; doc := Docs.tabs_obsolete;
     codes := [py "W191"];
     first_argument := py "physical_line";
     check := fun c => tabs_obsolete_check (physical_line c);
     fix_method := Some (fun o c => tabs_obsolete_fix o c (physical_line c)) |}.

Definition trailing_whitespace : Check :=
  {| name := py "trailing_whitespace"; doc := Docs.trailing_whitespace;
     codes := [py "W291"; py "W293"];
     first_argument := py "physical_line";
     check := fun c => Ok (trailing_whitespace_check (physical_line c));
     fix_method := Some (fun o c => trailing_whitespace_fix o c (physical_line c)) |}.

Definition trailing_blank_lines : Check :=
  {| name := py "trailing_blank_lines"; doc := Docs.trailing_blank_lines;
     codes := [py "W391"];
     first_argument := py "physical_line";
     check := fun c => Ok (trailing_blank_lines_check (physical_line c)
                             (lines c) (line_number c));
     fix_method := Some (fun o c => trailing_blank_lines_fix o c (physical_line c)
                               (lines c) (line_number c)) |}.

Definition missing_newline : Check :=
  {| name := py "missing_newline"; doc := Docs.missing_newline;
     codes := [py "W292"];
     first_argument := py "physical_line";
     check := fun c => Ok (missing_newline_check (physical_line c));
     fix_method := Some (fun o c => missing_newline_fix o c (physical_line c)) |}.

Definition maximum_line_length : Check :=
  {| name := py "maximum_line_length"; doc := Docs.maximum_line_length;
     codes := [py "E501"];
     first_argument := py "physical_line";
     check := fun c => Ok (maximum_line_length_check (physical_line c));
     fix_method := None |}.

Definition blank_lines : Check :=
  {| name := py "blank_lines"; doc := Docs.blank_lines;
    
     codes := [py "E301"; py "E302"; py "E303"; py "E304"];
     first_argument := py "logical_line";
     check := fun c =>
       Ok (blank_lines_check (logical_line c) (blank_lines c)
             (indent_level c) (line_number c) (previous_logical c)
             (previous_indent_level c) (blank_lines_before_comment c));
     fix_method := pure_fix (fun c =>
       blank_lines_fix c (logical_line c) (blank_lines c)
         (indent_level c) (line_number c) (previous_logical c)
         (previous_indent_level c) (blank_lines_before_comment c)) |}.

Definition extraneous_whitespace : Check :=
  {| name := py "extraneous_whitespace"; doc := Docs.extraneous_whitespace;
    
     codes := [py "E201"; py "E202"; py "E203"];
     first_argument := py "logical_line";
     check := fun c => extraneous_whitespace_check (logical_line c);
     fix_method := pure_fix (fun c => extraneous_whitespace_fix c (logical_line c)) |}.

Definition missing_whitespace : Check :=
  {| name := py "missing_whitespace"; doc := Docs.missing_whitespace;
     codes := [py "E231"];
     first_argument := py "logical_line";
     check := fun c => missing_whitespace_check (logical_line c);
     fix_method := Some (fun _ c =>
                    c' ← missing_whitespace_fix c (logical_line c);
                    Ok (c', None)) |}.

Definition indentation : Check :=
  {| name := py "indentation"; doc := Docs.indentation;
     codes := [py "E111"; py "E112"; py "E113"];
     first_argument := py "logical_line";
     check := fun c =>
       Ok (indentation_check (logical_line c) (previous_logical c)
             (indent_char c) (indent_level c) (previous_indent_level c));
     fix_method := None |}.

Definition whitespace_before_parameters : Check :=
  {| name := py "whitespace_before_parameters"; doc := Docs.whitespace_before_parameters;
     codes := [py "E211"];
     first_argument := py "logical_line";
     check := fun c =>
       whitespace_before_parameters_check (logical_line c) (tokens c);
     fix_method := None |}.

Definition whitespace_around_operator : Check :=
  {| name := py "whitespace_around_operator"; doc := Docs.whitespace_around_operator;
    
     codes := [py "E221"; py "E222"; py "E223"; py "E224"];
     first_argument := py "logical_line";
     check := fun c => Ok (whitespace_around_operator_check (logical_line c));
     fix_method := pure_fix (fun c =>
                        whitespace_around_operator_fix c (logical_line c)) |}.

Definition missing_whitespace_around_operator : Check :=
  {| name := py "missing_whitespace_around_operator"; doc := Docs.missing_whitespace_around_operator;
     codes := [py "E225"];
     first_argument := py "logical_line";
     check := fun c =>
       missing_whitespace_around_operator_check (logical_line c) (tokens c);
     fix_method := Some (fun _ c =>
       c' ← missing_whitespace_around_operator_fix c (logical_line c)
              (tokens c);
       Ok (c', None)) |}.

Definition whitespace_around_comma : Check :=
  {| name := py "whitespace_around_comma"; doc := Docs.whitespace_around_comma;
     codes := [py "E241"; py "E242"];
     first_argument := py "logical_line";
     check := fun c => Ok (whitespace_around_comma_check (logical_line c));
     fix_method := pure_fix (fun c =>
                        whitespace_around_comma_fix c (logical_line c)) |}.

Definition whitespace_around_named_parameter_equals : Check :=
  {| name := py "whitespace_around_named_parameter_equals"; doc := Docs.whitespace_around_named_parameter_equals;
    
     codes := [py "E251"];
     first_argument := py "logical_line";
     check := fun c =>
       Ok (whitespace_around_named_parameter_equals_check (logical_line c));
     fix_method := pure_fix (fun c =>
       whitespace_around_named_parameter_equals_fix c (logical_line c)) |}.

(** The class spells its list [CODES]: the attribute [codes] the registry
    reads is the empty one of the base class. *)
Definition whitespace_before_inline_comment : Check :=
  {| name := py "whitespace_before_inline_comment"; doc := Docs.whitespace_before_inline_comment;
     codes := [];
     first_argument := py "logical_line";
     check := fun c =>
       Ok (whitespace_before_inline_comment_check (logical_line c) (tokens c));
     fix_method := None |}.

Definition imports_on_separate_lines : Check :=
  {| name := py "imports_on_separate_lines"; doc := Docs.imports_on_separate_lines;
     codes := [py "E401"];
     first_argument := py "logical_line";
     check := fun c => Ok (imports_on_separate_lines_check (logical_line c));
     fix_method := None |}.

Definition compound_statements : Check :=
  {| name := py "compound_statements"; doc := Docs.compound_statements;
     codes := [py "E701"; py "E702"];
     first_argument := py "logical_line";
     check := fun c => Ok (compound_statements_check (logical_line c));
     fix_method := None |}.

Definition python_3000_has_key : Check :=
  {| name := py "python_3000_has_key"; doc := Docs.python_3000_has_key;
     codes := [py "W601"];
     first_argument := py "logical_line";
     check := fun c => Ok (python_3000_has_key_check (logical_line c));
     fix_method := None |}.

Definition python_3000_raise_comma : Check :=
  {| name := py "python_3000_raise_comma"; doc := Docs.python_3000_raise_comma;
     codes := [py "W602"];
     first_argument := py "logical_line";
     check := fun c => Ok (python_3000_raise_comma_check (logical_line c));
     fix_method := Some (fun _ c =>
                        c ← python_3000_raise_comma_fix c (logical_line c);
                        Ok (c, None)) |}.

Definition python_3000_not_equal : Check :=
  {| name := py "python_3000_not_equal"; doc := Docs.python_3000_not_equal;
     codes := [py "W603"];
     first_argument := py "logical_line";
     check := fun c => Ok (python_3000_not_equal_check (logical_line c));
     fix_method := None |}.

Definition python_3000_backticks : Check :=
  {| name := py "python_3000_backticks"; doc := Docs.python_3000_backticks;
     codes := [py "W604"];
     first_argument := py "logical_line";
     check := fun c => Ok (python_3000_backticks_check (logical_line c));
     fix_method := None |}.

(** [Check.all_checks]: the instances in the order the classes are
    defined. *)
Definition all_checks : list Check :=
  [tabs_or_spaces; tabs_obsolete; trailing_whitespace; trailing_blank_lines;
   missing_newline; maximum_line_length; blank_lines; extraneous_whitespace;
   missing_whitespace; indentation; whitespace_before_parameters;
   whitespace_around_operator; missing_whitespace_around_operator;
   whitespace_around_comma; whitespace_around_named_parameter_equals;
   whitespace_before_inline_comment; imports_on_separate_lines;
   compound_statements; python_3000_has_key; python_3000_raise_comma;
   python_3000_not_equal; python_3000_backticks].

(** Byte-wise order of strings, the order [checks.sort()] puts the class
    names in. *)
Fixpoint str_le (a b : pystr) : bool :=
  match a, b with
  | [], _ => true
  | _ :: _, [] => false
  | x :: a', y :: b' =>
      (nat_of_ascii x <? nat_of_ascii y)%nat ||
      ((nat_of_ascii x =? nat_of_ascii y)%nat && str_le a' b')
  end.

Fixpoint insert_check (c : Check) (l : list Check) : list Check :=
  match l with
  | [] => [c]
  | d :: l' => if str_le (name c) (name d) then c :: l
               else d :: insert_check c l'
  end.

Definition sort_checks (l : list Check) : list Check :=
  fold_right insert_check [] l.

(** Whether one code of the check is not ignored (the inner loop). *)
Definition some_code_wanted (o : options) (c : Check) : bool :=
  existsb (fun code => bool_decide (code = []) ||
                       negb (truthy (ignore_code o code)))
          (match codes c with [] => [[]] | cs => cs end).

(** [find_checks(argument_name)] *)
Definition find_checks (o : options) (argument_name : pystr) : list Check :=
  sort_checks
    (filter (fun c => Py.startswith (first_argument c) argument_name &&
                      some_code_wanted o c)
            all_checks).

(** [options.physical_checks] and [options.logical_checks] *)
Definition physical_checks (o : options) : list Check :=
  find_checks o (py "physical_line").
Definition logical_checks (o : options) : list Check :=
  find_checks o (py "logical_line").

End Registry.

(** ** The framework: the methods of [Checker] *)

(** [options.counters[key] += n] *)
Definition add_counter (key : pystr) (n : Z) (c : Checker) : res Checker :=
  match counters c !! key with
  | Some v => Ok (set_counters (<[key := v + n]> (counters c)) c)
  | None => Raise KeyError
  end.

(** [self.writer.write(text)] for a [str], and for a [unicode] object:
    [StringIO] keeps what is written unless it is empty. *)
Definition write (text : pystr) (c : Checker) : Checker :=
  set_writer (writer c ++ text) c.

Definition write_unicode (text : pystr) (c : Checker) : Checker :=
  match text with
  | [] => c
  | _ :: _ => set_writer_unicode true (write text c)
  end.

(** [Checker.report_error(line_number, offset, text, check)] *)
Definition report_error (o : options) (line_number offset : Z) (text : pystr)
    (check : Check) (c : Checker) : res Checker :=
  let code := Py.slice text None (Some 4) in
  if truthy (ignore_code o code) then Ok c
  else
    let c := if (quiet o =? 1) && (file_errors c =? 0)
             then message (filename c) c else c in
    let c :=
      match counters c !! code with
      | Some n => set_counters (<[code := n + 1]> (counters c)) c
      | None =>
          set_messages (<[code := Py.slice text (Some 5) None]> (messages c))
            (set_counters (<[code := 1]> (counters c)) c)
      end in
    if negb (quiet o =? 0) || Py.member code (expected c) then Ok c
    else
      let c := set_file_errors (file_errors c + 1) c in
      if bool_decide (counters c !! code = Some 1) || repeat_ o
      then
        let c :=
          message (filename c ++ py ":" ++
                   Py.str_of_int (line_offset c + line_number) ++ py ":" ++
                   Py.str_of_int (offset + 1) ++ py ": " ++ text) c in
        c ← (if show_source o
             then line ← Py.getitem (lines c) (line_number - 1);
                  Ok (message (Py.repeat (py " ") offset ++ py "^")
                        (message (Py.rstrip line) c))
             else Ok c);
        if show_pep8 o
        then Ok (message (Py.rstrip (Py.lstrip_chr chr_nl (doc check))) c)
        else Ok c
      else Ok c.

(** The fix step both check loops share: [if options.fix and
    hasattr(check, 'fix')], then the code must not be ignored. *)
Definition fix_wanted (o : options) (chk : Check) (text : pystr)
  : option (options -> Checker -> res (Checker * option pystr)) :=
  if fix_ o
  then match fix_method chk with
       | Some f =>
           let code := Py.slice text None (Some 4) in
           if negb (truthy (ignore_code o code)) then Some f else None
       | None => None
       end
  else None.

Fixpoint run_physical_checks (o : options) (checks : list Check)
    (c : Checker) : res Checker :=
  match checks with
  | [] => Ok c
  | chk :: rest =>
      result ← check chk c;
      c ← match result with
          | None => Ok c
          | Some (offset, text) =>
              offset ← match offset with
                       | OffInt n => Ok n
                       | _ => Raise TypeError
                       end;
              c ← report_error o (line_number c) offset text chk c;
              match fix_wanted o chk text with
              | Some f =>
                  r ← f o c;
                  match snd r with
                  | Some fixed => Ok (set_physical_line fixed (fst r))
                  | None => Raise TypeError
                  end
              | None => Ok c
              end
          end;
      run_physical_checks o rest c
  end.

(** [Checker.check_physical(line)] *)
Definition check_physical (o : options) (line : pystr) (c : Checker)
  : res Checker :=
  let c := set_physical_line line c in
  let c :=
    match indent_char c, line with
    | None, first :: _ =>
        if Py.contains (py " " ++ [chr_tab]) [first]
        then set_indent_char (Some first) c else c
    | _, _ => c
    end in
  c ← run_physical_checks o (Registry.physical_checks o) c;
  Ok (set_fixed_physical_lines
        (fixed_physical_lines c ++ [physical_line c]) c).

(** [Checker.readline()]: the checker with the line read. *)
Definition readline (c : Checker) : res (Checker * pystr) :=
  let c := set_line_number (line_number c + 1) c in
  if line_number c >? Py.len (lines c) then Ok (c, [])
  else line ← Py.getitem (lines c) (line_number c - 1); Ok (c, line).

(** [Checker.readline_check_physical()] *)
Definition readline_check_physical (o : options) (c : Checker)
  : res (Checker * pystr) :=
  r ← readline c;
  match snd r with
  | [] => Ok r
  | line => c ← check_physical o line (fst r); Ok (c, line)
  end.

(** What [build_tokens_line] puts between the previous kept token and
    the token whose (muted) text is [text]. *)
Definition fill_between (lines : list pystr) (previous tok : token)
    (text : pystr) : res (list pystr) :=
  let '(end_line, end_) := t_end previous in
  let '(start_line, start) := t_start tok in
  if bool_decide (end_line <> start_line)
  then line ← Py.getitem lines (end_line - 1);
       prev_text ← Py.getitem line (end_ - 1);
       if Ascii.eqb prev_text "," ||
          (negb (Py.contains (py "{[(") [prev_text]) &&
           negb (Py.contains (py "}])") text))
       then Ok [py " "]
       else Ok []
  else if bool_decide (end_ <> start)
  then line ← Py.getitem lines (end_line - 1);
       Ok [Py.slice line (Some end_) (Some start)]
  else Ok [].

(** The local variables of [build_tokens_line] with the two attributes the
    loop appends to. *)
Record build_state : Type := {
  b_mapping : list (Z * token);
  b_muted_strings : list pystr;
  b_logical : list pystr;
  b_length : Z;
  b_previous : option token
}.

Fixpoint build_loop (lines : list pystr) (toks : list token)
    (st : build_state) : res build_state :=
  match toks with
  | [] => Ok st
  | tok :: rest =>
      if bool_decide (t_type tok ∈ SKIP_TOKENS)
      then build_loop lines rest st
      else
        let muted := bool_decide (t_type tok = STRING) in
        let text := if muted then mute_string (t_text tok) else t_text tok in
        fill ← match b_previous st with
               | Some previous => fill_between lines previous tok text
               | None => Ok []
               end;
        let length := b_length st + Py.len (Py.join fill) in
        build_loop lines rest
          {| b_mapping := b_mapping st ++ [(length, tok)];
             b_muted_strings :=
               if muted then b_muted_strings st ++ [t_text tok]
               else b_muted_strings st;
             b_logical := b_logical st ++ fill ++ [text];
             b_length := length + Py.len text;
             b_previous := Some tok |}
  end.

(** [build_tokens_line] up to its last statement: the logical line
    before the assertion. *)
Definition build_tokens_line_body (c : Checker) : res Checker :=
  st ← build_loop (lines c) (tokens c)
         {| b_mapping := []; b_muted_strings := muted_strings c;
            b_logical := []; b_length := 0; b_previous := None |};
  Ok (set_logical_unicode false
        (set_logical_line (Py.rstrip (Py.join (b_logical st)))
           (set_muted_strings (b_muted_strings st)
              (set_mapping (b_mapping st) c)))).

(** [Checker.build_tokens_line()] *)
Definition build_tokens_line (c : Checker) : res Checker :=
  c ← build_tokens_line_body c;
  if bool_decide (Py.lstrip (logical_line c) = logical_line c)
  then Ok c else Raise AssertionError.

(** The translation of a check's offset to a source position: the loop
    over [self.mapping], whose variables [original_number] and
    [original_offset] keep the value of an earlier check when no entry
    applies. *)
Fixpoint resolve_loop (mapping : list (Z * token)) (offset : Z)
    (original : option (Z * Z)) : option (Z * Z) :=
  match mapping with
  | [] => original
  | (token_offset, tok) :: rest =>
      resolve_loop rest offset
        (if offset >=? token_offset
         then Some (fst (t_start tok), snd (t_start tok) + offset - token_offset)
         else original)
  end.

Definition resolve (mapping : list (Z * token)) (offset : offset)
    (original : option (Z * Z)) : option (Z * Z) :=
  match offset with
  | OffPos p => Some p
  | OffInt n => resolve_loop mapping n original
  | OffNone => original
  end.

Fixpoint run_logical_checks (o : options) (checks : list Check)
    (original : option (Z * Z)) (c : Checker) : res Checker :=
  match checks with
  | [] => Ok c
  | chk :: rest =>
      result ← check chk c;
      match result with
      | None => run_logical_checks o rest original c
      | Some (offset, text) =>
          let original := resolve (mapping c) offset original in
          match original with
          | None => Raise NameError
          | Some (original_number, original_offset) =>
              c ← report_error o original_number original_offset text chk c;
              c ← match fix_wanted o chk text with
                  | Some f =>
                      r ← f o c;
                      match snd r with
                      | Some fixed => Ok (set_logical_line fixed (fst r))
                      | None => Ok (fst r)
                      end
                  | None => Ok c
                  end;
              run_logical_checks o rest original c
          end
      end
  end.

(** [list(sorted(set))] of the rows, minus one, the mapped tokens start
    and end on. *)
Fixpoint insert_row (n : Z) (l : list Z) : list Z :=
  match l with
  | [] => [n]
  | m :: l' => if n <? m then n :: l
               else if n =? m then l
               else m :: insert_row n l'
  end.

Definition physical_rows (mapping : list (Z * token)) : list Z :=
  fold_left (fun acc e =>
               insert_row (fst (t_end (snd e)) - 1)
                 (insert_row (fst (t_start (snd e)) - 1) acc))
            mapping [].

(** The [while] loop that moves the prefix letters of a string literal
    to [str_modifiers]; it does not end on a text without a quote. *)
Fixpoint split_modifiers (muted_string : pystr) : res (pystr * pystr) :=
  match muted_string with
  | [] => Raise NonTermination
  | ch :: rest =>
      if Py.member [ch] [[chr_dq]; [chr_sq]] then Ok ([], muted_string)
      else r ← split_modifiers rest; Ok (ch :: fst r, snd r)
  end.

(** The loop that puts the original string literals back.  [unicode]
    says whether [logical_line] is a [unicode] object: concatenating it
    with a literal then decodes the literal with the ASCII codec. *)
Fixpoint restore_strings (unicode : bool) (muted : list pystr)
    (str_index : Z) (logical_line : pystr) : res pystr :=
  match muted with
  | [] => Ok logical_line
  | muted_string :: rest =>
      r ← split_modifiers muted_string;
      let str_modifiers := fst r in
      let muted_string := snd r in
      let quotes := Py.slice muted_string None (Some 1) in
      let quotes :=
        if bool_decide (Py.slice muted_string None (Some 3) =
                        Py.repeat quotes 3)
        then Py.slice muted_string None (Some 3) else quotes in
      let xs :=
        Py.slice muted_string None (Some (Py.len quotes)) ++
        Py.repeat (py "x") (Py.len muted_string - 2 * Py.len quotes) ++
        Py.slice muted_string (Some (- Py.len quotes)) None in
      let muted_string := str_modifiers ++ muted_string in
      let found :=
        Py.find (Py.slice logical_line (Some str_index) None)
                (str_modifiers ++ xs) in
      if found <? 0 then Raise AttributeError
      else if unicode && negb (forallb Checks.is_ascii muted_string)
      then Raise UnicodeDecodeError
      else
        let str_index := str_index + found in
        let logical_line :=
          Py.slice logical_line None (Some str_index) ++ muted_string ++
          Py.slice logical_line (Some (str_index + Py.len muted_string))
            None in
        restore_strings unicode rest (str_index + Py.len muted_string)
          logical_line
  end.

Fixpoint write_fixed_lines (numbers : list Z) (c : Checker) : res Checker :=
  match numbers with
  | [] => Ok c
  | line_number :: rest =>
      line ← Py.getitem (fixed_physical_lines c) line_number;
      write_fixed_lines rest (write line c)
  end.

(** [range(a, b)] *)
Definition range2 (a b : Z) : list Z :=
  map (fun i => a + Z.of_nat i) (seq 0 (Z.to_nat (b - a))).

(** The last part of [check_logical], run when [options.fix] is set. *)
Definition write_logical (c : Checker) : res Checker :=
  let physical_line_numbers := physical_rows (mapping c) in
  if Py.len physical_line_numbers =? 1
  then
    line ← restore_strings (logical_unicode c) (muted_strings c) 0
             (logical_line c);
    let c := set_logical_line line c in
    let c := write (Py.repeat [chr_nl] (blank_lines c)) c in
    let c := write (Py.repeat (match indent_char c with
                               | Some ch => [ch]
                               | None => py "    "
                               end) (indent_level c)) c in
    let c := if logical_unicode c then write_unicode (logical_line c) c
             else write (logical_line c) c in
    let c := match comment c with
             | Some (_ :: _) => set_comment None c
             | _ => c
             end in
    Ok (write [chr_nl] c)
  else
    let c := write (Py.repeat [chr_nl] (blank_lines c)) c in
    first ← Py.getitem physical_line_numbers 0;
    last ← Py.getitem physical_line_numbers (-1);
    write_fixed_lines (range2 first (last + 1)) c.

(** [Checker.check_logical()] *)
Definition check_logical (o : options) (c : Checker) : res Checker :=
  c ← add_counter (py "logical lines") 1 c;
  let c := set_muted_strings [] c in
  c ← build_tokens_line c;
  first ← Py.getitem (mapping c) 0;
  first_line ← Py.getitem (lines c) (fst (t_start (snd first)) - 1);
  let indent := Py.slice first_line None (Some (snd (t_start (snd first)))) in
  let c := set_previous_indent_level (indent_level c) c in
  let c := set_indent_level (expand_indent indent) c in
  c ← run_logical_checks o (Registry.logical_checks o) None c;
  c ← (if fix_ o then write_logical c else Ok c);
  Ok (set_previous_logical (logical_line c) c).

(** ** The main loop

    [tokenize.generate_tokens(self.readline_check_physical)] reads a line
    through the callback whenever it needs one and yields tokens in
    between: its run is a sequence of these two events. *)
Inductive event : Type :=
| ReadLine
| Yield (tok : token).

(** The body of the [for token in ...] loop; [parens] is the local
    variable of [check_all]. *)
Definition check_token (o : options) (tok : token) (parens : Z) (c : Checker)
  : res (Z * Checker) :=
  let c := set_tokens (tokens c ++ [tok]) c in
  let token_type := t_type tok in
  let text := t_text tok in
  let parens :=
    if bool_decide (token_type = OP) && Py.contains (py "([{") text
    then parens + 1 else parens in
  let parens :=
    if bool_decide (token_type = OP) && Py.contains (py "}])") text
    then parens - 1 else parens in
  c ← (if bool_decide (token_type = NEWLINE) && (parens =? 0)
       then c ← check_logical o c;
            Ok (set_tokens []
                  (set_blank_lines_before_comment 0 (set_blank_lines 0 c)))
       else Ok c);
  let c :=
    if bool_decide (token_type = NL) && (parens =? 0)
    then
      let c :=
        match comment c with
        | Some ((_ :: _) as text) =>
            if fix_ o
            then set_blank_lines_before_comment 0
                   (set_comment None
                      (write (text ++ [chr_nl])
                         (write (Py.repeat [chr_nl]
                                   (blank_lines_before_comment c)) c)))
            else c
        | _ => c
        end in
      let c := if Py.len (tokens c) <=? 1
               then set_blank_lines (blank_lines c + 1) c else c in
      set_tokens [] c
    else c in
  let c :=
    if bool_decide (token_type = COMMENT)
    then
      let source_line := t_line tok in
      let token_start := snd (t_start tok) in
      let c :=
        if bool_decide
             (Py.strip (Py.slice source_line None (Some token_start)) = [])
        then set_blank_lines 0
               (set_blank_lines_before_comment
                  (Z.max (blank_lines c) (blank_lines_before_comment c)) c)
        else c in
      let c := if Py.endswith text [chr_nl] && (parens =? 0)
               then set_tokens [] c else c in
      if Py.len (tokens c) =? 1
      then set_comment (Some (Py.rstrip source_line)) c else c
    else c in
  Ok (parens, c).

Fixpoint run_events (o : options) (events : list event) (parens : Z)
    (c : Checker) : res Checker :=
  match events with
  | [] => Ok c
  | ReadLine :: rest =>
      r ← readline_check_physical o c;
      run_events o rest parens (fst r)
  | Yield tok :: rest =>
      r ← check_token o tok parens c;
      run_events o rest (fst r) (snd r)
  end.

(** [Checker(filename, lines)]: the constructor, in a process whose
    counters and messages are [counters] and [messages]. *)
Definition new_checker (o : options) (filename : pystr) (lines : list pystr)
    (counters : gmap pystr Z) (messages : gmap pystr pystr) : res Checker :=
  add_counter (py "physical lines") (Py.len lines)
    {| filename := filename; lines := lines; fixed_physical_lines := [];
       write_filename :=
         if fix_ o
         then Some (if inplace o then filename else py "fixed_" ++ filename)
         else None;
       comment := None; expected := []; line_offset := 0; line_number := 0;
       file_errors := 0; indent_char := None; indent_level := 0;
       previous_indent_level := 0; previous_logical := [];
       blank_lines := 0; blank_lines_before_comment := 0; tokens := [];
       writer := []; physical_line := []; logical_line := []; mapping := [];
       muted_strings := []; counters := counters; messages := messages;
       stdout := []; written := None;
     logical_unicode := false; writer_unicode := false |}.

(** [Checker.check_all(expected, line_offset)] on the run [events] of the
    tokenizer: the checker at the end, whose [file_errors] is the value
    returned.  [self.writer.getvalue()] joins what was written: when a
    [unicode] object is among it, every [str] is decoded with the ASCII
    codec, which raises [UnicodeDecodeError] at a byte from 128 on. *)
Definition check_all (o : options) (expected : list pystr) (line_offset : Z)
    (events : list event) (c : Checker) : res Checker :=
  let c :=
    {| filename := filename c; lines := lines c;
       fixed_physical_lines := fixed_physical_lines c;
       write_filename := write_filename c;
       comment := None; expected := expected; line_offset := line_offset;
       line_number := 0; file_errors := 0; indent_char := None;
       indent_level := 0;
       previous_indent_level := previous_indent_level c;
       previous_logical := []; blank_lines := 0;
       blank_lines_before_comment := 0; tokens := []; writer := [];
       physical_line := physical_line c; logical_line := logical_line c;
       mapping := mapping c; muted_strings := muted_strings c;
       counters := counters c; messages := messages c;
       stdout := stdout c; written := written c;
       logical_unicode := logical_unicode c; writer_unicode := false |} in
  c ← run_events o events 0 c;
  match write_filename c with
  | Some ((_ :: _) as path) =>
      if writer_unicode c && negb (forallb Checks.is_ascii (writer c))
      then Raise UnicodeDecodeError
      else Ok (set_written (Some (path, writer c)) c)
  | _ => Ok c
  end.

(** [input_file(filename)] in a fresh process with the given options:
    the counters are those [process_options] creates. *)
Definition initial_counters : gmap pystr Z :=
  list_to_map (map (fun k => (k, 0)) BENCHMARK_KEYS).

Definition input_file (o : options) (filename : pystr) (lines : list pystr)
    (events : list event) : res Checker :=
  c ← new_checker o filename lines initial_counters ∅;
  check_all o [] 0 events c.

(** The options [process_options] builds from a command line that names
    only input files, and the same with [--fix]. *)
Definition default_options : options :=
  {| select := []; ignore := [DEFAULT_IGNORE]; quiet := 0; repeat_ := false;
     show_source := false; show_pep8 := false; fix_ := false; inplace := false |}.

Definition fix_options : options :=
  {| select := []; ignore := [DEFAULT_IGNORE]; quiet := 0; repeat_ := false;
     show_source := false; show_pep8 := false; fix_ := true; inplace := false |}.

(** ** Source files and the runs of the tokenizer on them

    The tokens are those Python 2's [tokenize.generate_tokens] yields,
    each read of a line placed where the tokenizer asks for it. *)

Module Runs.

(** A line with its terminator. *)
Definition ln (s : string) : pystr := py s ++ [chr_nl].

Definition tk (ty : token_type) (text : pystr) (srow scol erow ecol : Z)
    (line : pystr) : token :=
  {| t_type := ty; t_text := text; t_start := (srow, scol);
     t_end := (erow, ecol); t_line := line |}.

(** The tokens of a line [def NAME():] on row [row]. *)
Definition def_line (row : Z) (fname : string) : list event :=
  let l := ln ("def " ++ fname ++ "():") in
  [Yield (tk NAME (py "def") row 0 row 3 l);
   Yield (tk NAME (py fname) row 4 row 5 l);
   Yield (tk OP (py "(") row 5 row 6 l);
   Yield (tk OP (py ")") row 6 row 7 l);
   Yield (tk OP (py ":") row 7 row 8 l);
   Yield (tk NEWLINE [chr_nl] row 8 row 9 l)].

(** The tokens of a line [pass] behind the indentation [indent] that
    opens a block on row [row]. *)
Definition pass_line (row : Z) (indent : pystr) : list event :=
  let l := indent ++ ln "pass" in
  let n := Py.len indent in
  [Yield (tk INDENT indent row 0 row n l);
   Yield (tk NAME (py "pass") row n row (n + 4) l);
   Yield (tk NEWLINE [chr_nl] row (n + 4) row (n + 5) l)].

(** The end of a file whose last line is in a block. *)
Definition end_of_file (row : Z) : list event :=
  [ReadLine; Yield (tk DEDENT [] row 0 row 0 []);
   Yield (tk ENDMARKER [] row 0 row 0 [])].

(** ["def a():\n    pass\ndef b():\n    pass\n"] *)
Definition two_defs : list pystr :=
  [ln "def a():"; ln "    pass"; ln "def b():"; ln "    pass"].

Definition two_defs_events : list event :=
  [ReadLine] ++ def_line 1 "a" ++
  [ReadLine] ++ pass_line 2 (py "    ") ++
  [ReadLine; Yield (tk DEDENT [] 3 0 3 0 (ln "def b():"))] ++ def_line 3 "b" ++
  [ReadLine] ++ pass_line 4 (py "    ") ++
  end_of_file 5.

(** The same file with the two blank lines in place. *)
Definition two_defs_fixed : list pystr :=
  [ln "def a():"; ln "    pass"; [chr_nl]; [chr_nl]; ln "def b():";
   ln "    pass"].

(** ["if x:\n" + indent + "pass\n"] *)
Definition if_pass (indent : pystr) : list pystr :=
  [ln "if x:"; indent ++ ln "pass"].

Definition if_pass_events (indent : pystr) : list event :=
  let l := ln "if x:" in
  [ReadLine;
   Yield (tk NAME (py "if") 1 0 1 2 l);
   Yield (tk NAME (py "x") 1 3 1 4 l);
   Yield (tk OP (py ":") 1 4 1 5 l);
   Yield (tk NEWLINE [chr_nl] 1 5 1 6 l);
   ReadLine] ++ pass_line 2 indent ++ end_of_file 3.

Definition tabs (n : Z) : pystr := Py.repeat [chr_tab] n.

(** The content of a file: its lines joined. *)
Definition content (lines : list pystr) : pystr := Py.join lines.

(** Options that ignore one code of a check with two. *)
Definition ignore_W291 : options :=
  {| select := []; ignore := [py "W291"]; quiet := 0; repeat_ := false;
     show_source := false; show_pep8 := false; fix_ := false; inplace := false |}.

(** A checker at the start of a file with one line. *)
Definition start : Checker :=
  {| filename := py "t.py"; lines := [py "x = 1 " ++ [chr_nl]];
     fixed_physical_lines := []; write_filename := None; comment := None;
     expected := []; line_offset := 0; line_number := 1; file_errors := 0;
     indent_char := None; indent_level := 0; previous_indent_level := 0;
     previous_logical := []; blank_lines := 0;
     blank_lines_before_comment := 0; tokens := []; writer := [];
     physical_line := py "x = 1 " ++ [chr_nl]; logical_line := [];
     mapping := []; muted_strings := []; counters := initial_counters;
     messages := ∅; stdout := []; written := None;
     logical_unicode := false; writer_unicode := false |}.

(** The checker when the [NEWLINE] of the second line of
    ["if x:\n    pass\n"] has been read. *)
Definition before_pass : Checker :=
  {| filename := py "t.py"; lines := if_pass (py "    ");
     fixed_physical_lines := if_pass (py "    "); write_filename := None;
     comment := None; expected := []; line_offset := 0; line_number := 2;
     file_errors := 0; indent_char := Some chr_sp; indent_level := 0;
     previous_indent_level := 0; previous_logical := py "if x:";
     blank_lines := 0; blank_lines_before_comment := 0;
     tokens := [tk INDENT (py "    ") 2 0 2 4 (ln "    pass");
                tk NAME (py "pass") 2 4 2 8 (ln "    pass");
                tk NEWLINE [chr_nl] 2 8 2 9 (ln "    pass")];
     writer := []; physical_line := ln "    pass"; logical_line := py "if x:";
     mapping := []; muted_strings := []; counters := initial_counters;
     messages := ∅; stdout := []; written := None;
     logical_unicode := false; writer_unicode := false |}.

(** The call [foo(a,] continued by [    b)] on the next row, and its
    tokens around the row break. *)
Definition call_lines : list pystr := [ln "foo(a,"; ln "    b)"].
Definition tok_comma : token := tk OP (py ",") 1 5 1 6 (ln "foo(a,").
Definition tok_b : token := tk NAME (py "b") 2 4 2 5 (ln "    b)").
Definition tok_close : token := tk OP (py ")") 2 5 2 6 (ln "    b)").

(** The tokens of the whole call, and the checker when the [NEWLINE]
    that ends it has been read. *)
Definition call_tokens : list token :=
  [tk NAME (py "foo") 1 0 1 3 (ln "foo(a,");
   tk OP (py "(") 1 3 1 4 (ln "foo(a,");
   tk NAME (py "a") 1 4 1 5 (ln "foo(a,");
   tok_comma;
   tk NL [chr_nl] 1 6 1 7 (ln "foo(a,");
   tok_b;
   tok_close;
   tk NEWLINE [chr_nl] 2 6 2 7 (ln "    b)")].

Definition before_call : Checker :=
  {| filename := py "t.py"; lines := call_lines;
     fixed_physical_lines := call_lines; write_filename := None;
     comment := None; expected := []; line_offset := 0; line_number := 2;
     file_errors := 0; indent_char := None; indent_level := 0;
     previous_indent_level := 0; previous_logical := [];
     blank_lines := 0; blank_lines_before_comment := 0;
     tokens := call_tokens;
     writer := []; physical_line := ln "    b)"; logical_line := [];
     mapping := []; muted_strings := []; counters := initial_counters;
     messages := ∅; stdout := []; written := None;
     logical_unicode := false; writer_unicode := false |}.

(** A file whose only line starts with a vertical tab, a character the
    tokenizer takes for no indentation and no token: it is yielded as an
    [ERRORTOKEN] of its own, and the name behind it as the next token. *)
Definition vtab_file : list pystr := [[chr_vt] ++ ln "x = 1"].

Definition vtab_tokens : list token :=
  let l := [chr_vt] ++ ln "x = 1" in
  [tk ERRORTOKEN [chr_vt] 1 0 1 1 l;
   tk NAME (py "x") 1 1 1 2 l;
   tk OP (py "=") 1 3 1 4 l;
   tk NUMBER (py "1") 1 5 1 6 l;
   tk NEWLINE [chr_nl] 1 6 1 7 l].

Definition vtab_events : list event :=
  [ReadLine] ++ map Yield vtab_tokens ++
  [ReadLine; Yield (tk ENDMARKER [] 2 0 2 0 [])].

(** The checker when the [NEWLINE] of that line has been read. *)
Definition before_vtab : Checker :=
  {| filename := py "t.py"; lines := vtab_file;
     fixed_physical_lines := vtab_file; write_filename := None;
     comment := None; expected := []; line_offset := 0; line_number := 1;
     file_errors := 0; indent_char := None; indent_level := 0;
     previous_indent_level := 0; previous_logical := [];
     blank_lines := 0; blank_lines_before_comment := 0;
     tokens := vtab_tokens;
     writer := []; physical_line := [chr_vt] ++ ln "x = 1";
     logical_line := [];
     mapping := []; muted_strings := []; counters := initial_counters;
     messages := ∅; stdout := []; written := None;
     logical_unicode := false; writer_unicode := false |}.



(** A line of 121 bytes, each the Latin-1 letter e with acute accent. *)
Definition latin1_line : pystr :=
  Py.repeat [Ascii.ascii_of_nat 233] 121 ++ [chr_nl].

(** A line of 61 two-byte UTF-8 characters: 122 bytes. *)
Definition utf8_line : pystr :=
  Py.repeat [Ascii.ascii_of_nat 195; Ascii.ascii_of_nat 169] 61 ++ [chr_nl].

End Runs.

(** ** Notions the statements use *)

(** The tokens [build_tokens_line] keeps: those it does not skip. *)
Definition kept (toks : list token) : list token :=
  filter (fun t => t_type t ∉ SKIP_TOKENS) toks.

(** The text of a token as the logical line shows it: a string literal
    is masked. *)
Definition shown_text (tok : token) : pystr :=
  if bool_decide (t_type tok = STRING) then mute_string (t_text tok)
  else t_text tok.

(** A blank of indentation: a space or a tab. *)
Definition is_blank (c : ascii) : Prop := c = chr_sp \/ c = chr_tab.

(** What the checks and their fixes leave alone: the two indentation
    levels, the source lines and the token buffer. *)
Definition same_frame (c c' : Checker) : Prop :=
  indent_level c' = indent_level c /\
  previous_indent_level c' = previous_indent_level c /\
  lines c' = lines c /\
  tokens c' = tokens c.


(** [sub] occurs in [s] at index [n], and for the first time there. *)
Definition occurs_at (sub s : pystr) (n : nat) : Prop :=
  sub `prefix_of` drop n s.

Definition first_occurrence (sub s : pystr) (n : nat) : Prop :=
  occurs_at sub s n /\ forall k, (k < n)%nat -> ~ occurs_at sub s k.

(** The separator at index [i] of [line] wants a space after it: it is
    one of [,;:], a character follows it that is neither space nor tab,
    it is no colon of a slice (more [[] than []] before it) and no comma
    before [)] or []]. *)
Definition needs_space_at (line : pystr) (i : nat) : Prop :=
  exists char next,
    line !! i = Some char /\ line !! S i = Some next /\
    char ∈ py ",;:" /\ next ∉ WHITESPACE /\
    ~ (char = ":"%char /\
       Py.count (take i line) "["%char > Py.count (take i line) "]"%char) /\
    ~ (char = ","%char /\ next ∈ py ")]").

(** Runs of characters: every character of [l] is in the class [p];
    [l] stops a run of [p] when it is empty or starts outside [p]. *)
Definition all_of (p : ascii -> bool) (l : pystr) : Prop :=
  Forall (fun c => p c = true) l.

Definition stops (p : ascii -> bool) (l : pystr) : Prop :=
  match l with
  | [] => True
  | c :: _ => p c = false
  end.



(** ** The filters and the counters of the options object *)

Definition chr_comma : ascii := Ascii.ascii_of_nat 44.

(** [s.split(sep)] for a one-character separator: the pieces between the
    separators, one more than there are separators. *)
Fixpoint split_loop (s : pystr) (sep : ascii) (piece : pystr) : list pystr :=
  match s with
  | [] => [piece]
  | ch :: rest =>
      if Ascii.eqb ch sep then piece :: split_loop rest sep []
      else split_loop rest sep (piece ++ [ch])
  end.

Definition split (s : pystr) (sep : ascii) : list pystr := split_loop s sep [].

(** The end of [process_options(arglist)]: the values of [--select] and
    [--ignore] (the empty string when the option is absent) become the
    lists of prefixes [ignore_code] reads.  [testsuite] and [doctest] say
    whether these options were given. *)
Definition process_options (select_value ignore_value : pystr)
    (testsuite doctest : bool) (o : options) : options :=
  let select_list :=
    match select_value with
    | _ :: _ => split select_value chr_comma
    | [] => []
    end in
  let ignore_list :=
    match ignore_value with
    | _ :: _ => split ignore_value chr_comma
    | [] =>
        match select_list with
        | _ :: _ => [[]]
        | [] => if testsuite || doctest then []
                else split DEFAULT_IGNORE chr_comma
        end
    end in
  {| select := select_list; ignore := ignore_list; quiet := quiet o;
     repeat_ := repeat_ o; show_source := show_source o;
     show_pep8 := show_pep8 o; fix_ := fix_ o;
     inplace := inplace o |}.

(** [reset_counters()] *)
Fixpoint reset_loop (keys : list pystr) (counters : gmap pystr Z)
  : gmap pystr Z :=
  match keys with
  | [] => counters
  | key :: rest =>
      reset_loop rest
        (if Py.member key BENCHMARK_KEYS then counters
         else delete key counters)
  end.

Definition reset_counters (c : Checker) : Checker :=
  set_messages ∅
    (set_counters
       (reset_loop (map fst (map_to_list (counters c))) (counters c)) c).

(** [get_count(prefix)]: the keys are those of [options.messages], in the
    order of the dictionary; a key without a counter raises [KeyError]. *)
Fixpoint count_loop (prefix : pystr) (counters : gmap pystr Z)
    (keys : list pystr) (count : Z) : res Z :=
  match keys with
  | [] => Ok count
  | key :: rest =>
      if Py.startswith key prefix
      then match counters !! key with
           | Some n => count_loop prefix counters rest (count + n)
           | None => Raise KeyError
           end
      else count_loop prefix counters rest count
  end.

Definition get_count (prefix : pystr) (c : Checker) : res Z :=
  count_loop prefix (counters c) (map fst (map_to_list (messages c))) 0.

(** What the checks and their fixes leave alone besides the frame: the
    books of the run (counters, messages, the error count of the file
    and the expected codes) and the files (the lines kept for the fixed
    file, the write buffer, the name and the content of the file
    written). *)
Definition same_books (c c' : Checker) : Prop :=
  counters c' = counters c /\ messages c' = messages c /\
  file_errors c' = file_errors c /\ expected c' = expected c.

Definition same_files (c c' : Checker) : Prop :=
  fixed_physical_lines c' = fixed_physical_lines c /\
  writer c' = writer c /\ write_filename c' = write_filename c /\
  written c' = written c.

(** The codes with a message are the keys of [counters] that are no
    benchmark keys: what [process_options] sets up and [report_error]
    keeps. *)
Definition counted (c : Checker) : Prop :=
  forall k, is_Some (messages c !! k) <->
            is_Some (counters c !! k) /\ k ∉ BENCHMARK_KEYS.

(** The sum of the counters of the keys that start with [prefix]. *)
Definition sum_keys (prefix : pystr) (counters : gmap pystr Z)
    (keys : list pystr) : Z :=
  foldr (fun k acc => if Py.startswith k prefix
                      then default 0 (counters !! k) + acc else acc) 0 keys.

(** The books of a run in which every error is printed: the codes with a
    message are the counted codes, no code is expected and the error
    count of the file is the sum of the counters of the codes. *)
Definition balanced (c : Checker) : Prop :=
  counted c /\ expected c = [] /\
  file_errors c =
    sum_keys [] (counters c) (map fst (map_to_list (messages c))).

(** What reporting and fixing can change of a checker: the text printed,
    the books, the number of blank lines and the two lines under
    examination (with the kind of string the logical line is); every
    other attribute is that of [c]. *)
Definition only_reports (c c' : Checker) : Prop :=
  c' = set_stdout (stdout c')
         (set_file_errors (file_errors c')
            (set_messages (messages c')
               (set_counters (counters c')
                  (set_blank_lines (blank_lines c')
                     (set_logical_unicode (logical_unicode c')
                        (set_logical_line (logical_line c')
                           (set_physical_line (physical_line c') c))))))).

(** * Properties *)

(** ** Strings *)

Lemma startswith_prefix (s p : pystr) :
  Py.startswith s p = true <-> p `prefix_of` s.
Proof.
  revert s; induction p as [|a p IH]; intros s; simpl.
  - split; [intros _; apply prefix_nil | done].
  - destruct s as [|b s].
    + split; [done | intros [k Hk]; discriminate Hk].
    + rewrite andb_true_iff, Ascii.eqb_eq, IH. split.
      * intros [-> Hp]. by apply prefix_cons.
      * intros [k Hk]. simplify_eq/=. split; [done | by exists k].
Qed.

Lemma startswith_false (s p : pystr) :
  Py.startswith s p = false <-> ~ p `prefix_of` s.
Proof.
  rewrite <- startswith_prefix. destruct (Py.startswith s p); naive_solver.
Qed.

(** ** The select/ignore filter *)

Lemma ignore_loop_true (ign : list pystr) (code : pystr) :
  truthy (ignore_loop ign code) = true <->
  exists i, i ∈ ign /\ i `prefix_of` code.
Proof.
  induction ign as [|i ign IH]; simpl.
  - split; [done | intros (i & Hi & _); by apply elem_of_nil in Hi].
  - destruct (Py.startswith code i) eqn:E; simpl.
    + apply startswith_prefix in E. split; [|done].
      intros _. exists i. split; [left | done].
    + apply startswith_false in E. rewrite IH. split.
      * intros (j & Hj & Hp). exists j. split; [by right | done].
      * intros (j & Hj & Hp). apply elem_of_cons in Hj as [->|Hj];
          [done | by exists j].
Qed.

Lemma select_loop_true (sel ign : list pystr) (code : pystr) :
  truthy (select_loop sel ign code) = true <->
  (forall s, s ∈ sel -> ~ s `prefix_of` code) /\
  exists i, i ∈ ign /\ i `prefix_of` code.
Proof.
  induction sel as [|s sel IH]; simpl.
  - rewrite ignore_loop_true. split; [|by intros [_ H]].
    intros H. split; [|done]. intros s Hs. by apply elem_of_nil in Hs.
  - destruct (Py.startswith code s) eqn:E; simpl.
    + apply startswith_prefix in E. split; [done|].
      intros [H _]. exfalso. apply (H s); [left | done].
    + apply startswith_false in E. rewrite IH. split.
      * intros [H1 H2]. split; [|done]. intros t Ht.
        apply elem_of_cons in Ht as [->|Ht]; [done | by apply H1].
      * intros [H1 H2]. split; [|done]. intros t Ht. apply H1. by right.
Qed.

(** C1, as amended: a code is reported (not suppressed) exactly when some
    prefix in [select] is a prefix of it or no prefix in [ignore] is a
    prefix of it, whether [select] is empty or not; a [select] match
    overrides every [ignore] match. *)
Theorem ignore_code_reported (o : options) (code : pystr) :
  truthy (ignore_code o code) = false <->
  (exists s, s ∈ select o /\ s `prefix_of` code) \/
  (forall i, i ∈ ignore o -> ~ i `prefix_of` code).
Proof.
  unfold ignore_code. split.
  - intros H.
    destruct (decide (Exists (fun s => s `prefix_of` code) (select o)))
      as [Hs|Hs].
    + left. apply Exists_exists in Hs as (s & Hin & Hp). by exists s.
    + right. intros i Hi Hp.
      assert (truthy (select_loop (select o) (ignore o) code) = true)
        as Ht; [|congruence].
      apply select_loop_true. split; [|by exists i].
      intros s Hin Hps. apply Hs, Exists_exists. by exists s.
  - intros H. destruct (truthy _) eqn:E; [|done].
    apply select_loop_true in E as [H1 (i & Hi & Hp)].
    destruct H as [(s & Hs & Hps)|H]; [by destruct (H1 s) | by destruct (H i)].
Qed.

(** C1 as stated fails: with [select = ['W']] and [ignore = ['E1']] the
    code [E501] is reported although no [select] prefix matches it and
    [select] is not empty. *)
Lemma ignore_code_reported_counterexample :
  let o := {| select := [py "W"]; ignore := [py "E1"]; quiet := 0;
              repeat_ := false; show_source := false; show_pep8 := false; fix_ := false;
              inplace := false |} in
  truthy (ignore_code o (py "E501")) = false /\
  ~ ((exists s, s ∈ select o /\ s `prefix_of` py "E501") \/
     (select o = [] /\ forall i, i ∈ ignore o -> ~ i `prefix_of` py "E501")).
Proof.
  simpl. split; [reflexivity|].
  intros [(s & Hs & Hp)|[H _]]; [|discriminate H].
  apply list_elem_of_singleton in Hs as ->.
  apply startswith_prefix in Hp. discriminate Hp.
Qed.

(** ** Reporting *)

(** C2, as amended: for a violation whose code the filters suppress,
    [report_error] returns at once; nothing is printed, and neither the
    counter of the code nor its message is touched: a suppressed
    violation is not counted. *)
Theorem report_error_suppressed (o : options) (line_number offset : Z)
    (text : pystr) (chk : Check) (c : Checker) :
  truthy (ignore_code o (Py.slice text None (Some 4))) = true ->
  report_error o line_number offset text chk c = Ok c.
Proof.
  intros H. unfold report_error. by rewrite H.
Qed.

Lemma report_error_suppressed_witness :
  truthy (ignore_code Runs.ignore_W291
            (Py.slice (py "W291 trailing whitespace") None (Some 4))) = true /\
  report_error Runs.ignore_W291 1 5 (py "W291 trailing whitespace")
    Registry.trailing_whitespace Runs.start = Ok Runs.start.
Proof.
  split; [reflexivity | apply report_error_suppressed; reflexivity].
Defined.

(** C2 as stated fails: with [W291] ignored, reporting a [W291] violation
    leaves the code without counter and without message. *)
Lemma report_error_suppressed_counterexample :
  let text := py "W291 trailing whitespace" in
  truthy (ignore_code Runs.ignore_W291 (Py.slice text None (Some 4))) = true /\
  exists c', report_error Runs.ignore_W291 1 5 text Registry.trailing_whitespace
               Runs.start = Ok c' /\
             counters c' !! py "W291" = None /\
             messages c' !! py "W291" = None /\
             stdout c' = [].
Proof.
  simpl. split; [reflexivity|]. exists Runs.start.
  split; [reflexivity|]. split; [|split]; reflexivity.
Qed.

(** ** Line length *)

(** C10, as amended: a line whose stripped byte length exceeds
    [MAX_LINE_LENGTH] but which decodes as UTF-8 to at most that many
    characters gets no E501; when E501 is returned its offset is
    [MAX_LINE_LENGTH] and the length it reports is the decoded character
    count when the line decodes as UTF-8 and the byte length when it
    does not. *)
Theorem maximum_line_length_decoded (physical_line : pystr) :
  let line := Py.rstrip physical_line in
  (forall n, Py.len line > MAX_LINE_LENGTH ->
             Checks.decode_utf8_len line = Some n ->
             n <= MAX_LINE_LENGTH ->
             Checks.maximum_line_length_check physical_line = None) /\
  (forall off msg,
     Checks.maximum_line_length_check physical_line = Some (off, msg) ->
     off = OffInt MAX_LINE_LENGTH /\
     Py.len line > MAX_LINE_LENGTH /\
     msg = py "E501 line too long (" ++
           Py.str_of_int (match Checks.decode_utf8_len line with
                          | Some n => n
                          | None => Py.len line
                          end) ++ py " characters)").
Proof.
  intros line. unfold Checks.maximum_line_length_check. fold line. split.
  - intros n Hlen Hdec Hn.
    destruct (Py.len line >? MAX_LINE_LENGTH) eqn:E; [|lia].
    rewrite Hdec. destruct (n >? MAX_LINE_LENGTH) eqn:E2; [lia | done].
  - intros off msg.
    destruct (Py.len line >? MAX_LINE_LENGTH) eqn:E.
    + cbv zeta.
      destruct (match Checks.decode_utf8_len line with
                | Some n => n
                | None => Py.len line
                end >? MAX_LINE_LENGTH) eqn:E2; [|done].
      intros [= <- <-]. split; [done|]. split; [lia | done].
    + rewrite E. done.
Qed.

Lemma maximum_line_length_decoded_witness :
  Py.len (Py.rstrip Runs.utf8_line) > MAX_LINE_LENGTH /\
  Checks.decode_utf8_len (Py.rstrip Runs.utf8_line) = Some 61 /\
  61 <= MAX_LINE_LENGTH /\
  Checks.maximum_line_length_check Runs.utf8_line = None.
Proof.
  split; [reflexivity|]. split; [reflexivity|].
  split; [discriminate|].
  apply (proj1 (maximum_line_length_decoded Runs.utf8_line) 61);
    [reflexivity | reflexivity | discriminate].
Defined.

(** C10 as stated fails: a line of 121 Latin-1 bytes does not decode as
    UTF-8, so there is no decoded character count; E501 is returned and
    the length it reports is the byte length. *)
Lemma maximum_line_length_decoded_counterexample :
  Checks.maximum_line_length_check Runs.latin1_line =
    Some (OffInt 120, py "E501 line too long (121 characters)") /\
  Checks.decode_utf8_len (Py.rstrip Runs.latin1_line) = None /\
  Py.len (Py.rstrip Runs.latin1_line) = 121.
Proof.
  split; [|split]; vm_compute; reflexivity.
Qed.

(** ** Blank lines *)

Lemma starts_definition_true (logical_line : pystr) :
  Checks.starts_definition logical_line = true <->
  py "def " `prefix_of` logical_line \/
  py "class " `prefix_of` logical_line \/
  py "@" `prefix_of` logical_line.
Proof.
  unfold Checks.starts_definition.
  rewrite !orb_true_iff, !startswith_prefix. tauto.
Qed.

(** C5: a logical line that is not on the first line of the file, at
    indent level zero, starting with [def ], [class ] or [@], whose
    previous logical line does not start with [@] and which has 0 or 1
    blank lines before it (counting those before a comment) gets E302 at
    offset 0.  On ["def a():\n    pass\ndef b():\n    pass\n"] the only
    report is E302, found 0, on line 3, and the fix pass writes the file
    with exactly two blank lines put before [def b]. *)
Theorem blank_lines_top_level_definition :
  (forall (logical_line : pystr) (blank_lines indent_level line_number : Z)
          (previous_logical : pystr)
          (previous_indent_level blank_lines_before_comment : Z),
     line_number <> 1 ->
     indent_level = 0 ->
     (py "def " `prefix_of` logical_line \/
      py "class " `prefix_of` logical_line \/
      py "@" `prefix_of` logical_line) ->
     ~ py "@" `prefix_of` previous_logical ->
     (Z.max blank_lines blank_lines_before_comment = 0 \/
      Z.max blank_lines blank_lines_before_comment = 1) ->
     Checks.blank_lines_check logical_line blank_lines indent_level
       line_number previous_logical previous_indent_level
       blank_lines_before_comment =
     Some (OffInt 0,
           py "E302 expected 2 blank lines, found " ++
           Py.str_of_int (Z.max blank_lines blank_lines_before_comment))) /\
  (exists c,
     input_file default_options (py "t.py") Runs.two_defs
       Runs.two_defs_events = Ok c /\
     stdout c = [py "t.py:3:1: E302 expected 2 blank lines, found 0"] /\
     map_to_list (messages c) =
       [(py "E302", py "expected 2 blank lines, found 0")] /\
     counters c !! py "E302" = Some 1 /\
     file_errors c = 1) /\
  (exists c,
     input_file fix_options (py "t.py") Runs.two_defs
       Runs.two_defs_events = Ok c /\
     stdout c = [py "t.py:3:1: E302 expected 2 blank lines, found 0"] /\
     writer c = Runs.content Runs.two_defs_fixed /\
     Runs.two_defs_fixed =
       take 2 Runs.two_defs ++ [[chr_nl]; [chr_nl]] ++ drop 2 Runs.two_defs /\
     written c = Some (py "fixed_t.py", Runs.content Runs.two_defs_fixed)).
Proof.
  split; [|split].
  - intros logical_line blank_lines indent_level line_number previous_logical
      previous_indent_level blank_lines_before_comment Hn -> Hdef Hprev Hmax.
    apply starts_definition_true in Hdef. apply startswith_false in Hprev.
    unfold Checks.blank_lines_check. rewrite Hprev, Hdef.
    destruct (line_number =? 1) eqn:E1; [lia|].
    set (m := Z.max blank_lines blank_lines_before_comment) in *.
    destruct Hmax as [-> | ->]; reflexivity.
  - eexists. split; [vm_compute; reflexivity|].
    repeat split; vm_compute; reflexivity.
  - eexists. split; [vm_compute; reflexivity|].
    repeat split; vm_compute; reflexivity.
Qed.

Lemma blank_lines_top_level_definition_witness :
  (3 <> 1 /\ 0 = 0 /\
   (py "def " `prefix_of` py "def b():" \/
    py "class " `prefix_of` py "def b():" \/
    py "@" `prefix_of` py "def b():") /\
   ~ py "@" `prefix_of` py "pass" /\
   (Z.max 0 0 = 0 \/ Z.max 0 0 = 1)) /\
  Checks.blank_lines_check (py "def b():") 0 0 3 (py "pass") 4 0 =
    Some (OffInt 0, py "E302 expected 2 blank lines, found " ++
                    Py.str_of_int (Z.max 0 0)).
Proof.
  assert (H1 : py "def " `prefix_of` py "def b():")
    by (apply startswith_prefix; reflexivity).
  assert (H2 : ~ py "@" `prefix_of` py "pass")
    by (apply startswith_false; reflexivity).
  split.
  - split; [discriminate|]. split; [reflexivity|].
    split; [by left|]. split; [exact H2 | by left].
  - apply (proj1 blank_lines_top_level_definition);
      [discriminate | reflexivity | by left | exact H2 | by left].
Defined.

(** ** The fix pass run twice *)

(** C9 fails on ["if x:\n\tpass\n"]: the fix pass writes the body behind
    four tabs, a second pass over that output writes it behind sixteen,
    and the second pass reports W191 again, a code whose check has a fix
    method. *)
Theorem fix_pass_twice_on_tabs :
  exists c1 c2,
    input_file fix_options (py "t.py") (Runs.if_pass (Runs.tabs 1))
      (Runs.if_pass_events (Runs.tabs 1)) = Ok c1 /\
    writer c1 = Runs.content (Runs.if_pass (Runs.tabs 4)) /\
    input_file fix_options (py "t.py") (Runs.if_pass (Runs.tabs 4))
      (Runs.if_pass_events (Runs.tabs 4)) = Ok c2 /\
    writer c2 = Runs.content (Runs.if_pass (Runs.tabs 16)) /\
    writer c2 <> writer c1 /\
    counters c2 !! py "W191" = Some 1 /\
    is_Some (fix_method Registry.tabs_obsolete).
Proof.
  eexists. eexists.
  split; [vm_compute; reflexivity|].
  split; [vm_compute; reflexivity|].
  split; [vm_compute; reflexivity|].
  split; [vm_compute; reflexivity|].
  split; [vm_compute; discriminate|].
  split; [vm_compute; reflexivity | by eexists].
Qed.

(** ** Indentation *)

Lemma expand_indent_loop_app (ws rest : pystr) (acc : Z) :
  Forall is_blank ws ->
  expand_indent_loop (ws ++ rest) acc =
  expand_indent_loop rest (expand_indent_loop ws acc).
Proof.
  intros H. revert acc. induction H as [|c ws [-> | ->] _ IH]; intros acc.
  - reflexivity.
  - simpl. apply IH.
  - simpl. apply IH.
Qed.

Lemma expand_indent_loop_stop (c : ascii) (rest : pystr) (acc : Z) :
  ~ is_blank c -> expand_indent_loop (c :: rest) acc = acc.
Proof.
  intros H. simpl.
  destruct (Ascii.eqb_spec c chr_tab) as [->|_]; [destruct H; by right|].
  destruct (Ascii.eqb_spec c chr_sp) as [->|_]; [destruct H; by left|].
  reflexivity.
Qed.

Lemma next_tab_stop (r : Z) :
  let m := r / TAB_SIZE * TAB_SIZE + TAB_SIZE in
  (TAB_SIZE | m) /\ r < m <= r + TAB_SIZE.
Proof.
  unfold TAB_SIZE. simpl. split.
  - exists (r / 4 + 1). lia.
  - pose proof (Z.mod_pos_bound r 4 ltac:(lia)).
    pose proof (Z.div_mod r 4 ltac:(lia)). lia.
Qed.

(** *** The frame of the checks *)

Lemma same_frame_refl (c : Checker) : same_frame c c.
Proof. by repeat split. Qed.

Lemma same_frame_trans (c1 c2 c3 : Checker) :
  same_frame c1 c2 -> same_frame c2 c3 -> same_frame c1 c3.
Proof.
  intros (?&?&?&?) (?&?&?&?). repeat split; congruence.
Qed.

(** Case analysis down to assignments of attributes, which the frame
    survives by computation. *)
Ltac frame_cases :=
  repeat (simplify_eq/=; case_match); simplify_eq/=.

Ltac frame_done :=
  match goal with
  | |- same_frame ?c _ => destruct c; repeat split; reflexivity
  end.

Ltac frame := intros; frame_cases; try apply same_frame_refl; try frame_done.

Lemma same_frame_message (text : pystr) (c : Checker) :
  same_frame c (message text c).
Proof. unfold message. frame. Qed.

Lemma same_frame_write (text : pystr) (c : Checker) :
  same_frame c (write text c).
Proof. unfold write. frame. Qed.

Lemma same_frame_report_fix (o : options) (msg old new : pystr) (c : Checker) :
  same_frame c (report_fix o msg old new c).
Proof. unfold report_fix, message. frame. Qed.

Lemma same_frame_add_counter (key : pystr) (n : Z) (c c' : Checker) :
  add_counter key n c = Ok c' -> same_frame c c'.
Proof. unfold add_counter. frame. Qed.

Lemma same_frame_report_error (o : options) (line_number offset : Z)
    (text : pystr) (chk : Check) (c c' : Checker) :
  report_error o line_number offset text chk c = Ok c' -> same_frame c c'.
Proof.
  unfold report_error, message, mbind, res_bind. frame.
Qed.

Lemma registry_fix_frame (o : options) (chk : Check)
    (f : options -> Checker -> res (Checker * option pystr))
    (c : Checker) (r : Checker * option pystr) :
  chk ∈ Registry.all_checks -> fix_method chk = Some f ->
  f o c = Ok r -> same_frame c (fst r).
Proof.
  unfold Registry.all_checks. intros Hin.
  repeat (apply elem_of_cons in Hin as [->|Hin]);
    try (by apply elem_of_nil in Hin);
    cbn [fix_method Registry.tabs_or_spaces Registry.tabs_obsolete
         Registry.trailing_whitespace Registry.trailing_blank_lines
         Registry.missing_newline Registry.maximum_line_length
         Registry.blank_lines Registry.extraneous_whitespace
         Registry.missing_whitespace Registry.indentation
         Registry.whitespace_before_parameters
         Registry.whitespace_around_operator
         Registry.missing_whitespace_around_operator
         Registry.whitespace_around_comma
         Registry.whitespace_around_named_parameter_equals
         Registry.whitespace_before_inline_comment
         Registry.imports_on_separate_lines Registry.compound_statements
         Registry.python_3000_has_key Registry.python_3000_raise_comma
         Registry.python_3000_not_equal Registry.python_3000_backticks
         Registry.pure_fix];
    intros Hf Hr; try discriminate Hf; injection Hf as <-;
    revert Hr.
  - unfold Checks.tabs_or_spaces_fix, mbind, res_bind.
    destruct (Checks.indent_of _); [|done]. intros [= <-]. cbn [fst].
    apply same_frame_report_fix.
  - unfold Checks.tabs_obsolete_fix. intros [= <-]. cbn [fst].
    apply same_frame_report_fix.
  - unfold Checks.trailing_whitespace_fix. intros [= <-]. cbn [fst].
    apply same_frame_report_fix.
  - unfold Checks.trailing_blank_lines_fix. intros [= <-]. cbn [fst].
    apply same_frame_report_fix.
  - unfold Checks.missing_newline_fix. intros [= <-]. cbn [fst].
    apply same_frame_report_fix.
  - intros [= <-]. cbn [fst]. unfold Checks.blank_lines_fix.
    repeat case_match; try apply same_frame_refl; frame_done.
  - intros [= <-]. cbn [fst]. unfold Checks.extraneous_whitespace_fix.
    frame_done.
  - unfold Checks.missing_whitespace_fix, mbind, res_bind.
    destruct (Checks.missing_whitespace_fix_loop _ _); [|done].
    intros [= <-]. cbn [fst]. frame_done.
  - intros [= <-]. cbn [fst]. unfold Checks.whitespace_around_operator_fix.
    frame_done.
  - unfold Checks.missing_whitespace_around_operator_fix, mbind, res_bind.
    destruct (Checks.missing_whitespace_around_operator_fix_loop _ _ _);
      [|done].
    intros [= <-]. cbn [fst]. frame_done.
  - intros [= <-]. cbn [fst]. unfold Checks.whitespace_around_comma_fix.
    frame_done.
  - intros [= <-]. cbn [fst].
    unfold Checks.whitespace_around_named_parameter_equals_fix. frame_done.
  - unfold Checks.python_3000_raise_comma_fix, mbind, res_bind. intros Hr.
    repeat case_match; simplify_eq; cbn [fst]; frame_done.
Qed.

Lemma elem_of_insert_check (x c : Check) (l : list Check) :
  x ∈ Registry.insert_check c l -> x = c \/ x ∈ l.
Proof.
  induction l as [|d l IH]; simpl.
  - intros H. apply list_elem_of_singleton in H. by left.
  - destruct (Registry.str_le _ _).
    + intros H. apply elem_of_cons in H as [->|H]; [by left | by right].
    + intros H. apply elem_of_cons in H as [->|H].
      * right. left.
      * destruct (IH H) as [->|H']; [by left | right; by right].
Qed.

Lemma elem_of_sort_checks (x : Check) (l : list Check) :
  x ∈ Registry.sort_checks l -> x ∈ l.
Proof.
  induction l as [|d l IH]; simpl; [done|].
  intros H. apply elem_of_insert_check in H as [->|H]; [left | right; auto].
Qed.

Lemma elem_of_find_checks (o : options) (a : pystr) (x : Check) :
  x ∈ Registry.find_checks o a -> x ∈ Registry.all_checks.
Proof.
  unfold Registry.find_checks. intros H. apply elem_of_sort_checks in H.
  by apply list_elem_of_filter in H as [_ H].
Qed.

Lemma fix_wanted_method (o : options) (chk : Check) (text : pystr)
    (f : options -> Checker -> res (Checker * option pystr)) :
  fix_wanted o chk text = Some f -> fix_method chk = Some f.
Proof.
  unfold fix_wanted. repeat case_match; congruence.
Qed.

Lemma same_frame_run_logical_checks (o : options) (checks : list Check) :
  (forall chk, chk ∈ checks -> chk ∈ Registry.all_checks) ->
  forall original c c',
    run_logical_checks o checks original c = Ok c' -> same_frame c c'.
Proof.
  induction checks as [|chk rest IH]; intros Hall original c c'; simpl.
  - intros [= <-]. apply same_frame_refl.
  - unfold mbind, res_bind.
    destruct (check chk c) as [[[offset text]|]|]; [| |done].
    + destruct (resolve _ _ _) as [[number column]|]; [|done].
      destruct (report_error _ _ _ _ _ _) as [c1|] eqn:E1; [|done].
      apply same_frame_report_error in E1.
      destruct (fix_wanted o chk text) as [f|] eqn:Ef.
      * apply fix_wanted_method in Ef.
        destruct (f o c1) as [r|] eqn:Er; [|done].
        eapply registry_fix_frame in Er; [|apply Hall; left|done].
        assert (Hrest : forall x, x ∈ rest -> x ∈ Registry.all_checks)
          by (intros; apply Hall; by right).
        destruct (snd r) as [fixed|]; intros H; apply IH in H; try done.
        -- eapply same_frame_trans; [exact E1|].
           eapply same_frame_trans; [exact Er|].
           eapply same_frame_trans; [|exact H].
           destruct (fst r); by repeat split.
        -- eapply same_frame_trans; [exact E1|].
           eapply same_frame_trans; [exact Er | exact H].
      * intros H. apply IH in H; [|intros; apply Hall; by right].
        eapply same_frame_trans; done.
    + apply IH. intros; apply Hall; by right.
Qed.

Lemma same_frame_write_fixed_lines (numbers : list Z) (c c' : Checker) :
  write_fixed_lines numbers c = Ok c' -> same_frame c c'.
Proof.
  revert c. induction numbers as [|n rest IH]; intros c; simpl.
  - intros [= <-]. apply same_frame_refl.
  - unfold mbind, res_bind. destruct (Py.getitem _ _); [|done].
    intros H. apply IH in H.
    eapply same_frame_trans; [apply same_frame_write | exact H].
Qed.

Lemma same_frame_write_logical (c c' : Checker) :
  write_logical c = Ok c' -> same_frame c c'.
Proof.
  unfold write_logical, mbind, res_bind. case_match.
  - destruct (restore_strings _ _ _ _) as [line|]; [|done].
    intros [= <-]. unfold write_unicode, write. repeat case_match; frame_done.
  - repeat case_match; try done.
    intros Hw. apply same_frame_write_fixed_lines in Hw.
    eapply same_frame_trans; [apply same_frame_write | exact Hw].
Qed.

(** *** The mapping of a logical line *)

Lemma build_loop_mapping (lines : list pystr) (toks : list token)
    (st st' : build_state) :
  build_loop lines toks st = Ok st' ->
  (b_mapping st').*2 = (b_mapping st).*2 ++ kept toks.
Proof.
  revert st. induction toks as [|tok rest IH]; intros st; simpl.
  - intros [= <-]. by rewrite app_nil_r.
  - unfold kept. rewrite filter_cons.
    destruct (decide (t_type tok ∉ SKIP_TOKENS)) as [Hk|Hk].
    + rewrite bool_decide_eq_false_2 by done.
      unfold mbind, res_bind. case_match; [|done].
      intros Hb. apply IH in Hb. rewrite Hb. cbn [b_mapping].
      rewrite fmap_app. simpl. by rewrite <- app_assoc.
    + rewrite bool_decide_eq_true_2 by (by apply dec_stable).
      apply IH.
Qed.

Lemma same_frame_build_tokens_line (c c' : Checker) :
  build_tokens_line c = Ok c' ->
  same_frame c c' /\ (mapping c').*2 = kept (tokens c).
Proof.
  unfold build_tokens_line, build_tokens_line_body, mbind, res_bind.
  destruct (build_loop _ _ _) as [st|] eqn:E; [|done].
  case_match; [|done]. intros [= <-].
  apply build_loop_mapping in E. split; [frame_done|].
  destruct c; exact E.
Qed.

Lemma getitem_0_head {A : Type} (l : list A) (x : A) :
  Py.getitem l 0 = Ok x -> head l = Some x.
Proof.
  unfold Py.getitem. simpl. destruct l as [|y l]; simpl.
  - done.
  - by intros [= ->].
Qed.

Lemma check_logical_indent_level (o : options) (c c' : Checker) :
  check_logical o c = Ok c' ->
  exists tok first_line,
    head (kept (tokens c)) = Some tok /\
    Py.getitem (lines c) (fst (t_start tok) - 1) = Ok first_line /\
    indent_level c' =
      expand_indent (Py.slice first_line None (Some (snd (t_start tok)))) /\
    previous_indent_level c' = indent_level c.
Proof.
  unfold check_logical, mbind, res_bind.
  destruct (add_counter _ _ _) as [c1|] eqn:E1; [|done].
  apply same_frame_add_counter in E1 as (Hi1 & Hp1 & Hl1 & Ht1).
  destruct (build_tokens_line _) as [c2|] eqn:E2; [|done].
  apply same_frame_build_tokens_line in E2 as [(Hi2 & Hp2 & Hl2 & Ht2) Hm].
  destruct (Py.getitem (mapping c2) 0) as [first|] eqn:E3; [|done].
  destruct (Py.getitem (lines c2) _) as [first_line|] eqn:E4; [|done].
  destruct (run_logical_checks _ _ _ _) as [c3|] eqn:E5; [|done].
  apply same_frame_run_logical_checks in E5 as (Hi3 & Hp3 & _);
    [|apply elem_of_find_checks].
  destruct (if fix_ o then _ else _) as [c4|] eqn:E6; [|done].
  assert (same_frame c3 c4) as (Hi4 & Hp4 & _).
  { destruct (fix_ o); [by apply same_frame_write_logical|].
    injection E6 as <-. apply same_frame_refl. }
  intros [= <-].
  assert (Hlines : lines c2 = lines c).
  { rewrite Hl2. destruct c1; simpl in *. congruence. }
  assert (Htoks : kept (tokens c) = (mapping c2).*2).
  { rewrite Hm. destruct c1; simpl in *. congruence. }
  exists (snd first), first_line. split; [|split; [|split]].
  - rewrite Htoks. apply getitem_0_head in E3.
    destruct (mapping c2); simplify_eq/=. done.
  - by rewrite <- Hlines.
  - transitivity (indent_level c4); [by destruct c4|].
    rewrite Hi4, Hi3. by destruct c2.
  - transitivity (previous_indent_level c4); [by destruct c4|].
    rewrite Hp4, Hp3. destruct c2; simpl in *.
    destruct c1; simpl in *. congruence.
Qed.

(** C8: [expand_indent] scans the leading blanks of its argument and
    stops at the first character that is neither a space nor a tab; the
    width of no blank is 0, a space adds 1, a tab moves to the next
    multiple of [TAB_SIZE]; and [check_logical] sets the indent level to
    this width of the text before the first kept token on its line,
    keeping the old level as previous indent level. *)
Theorem expand_indent_width :
  (forall ws rest : pystr,
     Forall is_blank ws ->
     match rest with [] => True | ch :: _ => ~ is_blank ch end ->
     expand_indent (ws ++ rest) = expand_indent ws) /\
  expand_indent [] = 0 /\
  (forall ws : pystr,
     Forall is_blank ws ->
     expand_indent (ws ++ [chr_sp]) = expand_indent ws + 1) /\
  (forall ws : pystr,
     Forall is_blank ws ->
     (TAB_SIZE | expand_indent (ws ++ [chr_tab])) /\
     expand_indent ws < expand_indent (ws ++ [chr_tab])
       <= expand_indent ws + TAB_SIZE) /\
  (forall (o : options) (c c' : Checker),
     check_logical o c = Ok c' ->
     exists tok first_line,
       head (kept (tokens c)) = Some tok /\
       Py.getitem (lines c) (fst (t_start tok) - 1) = Ok first_line /\
       indent_level c' =
         expand_indent (Py.slice first_line None (Some (snd (t_start tok)))) /\
       previous_indent_level c' = indent_level c).
Proof.
  unfold expand_indent. split; [|split; [|split; [|split]]].
  - intros ws rest Hws Hrest. rewrite expand_indent_loop_app by done.
    destruct rest as [|ch rest]; [done|].
    by apply expand_indent_loop_stop.
  - reflexivity.
  - intros ws Hws. by rewrite expand_indent_loop_app.
  - intros ws Hws. rewrite expand_indent_loop_app by done.
    apply next_tab_stop.
  - apply check_logical_indent_level.
Qed.

Lemma expand_indent_width_witness :
  (Forall is_blank (py "  " ++ [chr_tab]) /\ ~ is_blank "p"%char) /\
  expand_indent ((py "  " ++ [chr_tab]) ++ py "pass") =
    expand_indent (py "  " ++ [chr_tab]) /\
  exists c', check_logical default_options Runs.before_pass = Ok c' /\
    exists tok first_line,
      head (kept (tokens Runs.before_pass)) = Some tok /\
      Py.getitem (lines Runs.before_pass) (fst (t_start tok) - 1) =
        Ok first_line /\
      indent_level c' =
        expand_indent (Py.slice first_line None (Some (snd (t_start tok)))) /\
      previous_indent_level c' = indent_level Runs.before_pass.
Proof.
  assert (Hws : Forall is_blank (py "  " ++ [chr_tab])).
  { repeat constructor; by right. }
  assert (Hp : ~ is_blank "p"%char) by (intros [H|H]; discriminate H).
  split; [done|]. split.
  - apply (proj1 expand_indent_width (py "  " ++ [chr_tab]) (py "pass") Hws Hp).
  - eexists. split; [vm_compute; reflexivity|].
    apply (proj2 (proj2 (proj2 (proj2 expand_indent_width))) default_options).
    vm_compute; reflexivity.
Defined.

(** ** Searching and slicing *)

Lemma find_from_spec (s sub : pystr) (i : Z) :
  (Py.find_from s sub i = -1 /\ forall k, ~ occurs_at sub s k) \/
  (exists n : nat, Py.find_from s sub i = i + Z.of_nat n /\
                   first_occurrence sub s n).
Proof.
  revert i. induction s as [|c s IH]; intros i; simpl.
  - destruct (Py.startswith [] sub) eqn:E.
    + right. exists 0%nat. split; [lia|]. split; [|intros; lia].
      by apply startswith_prefix.
    + left. split; [done|]. intros k. unfold occurs_at.
      rewrite drop_nil. by apply startswith_false.
  - destruct (Py.startswith (c :: s) sub) eqn:E.
    + right. exists 0%nat. split; [lia|]. split; [|intros; lia].
      by apply startswith_prefix.
    + apply startswith_false in E.
      destruct (IH (i + 1)) as [[-> Hno]|(n & -> & Hocc & Hfirst)].
      * left. split; [done|]. intros [|k]; [done | apply Hno].
      * right. exists (S n). split; [lia|]. split; [done|].
        intros [|k] Hk; [done | apply Hfirst; lia].
Qed.

Lemma find_spec (s sub : pystr) :
  (Py.find s sub = -1 /\ forall k, ~ occurs_at sub s k) \/
  (exists n : nat, Py.find s sub = Z.of_nat n /\ first_occurrence sub s n).
Proof.
  unfold Py.find. destruct (find_from_spec s sub 0) as [H|(n & H & Hn)].
  - by left.
  - right. exists n. split; [lia | done].
Qed.

Lemma first_occurrence_unique (sub s : pystr) (n m : nat) :
  first_occurrence sub s n -> first_occurrence sub s m -> n = m.
Proof.
  intros [Hn Hn'] [Hm Hm'].
  destruct (Nat.lt_trichotomy n m) as [H|[H|H]]; [|done|].
  - by destruct (Hm' n).
  - by destruct (Hn' m).
Qed.






(** ** The logical line *)






Lemma contains_occurs (s sub : pystr) :
  Py.contains s sub = true <-> exists n, occurs_at sub s n.
Proof.
  unfold Py.contains.
  destruct (find_spec s sub) as [[-> Hno]|(n & -> & Hocc & _)].
  - split; [done|]. intros [n Hn]. by destruct (Hno n).
  - split; [intros _; by exists n | intros _; apply Z.leb_le; lia].
Qed.

Lemma contains_char (s : pystr) (c : ascii) :
  Py.contains s [c] = true <-> c ∈ s.
Proof.
  rewrite contains_occurs. unfold occurs_at. split.
  - intros (n & k & Hk). rewrite <- (take_drop n s), Hk.
    apply elem_of_app. right. left.
  - intros H. apply list_elem_of_split in H as (l1 & l2 & ->).
    exists (length l1). rewrite drop_app_length. by exists l2.
Qed.






(** ** Missing whitespace after a separator *)

Lemma getitem_lookup {A : Type} (l : list A) (i : nat) :
  Py.getitem l (Z.of_nat i) =
  match l !! i with
  | Some x => Ok x
  | None => Raise IndexError
  end.
Proof.
  unfold Py.getitem, Py.len.
  destruct (Z.of_nat i <? 0) eqn:E; [apply Z.ltb_lt in E; lia|].
  rewrite Nat2Z.id.
  destruct (l !! i) as [x|] eqn:El.
  - apply lookup_lt_Some in El.
    destruct (0 <=? Z.of_nat i) eqn:E1; [|lia].
    destruct (Z.of_nat i <? Z.of_nat (length l)) eqn:E2; [done | lia].
  - by destruct (_ && _).
Qed.

Lemma slice_take {A : Type} (l : list A) (i : nat) :
  Py.slice l None (Some (Z.of_nat i)) = take i l.
Proof.
  unfold Py.slice, Py.norm_index, Py.len.
  destruct (Z.of_nat i <? 0) eqn:E; [apply Z.ltb_lt in E; lia|]. simpl drop.
  destruct (decide (i <= length l)%nat) as [H|H].
  - f_equal. lia.
  - rewrite (take_ge l i) by lia. apply take_ge. lia.
Qed.

Lemma needs_space_at_dec (line : pystr) (i : nat) (char next : ascii) :
  line !! i = Some char -> line !! S i = Some next ->
  needs_space_at line i <->
  Checks.separator_needs_space line (Z.of_nat i) char next = true.
Proof.
  intros Hc Hn. unfold Checks.separator_needs_space, needs_space_at.
  rewrite slice_take.
  pose proof (contains_char (py ",;:") char) as H1.
  pose proof (contains_char WHITESPACE next) as H2.
  pose proof (contains_char (py ")]") next) as H3.
  destruct (Py.contains (py ",;:") [char]); cbn [andb].
  - destruct (Py.contains WHITESPACE [next]); cbn [negb].
    + split; [|done]. intros (c & n & ? & ? & _ & Hw & _). simplify_eq.
      destruct Hw. by apply H2.
    + destruct (Ascii.eqb_spec char ":") as [->|Hcolon]; cbn [andb].
      * destruct (_ >? _) eqn:Ecount.
        -- split; [|done]. intros (c & n & ? & ? & _ & _ & Hs & _).
           simplify_eq. destruct Hs. split; [done | lia].
        -- destruct (Ascii.eqb_spec ":"%char ","%char) as [Hd|_];
             [discriminate Hd|]. cbn [andb]. split; [done|]. intros _.
           exists ":"%char, next. repeat split; try done.
           ++ by apply H1.
           ++ intros Hin. apply H2 in Hin. discriminate Hin.
           ++ intros [_ ?]. lia.
           ++ intros [Hd _]. discriminate Hd.
      * destruct (Ascii.eqb_spec char ",") as [->|Hcomma]; cbn [andb].
        -- destruct (Py.contains (py ")]") [next]).
           ++ split; [|done]. intros (c & n & ? & ? & _ & _ & _ & Ht).
              simplify_eq. destruct Ht. split; [done | by apply H3].
           ++ split; [done|]. intros _.
              exists ","%char, next. repeat split; try done.
              ** by apply H1.
              ** intros Hin. apply H2 in Hin. discriminate Hin.
              ** intros [Hd _]. discriminate Hd.
              ** intros [_ Hin]. apply H3 in Hin. discriminate Hin.
        -- split; [done|]. intros _.
           exists char, next. repeat split; try done.
           ++ by apply H1.
           ++ intros Hin. apply H2 in Hin. discriminate Hin.
           ++ by intros [? _].
           ++ by intros [? _].
  - split; [|done]. intros (c & n & ? & _ & Hin & _). simplify_eq.
    apply H1 in Hin. discriminate Hin.
Qed.

Lemma missing_whitespace_loop_spec (line : pystr) (n a : nat) :
  (a + n = length line - 1)%nat ->
  (forall j, (j < a)%nat -> ~ needs_space_at line j) ->
  (exists i char,
     needs_space_at line i /\
     (forall j, (j < i)%nat -> ~ needs_space_at line j) /\
     line !! i = Some char /\
     Checks.missing_whitespace_loop line (map Z.of_nat (seq a n)) =
       Ok (Some (OffInt (Z.of_nat i),
                 py "E231 missing whitespace after '" ++ [char] ++ py "'")))
  \/
  ((forall i, ~ needs_space_at line i) /\
   Checks.missing_whitespace_loop line (map Z.of_nat (seq a n)) = Ok None).
Proof.
  revert a. induction n as [|n IH]; intros a Ha Hbefore.
  - right. split; [|done]. intros i Hneeds.
    pose proof Hneeds as (c & x & Hc & Hx & _).
    apply lookup_lt_Some in Hx.
    destruct (decide (i < a)%nat) as [Hlt|Hge]; [|lia].
    by apply (Hbefore i Hlt).
  - cbn [seq map Checks.missing_whitespace_loop].
    destruct (lookup_lt_is_Some_2 line a) as [char Hchar]; [lia|].
    destruct (lookup_lt_is_Some_2 line (S a)) as [next Hnext]; [lia|].
    replace (Z.of_nat a + 1) with (Z.of_nat (S a)) by lia.
    rewrite !getitem_lookup, Hchar, Hnext. unfold mbind, res_bind.
    pose proof (needs_space_at_dec line a char next Hchar Hnext) as Hdec.
    destruct (Checks.separator_needs_space line (Z.of_nat a) char next).
    + left. exists a, char. split; [by apply Hdec|]. done.
    + destruct (IH (S a)) as [H|H]; [lia| |by left|by right].
      intros j Hj. destruct (decide (j = a)) as [->|Hne].
      * intros Hneeds. apply Hdec in Hneeds. discriminate Hneeds.
      * apply Hbefore. lia.
Qed.

(** C6, as amended: [missing_whitespace.check] returns E231 at the first
    index that holds [,], [;] or [:] followed by a character that is
    neither space nor tab, unless it is a colon with more [[] than []]
    before it or a comma followed by [)] or []]; it returns no violation
    when there is no such index.  The last character of the line is
    never such an index: nothing follows it. *)
Theorem missing_whitespace_first_separator (line : pystr) :
  (forall i char,
     needs_space_at line i ->
     (forall j, (j < i)%nat -> ~ needs_space_at line j) ->
     line !! i = Some char ->
     Checks.missing_whitespace_check line =
       Ok (Some (OffInt (Z.of_nat i),
                 py "E231 missing whitespace after '" ++ [char] ++ py "'"))) /\
  ((forall i, ~ needs_space_at line i) ->
   Checks.missing_whitespace_check line = Ok None).
Proof.
  unfold Checks.missing_whitespace_check, Checks.range, Py.len.
  replace (Z.to_nat (Z.of_nat (length line) - 1)) with (length line - 1)%nat
    by lia.
  destruct (missing_whitespace_loop_spec line (length line - 1) 0)
    as [(i & char & Hi & Hfirst & Hchar & ->)|[Hnone ->]];
    [lia | intros; lia | |].
  - split.
    + intros i' char' Hi' Hfirst' Hchar'.
      assert (i' = i) as ->.
      { destruct (Nat.lt_trichotomy i' i) as [H|[H|H]]; [|done|].
        - by destruct (Hfirst i').
        - by destruct (Hfirst' i). }
      congruence.
    + intros Hnone. by destruct (Hnone i).
  - split; [|done]. intros i char Hi. by destruct (Hnone i).
Qed.

(** Decides [needs_space_at] at an index of a given line. *)
Ltac decide_needs H :=
  eapply needs_space_at_dec in H; [|reflexivity|reflexivity];
  vm_compute in H.

Lemma missing_whitespace_first_separator_witness :
  (needs_space_at (py "foo(bar,baz)") 7 /\
   (forall j, (j < 7)%nat -> ~ needs_space_at (py "foo(bar,baz)") j) /\
   py "foo(bar,baz)" !! 7%nat = Some ","%char) /\
  Checks.missing_whitespace_check (py "foo(bar,baz)") =
    Ok (Some (OffInt (Z.of_nat 7),
              py "E231 missing whitespace after '" ++ [","%char] ++ py "'")).
Proof.
  assert (H7 : needs_space_at (py "foo(bar,baz)") 7).
  { eapply needs_space_at_dec; reflexivity. }
  assert (Hbefore : forall j, (j < 7)%nat ->
                              ~ needs_space_at (py "foo(bar,baz)") j).
  { intros j Hj Hneeds.
    do 7 (destruct j as [|j]; [decide_needs Hneeds; discriminate Hneeds|]).
    lia. }
  split; [by repeat split|].
  apply (proj1 (missing_whitespace_first_separator (py "foo(bar,baz)"))
           7%nat ","%char H7 Hbefore eq_refl).
Defined.

(** C6 as stated fails on the line [if x:]: its colon is the first
    separator, no space or tab follows it (nothing does), no bracket
    precedes it, and the check returns no violation. *)
Lemma missing_whitespace_first_separator_counterexample :
  let line := py "if x:" in
  line !! 4%nat = Some ":"%char /\
  (forall j c, (j < 4)%nat -> line !! j = Some c -> c ∉ py ",;:") /\
  ~ (exists next, line !! 5%nat = Some next /\ next ∈ WHITESPACE) /\
  Py.count (take 4 line) "["%char = 0 /\
  Checks.missing_whitespace_check line = Ok None.
Proof.
  cbv zeta. split; [reflexivity|]. split; [|split; [|split]].
  - intros j c Hj Hc Hin.
    do 4 (destruct j as [|j];
          [injection Hc as <-;
           repeat (apply elem_of_cons in Hin as [Hin|Hin];
                   [discriminate Hin|]);
           by apply elem_of_nil in Hin|]).
    lia.
  - intros (next & Hnext & _). discriminate Hnext.
  - reflexivity.
  - reflexivity.
Qed.

(** ** Matching *)

Lemma head_drop {A : Type} (l : list A) (i : nat) : head (drop i l) = l !! i.
Proof.
  pose proof (lookup_drop l i 0) as H. rewrite Nat.add_0_r in H.
  rewrite <- H. by destruct (drop i l).
Qed.

Section Matcher.
Context {M : Type}.
Variable s : pystr.
Variable p : ascii -> bool.

Lemma chr_at (i : nat) (g : Re.groups) (k : nat -> Re.groups -> option M)
    (c : ascii) (post : pystr) :
  drop i s = c :: post -> p c = true ->
  Re.rx M (Re.Chr p) s i g k = k (S i) g.
Proof.
  intros Hd Hp. simpl. rewrite <- head_drop, Hd. simpl. by rewrite Hp.
Qed.

Lemma drop_tail (i : nat) (c : ascii) (post : pystr) :
  drop i s = c :: post -> drop (S i) s = post.
Proof.
  intros Hd. replace (S i) with (i + 1)%nat by lia.
  by rewrite <- drop_drop, Hd.
Qed.


Lemma star_at (fuel : nat) (run post : pystr) :
  forall (i : nat) (g : Re.groups) (k : nat -> Re.groups -> option M) (m : M),
    drop i s = run ++ post -> all_of p run -> stops p post ->
    (length run < fuel)%nat ->
    k (i + length run)%nat g = Some m ->
    Re.star_loop M (fun j g' k' => Re.rx M (Re.Chr p) s j g' k') k
      fuel i g = Some m.
Proof.
  revert fuel. induction run as [|c run IH]; intros fuel i g k m Hd Hall Hstop
    Hfuel Hk.
  - destruct fuel as [|fuel]; [simpl in Hfuel; lia|].
    simpl in *. rewrite Nat.add_0_r in Hk.
    rewrite <- head_drop, Hd.
    destruct post as [|c post]; simpl; [done|].
    simpl in Hstop. by rewrite Hstop.
  - destruct fuel as [|fuel]; [simpl in Hfuel; lia|].
    apply Forall_cons in Hall as [Hc Hall].
    cbn [Re.star_loop].
    rewrite (chr_at i g _ c (run ++ post) Hd Hc).
    apply drop_tail in Hd.
    replace (i <? S i)%nat with true by (symmetry; apply Nat.ltb_lt; lia).
    rewrite (IH fuel (S i) g k m); [done|done|done|done| |].
    + simpl in Hfuel. lia.
    + rewrite <- Hk. f_equal. simpl. lia.
Qed.



Lemma drop_length_le (i : nat) (run post : pystr) :
  drop i s = run ++ post -> (length run <= length s - i)%nat.
Proof.
  intros Hd. apply (f_equal length) in Hd.
  rewrite length_drop, length_app in Hd. lia.
Qed.

Lemma star_at_rx (i : nat) (g : Re.groups)
    (k : nat -> Re.groups -> option M) (m : M) (run post : pystr) :
  drop i s = run ++ post -> all_of p run -> stops p post ->
  k (i + length run)%nat g = Some m ->
  Re.star_loop M (fun j g' k' => Re.rx M (Re.Chr p) s j g' k') k
    (S (length s - i)) i g = Some m.
Proof.
  intros Hd Hall Hstop Hk. eapply star_at; try done.
  apply drop_length_le in Hd. lia.
Qed.
End Matcher.

Lemma span (p : ascii -> bool) (l : pystr) :
  exists run post, l = run ++ post /\ all_of p run /\ stops p post.
Proof.
  induction l as [|c l (run & post & -> & Hall & Hstop)].
  - exists [], []. by repeat split; try constructor.
  - destruct (p c) eqn:E.
    + exists (c :: run), post. split; [done|]. split; [by constructor | done].
    + exists [], (c :: run ++ post). split; [done|]. split; [constructor|done].
Qed.

(** ** Deprecated constructs *)




Lemma take_drop_run {A : Type} (l run post : list A) (i : nat) :
  drop i l = run ++ post -> take (length run) (drop i l) = run.
Proof.
  intros ->. by rewrite take_app_length.
Qed.














(** * Further properties of the code *)

(** ** Masking string literals *)

Lemma slice_drop {A : Type} (l : list A) (i : nat) :
  Py.slice l (Some (Z.of_nat i)) None = drop i l.
Proof.
  unfold Py.slice, Py.norm_index, Py.len.
  replace (Z.of_nat i <? 0) with false by (symmetry; apply Z.ltb_ge; lia).
  destruct (decide (i <= length l)%nat) as [H|H].
  - replace (Z.to_nat (Z.min (Z.of_nat i) (Z.of_nat (length l)))) with i by lia.
    apply take_ge. rewrite length_drop. lia.
  - replace (Z.to_nat (Z.min (Z.of_nat i) (Z.of_nat (length l))))
      with (length l) by lia.
    rewrite !drop_ge by lia. by rewrite take_nil.
Qed.

Lemma endswith_snoc (l p : pystr) (c d : ascii) :
  Py.endswith (l ++ [c]) (p ++ [d]) = Ascii.eqb d c && Py.endswith l p.
Proof.
  unfold Py.endswith. by rewrite !rev_unit.
Qed.

Lemma find_after_prefix (prefix rest : pystr) (c : ascii) :
  c ∉ prefix -> Py.find (prefix ++ c :: rest) [c] = Py.len prefix.
Proof.
  intros Hc.
  assert (Hfirst : first_occurrence [c] (prefix ++ c :: rest) (length prefix)).
  { split.
    - unfold occurs_at. rewrite drop_app_length. by exists rest.
    - intros k Hk [x Hx]. unfold occurs_at in *.
      destruct (lookup_lt_is_Some_2 prefix k Hk) as [y Hy].
      apply Hc.
      assert ((prefix ++ c :: rest) !! k = Some c) as Hlook.
      { rewrite <- head_drop, Hx. done. }
      rewrite lookup_app_l in Hlook by done.
      by apply list_elem_of_lookup_2 in Hlook. }
  destruct (find_spec (prefix ++ c :: rest) [c]) as [[_ Hno]|(n & -> & Hn)].
  - destruct Hfirst as [Hocc _]. by destruct (Hno (length prefix)).
  - unfold Py.len. by rewrite (first_occurrence_unique _ _ _ _ Hn Hfirst).
Qed.

Lemma repeat_x_length (n : nat) :
  length (Py.repeat (py "x") (Z.of_nat n)) = n.
Proof.
  unfold Py.repeat. rewrite Nat2Z.id.
  induction n as [|n IH]; [done|].
  cbn [replicate concat]. by rewrite length_app, IH.
Qed.

(** The text of a string literal: prefix letters, the quote (one, or
    three for a triple-quoted literal), the body and the quote again. *)
Lemma mute_string_quoted (prefix body : pystr) (q : ascii) (open : pystr) :
  q = chr_dq \/ q = chr_sq -> q ∉ prefix ->
  open = [] \/ open = [q; q] ->
  let text := prefix ++ [q] ++ open ++ body ++ open ++ [q] in
  (open = [] -> Py.endswith text [q; q; q] = false) ->
  mute_string text =
    prefix ++ [q] ++ open ++ Py.repeat (py "x") (Py.len body) ++ open ++ [q].
Proof.
  intros Hq Hprefix Hopen text Hsingle. unfold mute_string.
  assert (Hends : forall d, Py.endswith text [d] = Ascii.eqb d q).
  { intros d. unfold text.
    replace (prefix ++ [q] ++ open ++ body ++ open ++ [q])
      with ((prefix ++ [q] ++ open ++ body ++ open) ++ [q])
      by (by rewrite <- !app_assoc).
    rewrite (endswith_snoc _ [] q d). by rewrite andb_true_r. }
  assert (Hfind : Py.find text [q] = Py.len prefix).
  { unfold text. by apply find_after_prefix. }
  assert (Hother : forall d, d <> q -> Py.endswith text [d; d; d] = false).
  { intros d Hd. unfold text.
    replace (prefix ++ [q] ++ open ++ body ++ open ++ [q])
      with ((prefix ++ [q] ++ open ++ body ++ open) ++ [q])
      by (by rewrite <- !app_assoc).
    rewrite (endswith_snoc _ [d; d] q d).
    by destruct (Ascii.eqb_spec d q). }
  assert (Hstart : (if Py.endswith text [chr_dq]
                    then 1 + Py.find text [chr_dq]
                    else if Py.endswith text [chr_sq]
                         then 1 + Py.find text [chr_sq] else 1) =
                   1 + Py.len prefix).
  { rewrite !Hends. destruct Hq as [-> | ->]; simpl; by rewrite Hfind. }
  rewrite Hstart.
  assert (Htriple : Py.endswith text [chr_dq; chr_dq; chr_dq] ||
                    Py.endswith text [chr_sq; chr_sq; chr_sq] =
                    bool_decide (open = [q; q])).
  { destruct Hopen as [-> | ->].
    - rewrite bool_decide_eq_false_2 by discriminate.
      destruct Hq as [-> | ->].
      + rewrite Hsingle by done. by rewrite Hother.
      + rewrite (Hother chr_dq) by done. by rewrite Hsingle.
    - rewrite bool_decide_eq_true_2 by done.
      assert (Py.endswith text [q; q; q] = true) as Hq3.
      { unfold text, Py.endswith. rewrite !rev_app_distr. simpl.
        by rewrite !Ascii.eqb_refl. }
      destruct Hq as [-> | ->]; rewrite Hq3; [done | by rewrite orb_true_r]. }
  rewrite Htriple. unfold Py.len.
  destruct Hopen as [-> | ->].
  - rewrite bool_decide_eq_false_2 by discriminate.
    replace (1 + Z.of_nat (length prefix))
      with (Z.of_nat (length (prefix ++ [q]))) by (rewrite length_app; simpl; lia).
    replace (Z.of_nat (length text) - 1)
      with (Z.of_nat (length (prefix ++ [q] ++ body)))
      by (unfold text; rewrite ?length_app; simpl; rewrite ?length_app;
          simpl; lia).
    rewrite slice_take, slice_drop. unfold text. simpl.
    replace (prefix ++ q :: body ++ [q])
      with ((prefix ++ [q]) ++ body ++ [q]) by (by rewrite <- app_assoc).
    rewrite take_app_length.
    replace ((prefix ++ [q]) ++ body ++ [q])
      with ((prefix ++ [q] ++ body) ++ [q]) by (by rewrite <- !app_assoc).
    rewrite drop_app_length. rewrite <- !app_assoc. simpl.
    do 2 f_equal. f_equal. f_equal. rewrite !length_app. simpl. lia.
  - rewrite bool_decide_eq_true_2 by done.
    replace (1 + Z.of_nat (length prefix) + 2)
      with (Z.of_nat (length (prefix ++ [q; q; q])))
      by (rewrite length_app; simpl; lia).
    replace (Z.of_nat (length text) - 1 - 2)
      with (Z.of_nat (length (prefix ++ [q; q; q] ++ body)))
      by (unfold text; rewrite ?length_app; simpl; rewrite ?length_app;
          simpl; lia).
    rewrite slice_take, slice_drop. unfold text. simpl.
    replace (prefix ++ q :: q :: q :: body ++ [q; q; q])
      with ((prefix ++ [q; q; q]) ++ body ++ [q; q; q])
      by (by rewrite <- app_assoc).
    rewrite take_app_length.
    replace ((prefix ++ [q; q; q]) ++ body ++ [q; q; q])
      with ((prefix ++ [q; q; q] ++ body) ++ [q; q; q])
      by (by rewrite <- !app_assoc).
    rewrite drop_app_length. rewrite <- !app_assoc. simpl.
    do 4 f_equal. f_equal. f_equal. rewrite !length_app. simpl. lia.
Qed.

(** X1: on a string literal -- prefix letters, an opening quote (one
    quote, or three of them), a body, the closing quote -- [mute_string]
    keeps the prefix and both quotes and puts one [x] for every character
    of the body: the text keeps its length. *)
Theorem mute_string_literal (prefix body : pystr) (q : ascii) (open : pystr) :
  q = chr_dq \/ q = chr_sq -> q ∉ prefix ->
  open = [] \/ open = [q; q] ->
  (open = [] ->
   Py.endswith (prefix ++ [q] ++ open ++ body ++ open ++ [q]) [q; q; q] =
     false) ->
  mute_string (prefix ++ [q] ++ open ++ body ++ open ++ [q]) =
    prefix ++ [q] ++ open ++ Py.repeat (py "x") (Py.len body) ++ open ++ [q] /\
  Py.len (mute_string (prefix ++ [q] ++ open ++ body ++ open ++ [q])) =
    Py.len (prefix ++ [q] ++ open ++ body ++ open ++ [q]).
Proof.
  intros Hq Hprefix Hopen Hsingle.
  rewrite (mute_string_quoted prefix body q open Hq Hprefix Hopen Hsingle).
  split; [done|]. unfold Py.len.
  rewrite !length_app, repeat_x_length. by rewrite ?length_app.
Qed.

Lemma mute_string_literal_witness :
  (chr_sq = chr_dq \/ chr_sq = chr_sq) /\ chr_sq ∉ py "r" /\
  (([] : pystr) = [] \/ ([] : pystr) = [chr_sq; chr_sq]) /\
  mute_string (py "r" ++ [chr_sq] ++ [] ++ py "abc" ++ [] ++ [chr_sq]) =
    py "r" ++ [chr_sq] ++ [] ++ Py.repeat (py "x") (Py.len (py "abc")) ++
    [] ++ [chr_sq].
Proof.
  assert (H1 : chr_sq = chr_dq \/ chr_sq = chr_sq) by (by right).
  assert (H2 : chr_sq ∉ py "r").
  { intros H. apply list_elem_of_singleton in H. discriminate H. }
  assert (H3 : ([] : pystr) = [] \/ ([] : pystr) = [chr_sq; chr_sq])
    by (by left).
  split; [exact H1|]. split; [exact H2|]. split; [exact H3|].
  apply (proj1 (mute_string_literal (py "r") (py "abc") chr_sq [] H1 H2 H3
                  (fun _ => eq_refl))).
Defined.

(** ** Physical lines *)

Lemma rstrip_by_snoc (p : ascii -> bool) (l : pystr) (c : ascii) :
  Py.rstrip_by p (l ++ [c]) = if p c then Py.rstrip_by p l else l ++ [c].
Proof.
  unfold Py.rstrip_by. rewrite rev_unit. simpl. destruct (p c); [done|].
  simpl. by rewrite rev_involutive.
Qed.

Lemma rstrip_by_length (p : ascii -> bool) (l : pystr) :
  (length (Py.rstrip_by p l) <= length l)%nat.
Proof.
  induction l as [|c l IH] using rev_ind; [done|].
  rewrite rstrip_by_snoc, length_app. simpl. destruct (p c); [lia|].
  rewrite length_app. simpl. lia.
Qed.

(** X2: [missing_newline.check] accepts a line exactly when its last
    character is whitespace of any kind, and reports W292 at the end of
    the line otherwise: a last line that ends in a blank but has no
    newline is not reported. *)
Theorem missing_newline_last_character (physical_line : pystr) :
  (Checks.missing_newline_check physical_line = None <->
   exists body c, physical_line = body ++ [c] /\ Py.is_space c = true) /\
  (Checks.missing_newline_check physical_line <> None ->
   Checks.missing_newline_check physical_line =
     Some (OffInt (Py.len physical_line),
           py "W292 no newline at end of file")).
Proof.
  unfold Checks.missing_newline_check, Py.rstrip.
  destruct physical_line as [|c l _] using rev_ind.
  - rewrite bool_decide_eq_true_2 by done. split; [|done].
    split; [done|]. intros (body & c & H & _). by destruct body.
  - rewrite rstrip_by_snoc. destruct (Py.is_space c) eqn:E.
    + rewrite bool_decide_eq_false_2.
      * split; [|done]. split; [|done]. intros _. by exists l, c.
      * intros H. pose proof (rstrip_by_length Py.is_space l) as Hlen.
        rewrite H, length_app in Hlen. simpl in Hlen. lia.
    + rewrite bool_decide_eq_true_2 by done. split; [|done].
      split; [done|]. intros (body & d & H & Hd).
      apply app_inj_tail in H as [_ ->]. congruence.
Qed.

(** The length of well-formed UTF-8 text counted in characters. *)
Lemma utf8_len_ascii (l : pystr) (n : Z) :
  Forall (fun c => Checks.byte c < 128) l ->
  Checks.utf8_len l n = Some (n + Py.len l).
Proof.
  intros H. revert n. induction H as [|c l Hc _ IH]; intros n.
  - simpl. f_equal. unfold Py.len. simpl. lia.
  - cbn [Checks.utf8_len]. unfold Checks.between at 1.
    replace (0 <=? Checks.byte c) with true
      by (symmetry; apply Z.leb_le; unfold Checks.byte; lia).
    replace (Checks.byte c <=? 127) with true
      by (symmetry; apply Z.leb_le; lia).
    cbn [andb]. rewrite IH. f_equal. unfold Py.len. simpl length. lia.
Qed.

Lemma utf8_len_bound (l : pystr) :
  forall n m, Checks.utf8_len l n = Some m -> n <= m <= n + Py.len l.
Proof.
  unfold Py.len.
  induction l as [l IH] using (induction_ltof1 _ (@length ascii)).
  unfold ltof in IH. intros n m.
  destruct l as [|b0 s1]; [simpl; intros [= <-]; lia|].
  cbn [Checks.utf8_len]. destruct (Checks.between 0 127 b0).
  { intros H. apply IH in H; simpl in *; lia. }
  destruct s1 as [|b1 s2]; [done|]. destruct (Checks.between 194 223 b0).
  { destruct (Checks.between 128 191 b1); [|done].
    intros H. apply IH in H; simpl in *; lia. }
  destruct s2 as [|b2 s3]; [done|]. destruct (Checks.between 224 239 b0).
  { destruct (_ && _); [|done]. intros H. apply IH in H; simpl in *; lia. }
  destruct s3 as [|b3 s4]; [done|].
  destruct (_ && _); [|done]. intros H. apply IH in H; simpl in *; lia.
Qed.

(** X3: the length [maximum_line_length.check] compares never exceeds
    the byte length of the stripped line, so a line of at most
    [MAX_LINE_LENGTH] bytes gets no E501; and a line of 7-bit characters
    gets E501 exactly when its stripped length exceeds
    [MAX_LINE_LENGTH], with that length in the message. *)
Theorem maximum_line_length_bytes (physical_line : pystr) :
  (Py.len (Py.rstrip physical_line) <= MAX_LINE_LENGTH ->
   Checks.maximum_line_length_check physical_line = None) /\
  (Forall (fun c => Checks.byte c < 128) (Py.rstrip physical_line) ->
   Checks.maximum_line_length_check physical_line =
     if Py.len (Py.rstrip physical_line) >? MAX_LINE_LENGTH
     then Some (OffInt MAX_LINE_LENGTH,
                py "E501 line too long (" ++
                Py.str_of_int (Py.len (Py.rstrip physical_line)) ++
                py " characters)")
     else None) /\
  (forall n, Checks.decode_utf8_len (Py.rstrip physical_line) = Some n ->
             0 <= n <= Py.len (Py.rstrip physical_line)).
Proof.
  unfold Checks.maximum_line_length_check, Checks.decode_utf8_len.
  set (line := Py.rstrip physical_line). split; [|split].
  - intros H.
    assert (E : (Py.len line >? MAX_LINE_LENGTH) = false)
      by (rewrite Z.gtb_ltb; apply Z.ltb_ge; lia).
    cbv zeta. by rewrite !E.
  - intros H. rewrite (utf8_len_ascii line 0 H). rewrite Z.add_0_l.
    destruct (Py.len line >? MAX_LINE_LENGTH) eqn:E; by rewrite E.
  - intros n H. apply utf8_len_bound in H. lia.
Qed.

Lemma maximum_line_length_bytes_witness :
  (Py.len (Py.rstrip (py "x = 1 ")) <= MAX_LINE_LENGTH /\
   Forall (fun c => Checks.byte c < 128) (Py.rstrip (py "x = 1 "))) /\
  Checks.maximum_line_length_check (py "x = 1 ") = None.
Proof.
  assert (H : Py.len (Py.rstrip (py "x = 1 ")) <= MAX_LINE_LENGTH)
    by (vm_compute; discriminate).
  split.
  - split; [exact H|]. vm_compute Py.rstrip.
    repeat constructor; vm_compute; reflexivity.
  - apply (proj1 (maximum_line_length_bytes (py "x = 1 ")) H).
Defined.

(** ** Reporting and counting *)

Ltac report_cases H :=
  unfold report_error, message, mbind, res_bind in H;
  repeat (simplify_eq/=; case_match); simplify_eq/=.

(** X4: an error whose code is not suppressed is counted: the counter of
    its code goes up by one (from nothing to one for a new code), the
    message of a new code is the text behind the code, the message of a
    code seen before is kept, and no other counter or message changes. *)
Theorem report_error_counts (o : options) (line_number offset : Z)
    (text : pystr) (chk : Check) (c c' : Checker) :
  truthy (ignore_code o (Py.slice text None (Some 4))) = false ->
  report_error o line_number offset text chk c = Ok c' ->
  counters c' !! Py.slice text None (Some 4) =
    Some (default 0 (counters c !! Py.slice text None (Some 4)) + 1) /\
  messages c' !! Py.slice text None (Some 4) =
    match counters c !! Py.slice text None (Some 4) with
    | Some _ => messages c !! Py.slice text None (Some 4)
    | None => Some (Py.slice text (Some 5) None)
    end /\
  (forall k, k <> Py.slice text None (Some 4) ->
             counters c' !! k = counters c !! k /\
             messages c' !! k = messages c !! k).
Proof.
  intros Hcode H. unfold report_error in H. rewrite Hcode in H.
  set (code := Py.slice text None (Some 4)) in *. clearbody code.
  destruct c. unfold message, mbind, res_bind in H. cbn in H |- *.
  repeat (simplify_eq/=; case_match); simplify_eq/=;
    rewrite ?lookup_insert_eq; (split; [done|]); (split; [done|]);
    intros k Hk; by rewrite ?lookup_insert_ne.
Qed.

Lemma report_error_counts_witness :
  exists c',
    report_error default_options 1 5 (py "W291 trailing whitespace")
      Registry.trailing_whitespace Runs.start = Ok c' /\
    counters c' !! py "W291" = Some 1 /\
    messages c' !! py "W291" = Some (py "trailing whitespace").
Proof.
  eexists. split; [reflexivity|].
  destruct (report_error_counts default_options 1 5
              (py "W291 trailing whitespace") Registry.trailing_whitespace Runs.start _
              eq_refl eq_refl) as (H1 & H2 & _).
  split; [exact H1 | exact H2].
Defined.



(** ** The total count *)

Lemma code_not_benchmark (text : pystr) :
  Py.slice text None (Some 4) ∉ BENCHMARK_KEYS.
Proof.
  replace (Py.slice text None (Some 4)) with (take 4 text)
    by (symmetry; apply (slice_take text 4)).
  intros H.
  assert (Hlen : (length (take 4 text) <= 4)%nat)
    by (rewrite length_take; lia).
  unfold BENCHMARK_KEYS in H. simpl in H.
  repeat (apply elem_of_cons in H as [H|H];
          [rewrite H in Hlen; simpl in Hlen; lia|]).
  by apply elem_of_nil in H.
Qed.

Lemma count_loop_sum (prefix : pystr) (counters : gmap pystr Z)
    (keys : list pystr) :
  (forall k, k ∈ keys -> is_Some (counters !! k)) ->
  forall n, count_loop prefix counters keys n =
            Ok (n + sum_keys prefix counters keys).
Proof.
  induction keys as [|k keys IH]; intros Hkeys n; simpl.
  - f_equal. lia.
  - destruct (Hkeys k) as [v Hv]; [left|].
    assert (Hrest : forall k', k' ∈ keys -> is_Some (counters !! k'))
      by (intros; apply Hkeys; by right).
    destruct (Py.startswith k prefix).
    + rewrite Hv, (IH Hrest). simpl. f_equal. lia.
    + by rewrite (IH Hrest).
Qed.

Lemma sum_keys_perm (prefix : pystr) (counters : gmap pystr Z)
    (keys keys' : list pystr) :
  keys ≡ₚ keys' ->
  sum_keys prefix counters keys = sum_keys prefix counters keys'.
Proof.
  unfold sum_keys.
  induction 1 as [|k l l' _ IH|k k' l|l l' l'' _ IH1 _ IH2]; simpl.
  - done.
  - by rewrite IH.
  - repeat case_match; lia.
  - congruence.
Qed.

Lemma sum_keys_insert_ne (prefix : pystr) (counters : gmap pystr Z)
    (keys : list pystr) (k : pystr) (v : Z) :
  k ∉ keys ->
  sum_keys prefix (<[k := v]> counters) keys = sum_keys prefix counters keys.
Proof.
  induction keys as [|k' keys IH]; [done|]. intros Hk. simpl.
  apply not_elem_of_cons in Hk as [Hne Hk].
  unfold sum_keys in IH |- *. simpl.
  rewrite lookup_insert_ne by done. by rewrite (IH Hk).
Qed.

Lemma sum_keys_insert_in (prefix : pystr) (counters : gmap pystr Z)
    (keys : list pystr) (k : pystr) (v : Z) :
  NoDup keys -> k ∈ keys ->
  sum_keys prefix (<[k := v]> counters) keys =
    sum_keys prefix counters keys +
    (if Py.startswith k prefix then v - default 0 (counters !! k) else 0).
Proof.
  induction keys as [|k' keys IH]; intros Hnd Hk.
  - by apply elem_of_nil in Hk.
  - apply NoDup_cons in Hnd as [Hnotin Hnd].
    pose proof (sum_keys_insert_ne prefix counters keys k v) as E.
    unfold sum_keys in IH, E |- *. simpl.
    destruct (decide (k' = k)) as [->|Hne].
    + rewrite lookup_insert_eq.
      rewrite E by done. simpl.
      destruct (Py.startswith k prefix); lia.
    + apply elem_of_cons in Hk as [->|Hk]; [done|].
      rewrite lookup_insert_ne by done.
      rewrite (IH Hnd Hk). destruct (Py.startswith k' prefix); lia.
Qed.

Lemma elem_of_keys {A : Type} (m : gmap pystr A) (k : pystr) :
  k ∈ map fst (map_to_list m) <-> is_Some (m !! k).
Proof.
  change (map fst (map_to_list m)) with ((map_to_list m).*1).
  rewrite list_elem_of_fmap. split.
  - intros ([k' v] & -> & H). apply elem_of_map_to_list in H. by exists v.
  - intros [v H]. exists (k, v). split; [done|].
    by apply elem_of_map_to_list.
Qed.

Lemma get_count_sum (prefix : pystr) (c : Checker) :
  counted c ->
  get_count prefix c =
    Ok (sum_keys prefix (counters c) (map fst (map_to_list (messages c)))).
Proof.
  intros Hc. unfold get_count. rewrite count_loop_sum; [done|].
  intros k Hk. apply elem_of_keys in Hk. by apply Hc in Hk as [Hk _].
Qed.

(** The books after [report_error] for a code that is not suppressed. *)
Lemma report_error_books (o : options) (line_number offset : Z)
    (text : pystr) (chk : Check) (c c' : Checker) :
  truthy (ignore_code o (Py.slice text None (Some 4))) = false ->
  report_error o line_number offset text chk c = Ok c' ->
  counters c' =
    <[Py.slice text None (Some 4) :=
        default 0 (counters c !! Py.slice text None (Some 4)) + 1]>
      (counters c) /\
  messages c' =
    match counters c !! Py.slice text None (Some 4) with
    | Some _ => messages c
    | None => <[Py.slice text None (Some 4) := Py.slice text (Some 5) None]>
                (messages c)
    end /\
  file_errors c' =
    (if negb (quiet o =? 0) ||
        Py.member (Py.slice text None (Some 4)) (expected c)
     then file_errors c else file_errors c + 1) /\
  expected c' = expected c.
Proof.
  intros Hcode H. unfold report_error in H. rewrite Hcode in H.
  set (code := Py.slice text None (Some 4)) in *. clearbody code.
  destruct c. unfold message, mbind, res_bind in H. cbn in H |- *.
  unfold Py.member in *.
  repeat (simplify_eq/=; case_match); simplify_eq/=; done.
Qed.

Lemma counted_sum_step (prefix code : pystr) (message : pystr)
    (counters : gmap pystr Z) (messages : gmap pystr pystr) :
  (forall k, is_Some (messages !! k) <->
             is_Some (counters !! k) /\ k ∉ BENCHMARK_KEYS) ->
  code ∉ BENCHMARK_KEYS ->
  let counters' := <[code := default 0 (counters !! code) + 1]> counters in
  let messages' := match counters !! code with
                   | Some _ => messages
                   | None => <[code := message]> messages
                   end in
  (forall k, is_Some (messages' !! k) <->
             is_Some (counters' !! k) /\ k ∉ BENCHMARK_KEYS) /\
  sum_keys prefix counters' (map fst (map_to_list messages')) =
    sum_keys prefix counters (map fst (map_to_list messages)) +
    (if Py.startswith code prefix then 1 else 0).
Proof.
  intros Hc Hcode counters' messages'. subst counters' messages'.
  destruct (counters !! code) as [n|] eqn:E.
  - split.
    + intros k. rewrite Hc. destruct (decide (k = code)) as [->|Hne].
      * rewrite lookup_insert_eq, E. split; intros [_ H]; (split; [|done]); eauto.
      * by rewrite lookup_insert_ne.
    + rewrite sum_keys_insert_in.
      * rewrite E. simpl. destruct (Py.startswith code prefix); lia.
      * change (map fst (map_to_list messages))
          with ((map_to_list messages).*1).
        apply NoDup_fst_map_to_list.
      * apply elem_of_keys, Hc. split; [eauto | done].
  - assert (Hm : messages !! code = None).
    { destruct (messages !! code) eqn:Em; [|done].
      destruct (proj1 (Hc code)) as [[v Hv] _]; [eauto | congruence]. }
    split.
    + intros k. destruct (decide (k = code)) as [->|Hne].
      * rewrite !lookup_insert_eq. split; [intros _; split; eauto | eauto].
      * rewrite !lookup_insert_ne by done. apply Hc.
    + change (map fst (map_to_list (<[code:=message]> messages)))
        with ((map_to_list (<[code:=message]> messages)).*1).
      rewrite (sum_keys_perm _ _ _ (code :: (map_to_list messages).*1)).
      * simpl. rewrite lookup_insert_eq.
        assert (Hnotin : code ∉ map fst (map_to_list messages)).
        { intros Hin. apply elem_of_keys in Hin as [v Hv]. congruence. }
        pose proof (sum_keys_insert_ne prefix counters _ code (0 + 1) Hnotin)
          as Es.
        unfold sum_keys in Es |- *. simpl in Es |- *.
        change (map fst (map_to_list messages))
          with ((map_to_list messages).*1) in Es |- *.
        rewrite Es. simpl. destruct (Py.startswith code prefix); lia.
      * rewrite map_to_list_insert by done. done.
Qed.

(** X6: [get_count] after [report_error].  When the codes with a message
    are the counted codes -- as in a fresh process, and [report_error]
    keeps it so -- [get_count(prefix)] raises no [KeyError], and an
    error that is not suppressed adds one to it exactly when its code
    starts with [prefix]. *)
Theorem get_count_report_error (o : options) (prefix : pystr)
    (line_number offset : Z) (text : pystr) (chk : Check) (c c' : Checker) :
  counted c ->
  truthy (ignore_code o (Py.slice text None (Some 4))) = false ->
  report_error o line_number offset text chk c = Ok c' ->
  counted c' /\
  exists n,
    get_count prefix c = Ok n /\
    get_count prefix c' =
      Ok (n + if Py.startswith (Py.slice text None (Some 4)) prefix
              then 1 else 0).
Proof.
  intros Hc Hcode H.
  destruct (report_error_books _ _ _ _ _ _ _ Hcode H) as (Ec & Em & _ & _).
  destruct (counted_sum_step prefix _ (Py.slice text (Some 5) None) _ _ Hc
              (code_not_benchmark text)) as [Hc' Hsum].
  cbv zeta in Hc', Hsum. rewrite <- Ec, <- Em in Hc', Hsum.
  split; [exact Hc'|]. eexists. split; [by apply get_count_sum|].
  rewrite get_count_sum by exact Hc'. by rewrite Hsum.
Qed.

Lemma counted_initial (c : Checker) :
  counters c = initial_counters -> messages c = ∅ -> counted c.
Proof.
  intros Hc Hm k. rewrite Hc, Hm, lookup_empty. split.
  - by intros [v Hv].
  - intros [[v Hv] Hk]. exfalso. apply Hk.
    unfold initial_counters in Hv. apply elem_of_list_to_map_2 in Hv.
    apply list_elem_of_In, in_map_iff in Hv as (k' & [= -> _] & Hin).
    by apply list_elem_of_In.
Qed.

Lemma get_count_report_error_witness :
  exists c',
    report_error default_options 1 5 (py "W291 trailing whitespace")
      Registry.trailing_whitespace Runs.start = Ok c' /\
    counted c' /\
    exists n, get_count (py "W") Runs.start = Ok n /\
              get_count (py "W") c' = Ok (n + 1).
Proof.
  eexists. split; [reflexivity|].
  apply (get_count_report_error default_options (py "W") 1 5
           (py "W291 trailing whitespace") Registry.trailing_whitespace Runs.start _
           (counted_initial Runs.start eq_refl eq_refl) eq_refl eq_refl).
Defined.

(** ** Invariants of a run *)

Ltac kept_done :=
  repeat case_match;
  match goal with
  | |- same_books ?c _ /\ same_files ?c _ =>
      destruct c; repeat split; reflexivity
  | |- same_books ?c _ => destruct c; repeat split; reflexivity
  | |- same_files ?c _ => destruct c; repeat split; reflexivity
  end.

Lemma kept_report_fix (o : options) (msg old new : pystr) (c : Checker) :
  same_books c (report_fix o msg old new c) /\
  same_files c (report_fix o msg old new c).
Proof. unfold report_fix, message. kept_done. Qed.

Lemma registry_fix_kept (o : options) (chk : Check)
    (f : options -> Checker -> res (Checker * option pystr))
    (c : Checker) (r : Checker * option pystr) :
  chk ∈ Registry.all_checks -> fix_method chk = Some f ->
  f o c = Ok r -> same_books c (fst r) /\ same_files c (fst r).
Proof.
  unfold Registry.all_checks. intros Hin.
  repeat (apply elem_of_cons in Hin as [->|Hin]);
    try (by apply elem_of_nil in Hin);
    cbn [fix_method Registry.tabs_or_spaces Registry.tabs_obsolete
         Registry.trailing_whitespace Registry.trailing_blank_lines
         Registry.missing_newline Registry.maximum_line_length
         Registry.blank_lines Registry.extraneous_whitespace
         Registry.missing_whitespace Registry.indentation
         Registry.whitespace_before_parameters
         Registry.whitespace_around_operator
         Registry.missing_whitespace_around_operator
         Registry.whitespace_around_comma
         Registry.whitespace_around_named_parameter_equals
         Registry.whitespace_before_inline_comment
         Registry.imports_on_separate_lines Registry.compound_statements
         Registry.python_3000_has_key Registry.python_3000_raise_comma
         Registry.python_3000_not_equal Registry.python_3000_backticks
         Registry.pure_fix];
    intros Hf Hr; try discriminate Hf; injection Hf as <-;
    revert Hr.
  - unfold Checks.tabs_or_spaces_fix, mbind, res_bind.
    destruct (Checks.indent_of _); [|done]. intros [= <-]. cbn [fst].
    apply kept_report_fix.
  - unfold Checks.tabs_obsolete_fix. intros [= <-]. cbn [fst].
    apply kept_report_fix.
  - unfold Checks.trailing_whitespace_fix. intros [= <-]. cbn [fst].
    apply kept_report_fix.
  - unfold Checks.trailing_blank_lines_fix. intros [= <-]. cbn [fst].
    apply kept_report_fix.
  - unfold Checks.missing_newline_fix. intros [= <-]. cbn [fst].
    apply kept_report_fix.
  - intros [= <-]. cbn [fst]. unfold Checks.blank_lines_fix. kept_done.
  - intros [= <-]. cbn [fst]. unfold Checks.extraneous_whitespace_fix.
    kept_done.
  - unfold Checks.missing_whitespace_fix, mbind, res_bind.
    destruct (Checks.missing_whitespace_fix_loop _ _); [|done].
    intros [= <-]. cbn [fst]. kept_done.
  - intros [= <-]. cbn [fst]. unfold Checks.whitespace_around_operator_fix.
    kept_done.
  - unfold Checks.missing_whitespace_around_operator_fix, mbind, res_bind.
    destruct (Checks.missing_whitespace_around_operator_fix_loop _ _ _);
      [|done].
    intros [= <-]. cbn [fst]. kept_done.
  - intros [= <-]. cbn [fst]. unfold Checks.whitespace_around_comma_fix.
    kept_done.
  - intros [= <-]. cbn [fst].
    unfold Checks.whitespace_around_named_parameter_equals_fix. kept_done.
  - unfold Checks.python_3000_raise_comma_fix, mbind, res_bind. intros Hr.
    repeat case_match; simplify_eq; cbn [fst]; kept_done.
Qed.

Lemma kept_build_tokens_line (c c' : Checker) :
  build_tokens_line c = Ok c' -> same_books c c' /\ same_files c c'.
Proof.
  unfold build_tokens_line, build_tokens_line_body, mbind, res_bind.
  destruct (build_loop _ _ _) as [st|]; [|done].
  case_match; [|done]. intros [= <-]. destruct c; by repeat split.
Qed.

Lemma same_files_report_error (o : options) (line_number offset : Z)
    (text : pystr) (chk : Check) (c c' : Checker) :
  report_error o line_number offset text chk c = Ok c' -> same_files c c'.
Proof.
  unfold report_error, message, mbind, res_bind. intros H.
  destruct c. cbn in H.
  repeat (simplify_eq/=; case_match); simplify_eq/=; by repeat split.
Qed.

Lemma same_files_add_counter (key : pystr) (n : Z) (c c' : Checker) :
  add_counter key n c = Ok c' -> same_files c c'.
Proof.
  unfold add_counter. case_match; [|done]. intros [= <-].
  destruct c; by repeat split.
Qed.

Section Run_invariant.

Variable o : options.
Variable P : Checker -> Prop.

Hypothesis P_kept :
  forall c c', same_books c c' -> same_files c c' -> P c -> P c'.
Hypothesis P_report :
  forall line_number offset text chk c c',
    P c -> report_error o line_number offset text chk c = Ok c' -> P c'.
Hypothesis P_counter :
  forall c c', P c -> add_counter (py "logical lines") 1 c = Ok c' -> P c'.
Hypothesis P_line :
  forall c, P c ->
    P (set_fixed_physical_lines
         (fixed_physical_lines c ++ [physical_line c]) c).
Hypothesis P_write :
  fix_ o = true -> forall text c, P c -> P (write text c).

Lemma P_set (c c' : Checker) :
  same_books c c' /\ same_files c c' -> P c -> P c'.
Proof. intros [Hb Hf]. by apply P_kept. Qed.

Lemma P_run_physical_checks (checks : list Check) :
  (forall chk, chk ∈ checks -> chk ∈ Registry.all_checks) ->
  forall c c', P c -> run_physical_checks o checks c = Ok c' -> P c'.
Proof.
  induction checks as [|chk rest IH]; intros Hall c c' HP; simpl.
  - by intros [= <-].
  - assert (Hrest : forall x, x ∈ rest -> x ∈ Registry.all_checks)
      by (intros; apply Hall; by right).
    unfold mbind, res_bind.
    destruct (check chk c) as [[[offset text]|]|]; [| |done].
    + destruct offset as [n|p|]; try done.
      destruct (report_error _ _ _ _ _ _) as [c1|] eqn:E1; [|done].
      apply P_report in E1; [|done].
      destruct (fix_wanted o chk text) as [f|] eqn:Ef.
      * apply fix_wanted_method in Ef.
        destruct (f o c1) as [r|] eqn:Er; [|done].
        eapply registry_fix_kept in Er; [|apply Hall; left|done].
        destruct (snd r) as [fixed|]; [|done].
        apply (IH Hrest). eapply P_set; [|eapply P_set; [exact Er|exact E1]].
        kept_done.
      * by apply (IH Hrest).
    + by apply (IH Hrest).
Qed.

Lemma P_check_physical (line : pystr) (c c' : Checker) :
  P c -> check_physical o line c = Ok c' -> P c'.
Proof.
  unfold check_physical, mbind, res_bind. intros HP.
  destruct (run_physical_checks _ _ _) as [c1|] eqn:E; [|done].
  intros [= <-]. apply P_line.
  eapply P_run_physical_checks; [apply elem_of_find_checks| |exact E].
  eapply P_set; [|exact HP]. kept_done.
Qed.

Lemma P_readline_check_physical (c : Checker) (r : Checker * pystr) :
  P c -> readline_check_physical o c = Ok r -> P (fst r).
Proof.
  unfold readline_check_physical, mbind, res_bind. intros HP.
  destruct (readline c) as [[c1 line]|] eqn:Er; [|done].
  assert (H1 : P c1).
  { assert (H0 : P (set_line_number (line_number c + 1) c))
      by (eapply P_set; [|exact HP]; kept_done).
    unfold readline, mbind, res_bind in Er.
    repeat case_match; by simplify_eq. }
  cbn [snd fst]. destruct line as [|ch line]; [by intros [= <-]|].
  destruct (check_physical _ _ _) as [c2|] eqn:E; [|done].
  intros [= <-]. by apply P_check_physical in E.
Qed.

Lemma P_run_logical_checks (checks : list Check) :
  (forall chk, chk ∈ checks -> chk ∈ Registry.all_checks) ->
  forall original c c',
    P c -> run_logical_checks o checks original c = Ok c' -> P c'.
Proof.
  induction checks as [|chk rest IH]; intros Hall original c c' HP; simpl.
  - by intros [= <-].
  - assert (Hrest : forall x, x ∈ rest -> x ∈ Registry.all_checks)
      by (intros; apply Hall; by right).
    unfold mbind, res_bind.
    destruct (check chk c) as [[[offset text]|]|]; [| |done].
    + destruct (resolve _ _ _) as [[number column]|]; [|done].
      destruct (report_error _ _ _ _ _ _) as [c1|] eqn:E1; [|done].
      apply P_report in E1; [|done].
      destruct (fix_wanted o chk text) as [f|] eqn:Ef.
      * apply fix_wanted_method in Ef.
        destruct (f o c1) as [r|] eqn:Er; [|done].
        eapply registry_fix_kept in Er; [|apply Hall; left|done].
        destruct (snd r) as [fixed|]; apply (IH Hrest).
        -- eapply P_set; [|eapply P_set; [exact Er|exact E1]]. kept_done.
        -- eapply P_set; [exact Er|exact E1].
      * by apply (IH Hrest).
    + by apply (IH Hrest).
Qed.

Lemma P_write_fixed_lines (numbers : list Z) :
  fix_ o = true ->
  forall c c', P c -> write_fixed_lines numbers c = Ok c' -> P c'.
Proof.
  intros Hfix. induction numbers as [|n rest IH]; intros c c' HP; simpl.
  - by intros [= <-].
  - unfold mbind, res_bind. destruct (Py.getitem _ _); [|done].
    apply IH. by apply P_write.
Qed.

Lemma P_write_logical (c c' : Checker) :
  fix_ o = true -> P c -> write_logical c = Ok c' -> P c'.
Proof.
  intros Hfix HP. unfold write_logical, mbind, res_bind. case_match.
  - destruct (restore_strings _ _ _ _) as [line|]; [|done].
    intros [= <-]. apply P_write; [done|].
    match goal with
    | |- P (match ?x with _ => _ end) =>
        assert (Hc : forall c0, P c0 ->
                       P (match comment c0 with
                          | Some (_ :: _) => set_comment None c0
                          | _ => c0
                          end))
    end.
    { intros c0 H0. eapply P_set; [|exact H0]. kept_done. }
    assert (Hw : forall text c0, P c0 -> P (write_unicode text c0)).
    { intros text c0 H0. unfold write_unicode. destruct text; [done|].
      eapply P_set; [|apply P_write; [done|exact H0]].
      unfold write. destruct c0; repeat split; reflexivity. }
    apply Hc.
    match goal with
    | |- P (if ?b then _ else _) => destruct b
    end; [apply Hw | apply P_write; [done|]];
      do 2 (apply P_write; [done|]);
      (eapply P_set; [|exact HP]); kept_done.
  - destruct (Py.getitem _ 0); [|done].
    destruct (Py.getitem _ (-1)); [|done].
    apply P_write_fixed_lines; [done|]. by apply P_write.
Qed.

Lemma P_check_logical (c c' : Checker) :
  P c -> check_logical o c = Ok c' -> P c'.
Proof.
  unfold check_logical, mbind, res_bind. intros HP.
  destruct (add_counter _ _ _) as [c1|] eqn:E1; [|done].
  apply P_counter in E1; [|done].
  destruct (build_tokens_line _) as [c2|] eqn:E2; [|done].
  apply kept_build_tokens_line in E2.
  destruct (Py.getitem (mapping c2) 0) as [first|]; [|done].
  destruct (Py.getitem (lines c2) _) as [first_line|]; [|done].
  destruct (run_logical_checks _ _ _ _) as [c3|] eqn:E3; [|done].
  apply P_run_logical_checks in E3; [|apply elem_of_find_checks|].
  - assert (Hcase : fix_ o = true \/ fix_ o = false)
      by (destruct (fix_ o); auto).
    destruct Hcase as [Hfix|Hfix]; rewrite Hfix.
    + destruct (write_logical c3) as [c4|] eqn:E4; [|done].
      apply P_write_logical in E4; [|done..].
      intros [= <-]. eapply P_set; [|exact E4]. kept_done.
    + intros [= <-]. eapply P_set; [|exact E3]. kept_done.
  - eapply P_set; [|eapply P_set; [exact E2|]].
    + kept_done.
    + eapply P_set; [|exact E1]. kept_done.
Qed.

Lemma P_check_token (tok : token) (parens : Z) (c : Checker)
    (r : Z * Checker) :
  P c -> check_token o tok parens c = Ok r -> P (snd r).
Proof.
  unfold check_token, mbind, res_bind. intros HP.
  set (c0 := set_tokens (tokens c ++ [tok]) c).
  assert (H0 : P c0) by (eapply P_set; [|exact HP]; kept_done).
  clearbody c0. cbv zeta.
  match goal with
  | |- match ?m with _ => _ end = _ -> _ =>
      destruct m as [c1|] eqn:E1; [|done]
  end.
  assert (H1 : P c1).
  { revert E1. case_match.
    - destruct (check_logical o c0) as [c2|] eqn:E2; [|done].
      intros [= <-]. apply P_check_logical in E2; [|done].
      eapply P_set; [|exact E2]. kept_done.
    - by intros [= <-]. }
  clear E1 H0 HP. intros [= <-]. cbn [snd].
  match goal with
  | |- P (if _ then ?a else ?b) =>
      assert (Hb : P b); [|destruct (bool_decide (t_type tok = COMMENT));
                           [eapply P_set; [|exact Hb]; kept_done | exact Hb]]
  end.
  case_match; [|exact H1].
  match goal with
  | |- P (set_tokens [] (if _ then _ else ?a)) =>
      assert (Ha : P a); [|eapply P_set; [|exact Ha]; kept_done]
  end.
  destruct (comment c1) as [[|ch text]|]; try exact H1.
  assert (Hcase : fix_ o = true \/ fix_ o = false)
    by (destruct (fix_ o); auto).
  destruct Hcase as [Hfix|Hfix]; rewrite Hfix; [|exact H1].
  match goal with
  | |- P (set_blank_lines_before_comment 0 (set_comment None ?w)) =>
      assert (Hw : P w); [|eapply P_set; [|exact Hw]; kept_done]
  end.
  apply P_write; [done|]. apply P_write; [done | exact H1].
Qed.

Lemma P_run_events (events : list event) :
  forall parens c c', P c -> run_events o events parens c = Ok c' -> P c'.
Proof.
  induction events as [|[|tok] rest IH]; intros parens c c' HP; simpl.
  - by intros [= <-].
  - unfold mbind, res_bind.
    destruct (readline_check_physical o c) as [r|] eqn:E; [|done].
    apply IH. by apply P_readline_check_physical in E.
  - unfold mbind, res_bind.
    destruct (check_token o tok parens c) as [r|] eqn:E; [|done].
    apply IH. by apply P_check_token in E.
Qed.

End Run_invariant.

(** *** The error count of a file and the total count *)

Lemma balanced_kept (c c' : Checker) :
  same_books c c' -> balanced c -> balanced c'.
Proof.
  intros (Hc & Hm & Hf & He) (H1 & H2 & H3). unfold balanced, counted.
  rewrite Hc, Hm, Hf, He. done.
Qed.

Lemma balanced_report_error (o : options) (line_number offset : Z)
    (text : pystr) (chk : Check) (c c' : Checker) :
  quiet o = 0 -> balanced c ->
  report_error o line_number offset text chk c = Ok c' -> balanced c'.
Proof.
  intros Hq (Hc & He & Hf) H.
  destruct (truthy (ignore_code o (Py.slice text None (Some 4)))) eqn:Hcode.
  - unfold report_error in H. rewrite Hcode in H. by injection H as <-.
  - destruct (report_error_books _ _ _ _ _ _ _ Hcode H) as (Ec & Em & Ef & Ee).
    destruct (counted_sum_step [] _ (Py.slice text (Some 5) None) _ _ Hc
                (code_not_benchmark text)) as [Hc' Hsum].
    cbv zeta in Hc', Hsum. rewrite <- Ec, <- Em in Hc', Hsum.
    split; [exact Hc'|]. split; [congruence|].
    rewrite Hsum, Ef, Hq, He, <- Hf. simpl. by destruct (Py.slice _ _ _).
Qed.

Lemma balanced_add_counter (key : pystr) (n : Z) (c c' : Checker) :
  key ∈ BENCHMARK_KEYS -> balanced c ->
  add_counter key n c = Ok c' -> balanced c' /\ messages c' = messages c.
Proof.
  intros Hkey (Hc & He & Hf). unfold add_counter.
  destruct (counters c !! key) as [v|] eqn:E; [|done]. intros [= <-].
  assert (Hnotin : key ∉ map fst (map_to_list (messages c))).
  { intros Hin. apply elem_of_keys, Hc in Hin as [_ Hin]. done. }
  assert (Ec : counters (set_counters (<[key:=v + n]> (counters c)) c) =
               <[key:=v + n]> (counters c)) by (by destruct c).
  assert (Em : messages (set_counters (<[key:=v + n]> (counters c)) c) =
               messages c) by (by destruct c).
  split; [|done].
  unfold balanced, counted. rewrite Ec, Em. split; [|split].
  - intros k. rewrite (Hc k). destruct (decide (k = key)) as [->|Hne].
    + rewrite lookup_insert_eq, E.
      split; intros [_ H]; (split; [|done]); eauto.
    + by rewrite lookup_insert_ne.
  - by destruct c.
  - rewrite sum_keys_insert_ne by done. by destruct c.
Qed.

Lemma benchmark_key_physical : py "physical lines" ∈ BENCHMARK_KEYS.
Proof. unfold BENCHMARK_KEYS. simpl. set_solver. Qed.

Lemma benchmark_key_logical : py "logical lines" ∈ BENCHMARK_KEYS.
Proof. unfold BENCHMARK_KEYS. simpl. set_solver. Qed.

(** X7: for a file checked in a fresh process without [-q], the count
    [check_all] returns is the total [get_count()] gives afterwards, and
    [get_count] raises no [KeyError] for any prefix. *)
Theorem input_file_count (o : options) (filename : pystr)
    (lines : list pystr) (events : list event) (c : Checker) :
  quiet o = 0 ->
  input_file o filename lines events = Ok c ->
  get_count [] c = Ok (file_errors c) /\
  (forall prefix, exists n, get_count prefix c = Ok n).
Proof.
  intros Hq. unfold input_file, new_checker, check_all, mbind, res_bind.
  destruct (add_counter _ _ _) as [c1|] eqn:E1; [|done].
  apply balanced_add_counter in E1 as [H1 Hm];
    [|apply benchmark_key_physical|].
  - destruct (run_events _ _ _ _) as [c2|] eqn:E2; [|done].
    intros Hres.
    assert (H2 : balanced c2).
    { eapply (P_run_events o balanced) in E2; [exact E2|..].
      - intros c0 c0' Hb _. by apply balanced_kept.
      - intros. eapply balanced_report_error; eauto.
      - intros c0 c0' H0 E0.
        by apply (balanced_add_counter _ _ _ _ benchmark_key_logical H0) in E0
          as [E0 _].
      - intros c0 H0. eapply balanced_kept; [|exact H0]. kept_done.
      - intros _ text c0 H0. eapply balanced_kept; [|exact H0].
        unfold write. kept_done.
      - destruct H1 as (Hc & He & Hf). cbn in Hm.
        split; [|split].
        + unfold counted. cbn. exact Hc.
        + done.
        + cbn. rewrite Hm. by rewrite map_to_list_empty. }
    assert (H' : same_books c2 c)
      by (repeat case_match; simplify_eq; kept_done).
    apply (balanced_kept _ _ H') in H2 as (Hc & _ & Hf).
    split; [rewrite (get_count_sum _ _ Hc); by rewrite Hf|].
    intros prefix. eexists. by apply get_count_sum.
  - split; [by apply counted_initial|]. split; [done|].
    cbn. by rewrite map_to_list_empty.
Qed.

Lemma input_file_count_witness :
  exists c,
    input_file default_options (py "t.py") Runs.two_defs
      Runs.two_defs_events = Ok c /\
    get_count [] c = Ok (file_errors c).
Proof.
  assert (H : exists c, input_file default_options (py "t.py") Runs.two_defs
                          Runs.two_defs_events = Ok c)
    by (eexists; vm_compute; reflexivity).
  destruct H as [c H]. exists c. split; [exact H|].
  apply (proj1 (input_file_count default_options (py "t.py") Runs.two_defs
                  Runs.two_defs_events c eq_refl H)).
Defined.

(** *** The file written *)

Lemma same_files_trans (c1 c2 c3 : Checker) :
  same_files c1 c2 -> same_files c2 c3 -> same_files c1 c3.
Proof.
  intros (H1 & H2 & H3 & H4) (H5 & H6 & H7 & H8).
  repeat split; congruence.
Qed.

(** X8: what a run writes.  Without [--fix] nothing is put in the write
    buffer and no file is written.  With [--fix] the buffer is written
    once, at the end of the run, to [fixed_<filename>], or to the file
    itself with [--inplace]; an empty file name writes nothing. *)
Theorem input_file_written (o : options) (filename : pystr)
    (lines : list pystr) (events : list event) (c : Checker) :
  input_file o filename lines events = Ok c ->
  (fix_ o = false -> written c = None /\ writer c = []) /\
  (fix_ o = true ->
   written c =
     match (if inplace o then filename else py "fixed_" ++ filename) with
     | [] => None
     | path => Some (path, writer c)
     end).
Proof.
  unfold input_file, new_checker, check_all, mbind, res_bind.
  destruct (add_counter _ _ _) as [c1|] eqn:E1; [|done].
  apply same_files_add_counter in E1 as (_ & _ & Hwf & Hwr).
  cbn in Hwf, Hwr.
  destruct (run_events _ _ _ _) as [c2|] eqn:E2; [|done].
  intros Hres. split; intros Hfix; rewrite Hfix in Hwf.
  - assert (H2 : writer c2 = [] /\ write_filename c2 = None /\
                 written c2 = None).
    { eapply (P_run_events o (fun c => writer c = [] /\
                                write_filename c = None /\
                                written c = None)) in E2; [exact E2|..].
      - intros c0 c0' _ (_ & Hw & Hf & Hn) (H1 & H2 & H3).
        repeat split; congruence.
      - intros ln off text chk c0 c0' (H1 & H2 & H3) E.
        apply same_files_report_error in E as (_ & Hw & Hf & Hn).
        repeat split; congruence.
      - intros c0 c0' (H1 & H2 & H3) E.
        apply same_files_add_counter in E as (_ & Hw & Hf & Hn).
        repeat split; congruence.
      - intros c0 (H1 & H2 & H3). by destruct c0.
      - rewrite Hfix. done.
      - cbn. by rewrite Hwf, Hwr. }
    destruct H2 as (H1 & H2 & H3). rewrite H2 in Hres.
    by injection Hres as <-.
  - set (path := if inplace o then filename else py "fixed_" ++ filename)
      in *.
    assert (H2 : write_filename c2 = Some path /\ written c2 = None).
    { eapply (P_run_events o (fun c => write_filename c = Some path /\
                                written c = None)) in E2; [exact E2|..].
      - intros c0 c0' _ (_ & Hw & Hf & Hn) (H1 & H2).
        split; congruence.
      - intros ln off text chk c0 c0' (H1 & H2) E.
        apply same_files_report_error in E as (_ & Hw & Hf & Hn).
        split; congruence.
      - intros c0 c0' (H1 & H2) E.
        apply same_files_add_counter in E as (_ & Hw & Hf & Hn).
        split; congruence.
      - intros c0 (H1 & H2). by destruct c0.
      - intros _ text c0 (H1 & H2). by destruct c0.
      - cbn. by rewrite Hwf, Hwr. }
    destruct H2 as (H1 & H2). rewrite H1 in Hres.
    destruct path as [|ch path]; [by injection Hres as <-|].
    destruct (writer_unicode c2 && _); [done|].
    injection Hres as <-. by destruct c2.
Qed.

Lemma input_file_written_witness :
  exists c,
    input_file default_options (py "t.py") Runs.two_defs
      Runs.two_defs_events = Ok c /\
    written c = None /\ writer c = [].
Proof.
  assert (H : exists c, input_file default_options (py "t.py") Runs.two_defs
                          Runs.two_defs_events = Ok c)
    by (eexists; vm_compute; reflexivity).
  destruct H as [c H]. exists c. split; [exact H|].
  apply (proj1 (input_file_written default_options (py "t.py") Runs.two_defs
                  Runs.two_defs_events c H) eq_refl).
Defined.

(** ** The logical line and its mapping *)

Lemma rstrip_split (l : pystr) :
  exists ws, l = Py.rstrip l ++ ws /\ all_of Py.is_space ws.
Proof.
  unfold Py.rstrip. induction l as [|ch l (ws & IH & Hws)] using rev_ind.
  - exists []. split; [done | constructor].
  - rewrite rstrip_by_snoc. destruct (Py.is_space ch) eqn:E.
    + exists (ws ++ [ch]). split.
      * rewrite app_assoc. by rewrite <- IH.
      * apply Forall_app. split; [done|]. by constructor.
    + exists []. split; [by rewrite app_nil_r | constructor].
Qed.

Lemma occurs_at_app (sub s t : pystr) (n : nat) :
  occurs_at sub s n -> occurs_at sub (s ++ t) n.
Proof.
  unfold occurs_at. intros H. rewrite drop_app. by apply prefix_app_r.
Qed.

Lemma occurs_at_end (s text : pystr) :
  occurs_at text (s ++ text) (length s).
Proof.
  unfold occurs_at. by rewrite drop_app_length.
Qed.

Lemma build_loop_offsets (lines : list pystr) (toks : list token)
    (st st' : build_state) :
  build_loop lines toks st = Ok st' ->
  b_length st = Py.len (Py.join (b_logical st)) ->
  Forall (fun e => 0 <= e.1 /\
                   occurs_at (shown_text e.2) (Py.join (b_logical st))
                     (Z.to_nat e.1)) (b_mapping st) ->
  b_length st' = Py.len (Py.join (b_logical st')) /\
  Forall (fun e => 0 <= e.1 /\
                   occurs_at (shown_text e.2) (Py.join (b_logical st'))
                     (Z.to_nat e.1)) (b_mapping st').
Proof.
  revert st. induction toks as [|tok rest IH]; intros st; simpl.
  - by intros [= <-].
  - case_match; [apply IH|].
    unfold mbind, res_bind.
    destruct (match b_previous st with
              | Some previous => _
              | None => _
              end) as [fill|]; [|done].
    intros Hb Hlen Hmap. apply IH in Hb; [done|..]; cbn [b_length b_logical
      b_mapping]; unfold Py.join in *; rewrite !concat_app; simpl concat;
      rewrite app_nil_r.
    + rewrite Hlen. unfold Py.len. rewrite !length_app. lia.
    + apply Forall_app. split.
      * eapply Forall_impl; [exact Hmap|]. intros e [H0 He].
        split; [done|]. by apply occurs_at_app.
      * constructor; [|constructor]. cbn [fst snd]. rewrite Hlen.
        unfold Py.len. split; [lia|].
        rewrite <- Nat2Z.inj_add, Nat2Z.id, <- length_app, app_assoc.
        apply occurs_at_end.
Qed.

Lemma build_loop_muted (lines : list pystr) (toks : list token)
    (st st' : build_state) :
  build_loop lines toks st = Ok st' ->
  b_muted_strings st' =
    b_muted_strings st ++
    (t_text <$> filter (fun t => t_type t = STRING) (kept toks)).
Proof.
  revert st. induction toks as [|tok rest IH]; intros st; simpl.
  - intros [= <-]. by rewrite app_nil_r.
  - unfold kept. rewrite filter_cons.
    destruct (decide (t_type tok ∉ SKIP_TOKENS)) as [Hk|Hk].
    + rewrite bool_decide_eq_false_2 by done.
      unfold mbind, res_bind. case_match; [|done].
      intros Hb. apply IH in Hb. rewrite Hb. cbn [b_muted_strings].
      rewrite filter_cons.
      destruct (decide (t_type tok = STRING)) as [Hs|Hs].
      * rewrite bool_decide_eq_true_2 by done.
        rewrite fmap_cons, <- app_assoc. done.
      * by rewrite bool_decide_eq_false_2 by done.
    + rewrite bool_decide_eq_true_2 by (by apply dec_stable).
      apply IH.
Qed.

(** X9: the bookkeeping of [build_tokens_line].  The mapping lists the
    tokens that are not skipped, in order; [muted_strings] gets the
    original text of every string token among them, in order; and every
    offset of the mapping is the index in the logical line (taken with
    the whitespace stripped from its end) at which the text of its token
    stands, a string token with its body masked. *)
Theorem build_tokens_line_mapping (c c' : Checker) :
  build_tokens_line c = Ok c' ->
  (mapping c').*2 = kept (tokens c) /\
  muted_strings c' =
    muted_strings c ++
    (t_text <$> filter (fun t => t_type t = STRING) (kept (tokens c))) /\
  exists ws,
    all_of Py.is_space ws /\
    Forall (fun e => 0 <= e.1 /\
                     occurs_at (shown_text e.2) (logical_line c' ++ ws)
                       (Z.to_nat e.1)) (mapping c').
Proof.
  unfold build_tokens_line, build_tokens_line_body, mbind, res_bind.
  destruct (build_loop _ _ _) as [st|] eqn:E; [|done].
  case_match; [|done]. intros [= <-].
  pose proof (build_loop_mapping _ _ _ _ E) as Hm.
  pose proof (build_loop_muted _ _ _ _ E) as Hs.
  apply build_loop_offsets in E as [_ Ho]; [|done|constructor].
  cbn [b_mapping b_muted_strings] in Hm, Hs.
  destruct (rstrip_split (Py.join (b_logical st))) as (ws & Hj & Hws).
  split; [by destruct c|]. split; [by destruct c|].
  exists ws. split; [done|].
  replace (logical_line _) with (Py.rstrip (Py.join (b_logical st)))
    by (by destruct c).
  rewrite <- Hj.
  replace (mapping _) with (b_mapping st) by (by destruct c). done.
Qed.

Lemma build_tokens_line_mapping_witness :
  exists c',
    build_tokens_line Runs.before_pass = Ok c' /\
    (mapping c').*2 = kept (tokens Runs.before_pass).
Proof.
  assert (H : exists c', build_tokens_line Runs.before_pass = Ok c')
    by (eexists; vm_compute; reflexivity).
  destruct H as [c' H]. exists c'. split; [exact H|].
  apply (proj1 (build_tokens_line_mapping Runs.before_pass c' H)).
Defined.

(** *** From an offset to a position *)

Lemma resolve_loop_snoc (mapping : list (Z * token)) (e : Z * token)
    (offset : Z) (original : option (Z * Z)) :
  resolve_loop (mapping ++ [e]) offset original =
    if offset >=? e.1
    then Some (fst (t_start e.2), snd (t_start e.2) + offset - e.1)
    else resolve_loop mapping offset original.
Proof.
  revert original. induction mapping as [|[o t] m IH]; intros original.
  - by destruct e.
  - simpl. by rewrite IH.
Qed.

Lemma resolve_loop_last (mapping : list (Z * token)) (offset : Z)
    (original : option (Z * Z)) :
  Exists (fun e => e.1 <= offset) mapping ->
  exists before token_offset tok after,
    mapping = before ++ (token_offset, tok) :: after /\
    token_offset <= offset /\
    Forall (fun e => offset < e.1) after /\
    resolve_loop mapping offset original =
      Some (fst (t_start tok), snd (t_start tok) + offset - token_offset).
Proof.
  induction mapping as [|[o t] m IH] using rev_ind; intros Hex.
  - by apply Exists_nil in Hex.
  - rewrite resolve_loop_snoc. cbn [fst snd].
    destruct (offset >=? o) eqn:E.
    + exists m, o, t, []. split; [done|]. split; [lia|].
      split; [constructor | done].
    + apply Exists_app in Hex as [Hex|Hex].
      * destruct (IH Hex) as (before & o' & t' & after & -> & Hle & Hall & Hr).
        exists before, o', t', (after ++ [(o, t)]).
        split; [by rewrite <- app_assoc|]. split; [done|].
        split; [|done]. apply Forall_app. split; [done|].
        constructor; [cbn; lia | constructor].
      * apply Exists_cons in Hex as [Hex|Hex];
          [cbn in Hex; lia | by apply Exists_nil in Hex].
Qed.

Lemma build_loop_mapping_app (lines : list pystr) (toks : list token)
    (st st' : build_state) :
  build_loop lines toks st = Ok st' ->
  exists more, b_mapping st' = b_mapping st ++ more.
Proof.
  revert st. induction toks as [|tok rest IH]; intros st; simpl.
  - intros [= <-]. exists []. by rewrite app_nil_r.
  - case_match; [apply IH|].
    unfold mbind, res_bind. case_match; [|done].
    intros Hb. apply IH in Hb as [more ->]. cbn [b_mapping].
    eexists. by rewrite <- !app_assoc.
Qed.

Lemma build_loop_mapping_first (lines : list pystr) (toks : list token)
    (st st' : build_state) :
  b_mapping st = [] -> b_length st = 0 -> b_previous st = None ->
  build_loop lines toks st = Ok st' ->
  kept toks <> [] ->
  exists tok rest, b_mapping st' = (0, tok) :: rest.
Proof.
  intros Hm Hl Hp. induction toks as [|tok rest IH]; simpl; [done|].
  unfold kept. rewrite filter_cons.
  destruct (decide (t_type tok ∉ SKIP_TOKENS)) as [Hk|Hk].
  - rewrite bool_decide_eq_false_2 by done. rewrite Hp, Hl, Hm.
    unfold mbind, res_bind. intros Hb _.
    apply build_loop_mapping_app in Hb as [more ->]. cbn [b_mapping].
    by exists tok, more.
  - rewrite bool_decide_eq_true_2 by (by apply dec_stable). apply IH.
Qed.

(** X10: on a logical line with at least one token that is not skipped,
    every offset from 0 on that a check returns is translated to a
    position, whatever an earlier check left behind: the row of the last
    token of the mapping that starts at or before the offset, and the
    column of that token plus the distance of the offset from it.  No
    [NameError] is raised for such an offset. *)
Theorem resolve_offset (c c' : Checker) (n : Z) (original : option (Z * Z)) :
  build_tokens_line c = Ok c' ->
  kept (tokens c) <> [] ->
  0 <= n ->
  exists before token_offset tok after,
    mapping c' = before ++ (token_offset, tok) :: after /\
    token_offset <= n /\
    Forall (fun e => n < e.1) after /\
    resolve (mapping c') (OffInt n) original =
      Some (fst (t_start tok), snd (t_start tok) + n - token_offset).
Proof.
  unfold build_tokens_line, build_tokens_line_body, mbind, res_bind.
  destruct (build_loop _ _ _) as [st|] eqn:E; [|done].
  case_match; [|done]. intros [= <-] Hk Hn.
  apply build_loop_mapping_first in E as (tok & rest & Em); [|done..].
  replace (mapping _) with (b_mapping st) by (by destruct c).
  cbn [resolve]. apply resolve_loop_last. rewrite Em.
  apply Exists_cons. by left.
Qed.

Lemma resolve_offset_witness :
  exists c',
    build_tokens_line Runs.before_pass = Ok c' /\
    exists before token_offset tok after,
      mapping c' = before ++ (token_offset, tok) :: after /\
      token_offset <= 2 /\
      Forall (fun e => 2 < e.1) after /\
      resolve (mapping c') (OffInt 2) None =
        Some (fst (t_start tok), snd (t_start tok) + 2 - token_offset).
Proof.
  assert (H : exists c', build_tokens_line Runs.before_pass = Ok c')
    by (eexists; vm_compute; reflexivity).
  destruct H as [c' H]. exists c'. split; [exact H|].
  apply (resolve_offset Runs.before_pass c' 2 None H).
  - vm_compute. discriminate.
  - lia.
Defined.

(** ** The checks that run *)

Lemma insert_check_perm (c : Check) (l : list Check) :
  Registry.insert_check c l ≡ₚ c :: l.
Proof.
  induction l as [|d l IH]; simpl; [done|].
  destruct (Registry.str_le _ _); [done|].
  rewrite IH. apply Permutation_swap.
Qed.

Lemma sort_checks_perm (l : list Check) : Registry.sort_checks l ≡ₚ l.
Proof.
  induction l as [|d l IH]; simpl; [done|].
  by rewrite insert_check_perm, IH.
Qed.

Lemma str_le_total (a b : pystr) :
  Registry.str_le a b = false -> Registry.str_le b a = true.
Proof.
  revert b. induction a as [|x a IH]; intros [|y b]; simpl; try done.
  intros H. apply orb_false_iff in H as [H1 H2].
  apply Nat.ltb_ge in H1.
  destruct (nat_of_ascii x =? nat_of_ascii y)%nat eqn:E.
  - apply Nat.eqb_eq in E. simpl in H2. rewrite (IH _ H2).
    rewrite E, Nat.eqb_refl. apply orb_true_r.
  - apply Nat.eqb_neq in E.
    replace (nat_of_ascii y <? nat_of_ascii x)%nat with true; [done|].
    symmetry. apply Nat.ltb_lt. lia.
Qed.

Lemma insert_check_sorted (c : Check) (l : list Check) :
  Sorted (fun x y => Registry.str_le (name x) (name y) = true) l ->
  Sorted (fun x y => Registry.str_le (name x) (name y) = true)
    (Registry.insert_check c l).
Proof.
  induction l as [|d l IH]; intros Hs; simpl.
  - by repeat constructor.
  - destruct (Registry.str_le (name c) (name d)) eqn:E.
    + constructor; [done|]. by constructor.
    + apply Sorted_inv in Hs as [Hs Hd]. constructor; [by apply IH|].
      destruct l as [|e l]; simpl.
      * constructor. by apply str_le_total.
      * destruct (Registry.str_le (name c) (name e)).
        -- constructor. by apply str_le_total.
        -- constructor. by apply HdRel_inv in Hd.
Qed.

(** X11: [find_checks(argument_name)] returns exactly the registered
    checks whose first argument starts with [argument_name] and that
    have no code at all or at least one code that is not suppressed,
    each once, ordered by class name.  The check
    [whitespace_before_inline_comment], which declares its codes under
    another name, is run on every logical line whatever the options
    select or ignore. *)
Theorem find_checks_selected (o : options) (argument_name : pystr) :
  (forall chk,
     chk ∈ Registry.find_checks o argument_name <->
     chk ∈ Registry.all_checks /\
     argument_name `prefix_of` first_argument chk /\
     (codes chk = [] \/
      exists code, code ∈ codes chk /\
                   (code = [] \/ truthy (ignore_code o code) = false))) /\
  Registry.find_checks o argument_name ≡ₚ
    filter (fun chk => Py.startswith (first_argument chk) argument_name &&
                       Registry.some_code_wanted o chk)
      Registry.all_checks /\
  Sorted (fun x y => Registry.str_le (name x) (name y) = true)
    (Registry.find_checks o argument_name) /\
  Registry.whitespace_before_inline_comment ∈ Registry.logical_checks o.
Proof.
  assert (Hspec : forall a chk,
    chk ∈ Registry.find_checks o a <->
    chk ∈ Registry.all_checks /\
    a `prefix_of` first_argument chk /\
    (codes chk = [] \/
     exists code, code ∈ codes chk /\
                  (code = [] \/ truthy (ignore_code o code) = false))).
  { intros a chk. unfold Registry.find_checks.
    rewrite sort_checks_perm, list_elem_of_filter.
    rewrite andb_True, Is_true_true, Is_true_true, startswith_prefix.
    unfold Registry.some_code_wanted.
    assert (Hcodes :
      existsb (fun code => bool_decide (code = []) ||
                           negb (truthy (ignore_code o code)))
        match codes chk with [] => [[]] | cs => cs end = true <->
      codes chk = [] \/
      exists code, code ∈ codes chk /\
                   (code = [] \/ truthy (ignore_code o code) = false)).
    { destruct (codes chk) as [|c0 cs] eqn:Ec.
      - simpl. split; [by left | done].
      - rewrite existsb_exists. split.
        + intros (code & Hin & H). right. exists code.
          split; [by apply list_elem_of_In|].
          apply orb_true_iff in H as [H|H].
          * left. by apply bool_decide_eq_true in H.
          * right. by apply negb_true_iff in H.
        + intros [H|(code & Hin & H)]; [done|]. exists code.
          split; [by apply list_elem_of_In|].
          apply orb_true_iff. destruct H as [H|H].
          * left. by apply bool_decide_eq_true.
          * right. by apply negb_true_iff. }
    rewrite Hcodes. tauto. }
  split; [apply Hspec|]. split; [apply sort_checks_perm|]. split.
  - unfold Registry.find_checks, Registry.sort_checks.
    induction (filter _ _) as [|d l IH]; simpl; [constructor|].
    by apply insert_check_sorted.
  - apply Hspec. split; [|split].
    + unfold Registry.all_checks. set_solver.
    + done.
    + by left.
Qed.

(** ** The filters of the command line *)

Lemma split_loop_cons (s : pystr) (sep : ascii) (piece : pystr) :
  exists first rest, split_loop s sep piece = first :: rest.
Proof.
  revert piece. induction s as [|ch s IH]; intros piece; simpl.
  - by eexists _, _.
  - destruct (Ascii.eqb ch sep); [by eexists _, _ | apply IH].
Qed.

Lemma split_loop_pieces (s : pystr) (sep : ascii) (piece : pystr) :
  sep ∉ piece ->
  Forall (fun p => sep ∉ p) (split_loop s sep piece).
Proof.
  revert piece. induction s as [|ch s IH]; intros piece Hp; simpl.
  - by repeat constructor.
  - destruct (Ascii.eqb ch sep) eqn:E.
    + constructor; [done|]. apply IH. apply not_elem_of_nil.
    + apply IH. intros H. apply elem_of_app in H as [H|H]; [done|].
      apply list_elem_of_singleton in H. subst.
      by rewrite Ascii.eqb_refl in E.
Qed.

(** X12: the filters [process_options] builds.  With [--select] and
    without [--ignore], exactly the codes that start with one of the
    comma-separated values of [--select] are reported.  With neither
    option the codes that start with [DEFAULT_IGNORE] are suppressed,
    and no code at all when the test suite or the doctests run.  With
    [--ignore] alone, exactly the codes that start with one of its
    values are suppressed.  No piece of a value contains a comma. *)
Theorem process_options_filters (select_value ignore_value : pystr)
    (testsuite doctest : bool) (o : options) (code : pystr) :
  (select_value <> [] -> ignore_value = [] ->
   (truthy (ignore_code
              (process_options select_value ignore_value testsuite doctest o)
              code) = false <->
    exists s, s ∈ split select_value chr_comma /\ s `prefix_of` code)) /\
  (select_value = [] -> ignore_value = [] ->
   truthy (ignore_code
             (process_options select_value ignore_value testsuite doctest o)
             code) =
     negb (testsuite || doctest) && Py.startswith code DEFAULT_IGNORE) /\
  (select_value = [] -> ignore_value <> [] ->
   (truthy (ignore_code
              (process_options select_value ignore_value testsuite doctest o)
              code) = true <->
    exists i, i ∈ split ignore_value chr_comma /\ i `prefix_of` code)) /\
  Forall (fun p => chr_comma ∉ p) (split select_value chr_comma) /\
  Forall (fun p => chr_comma ∉ p) (split ignore_value chr_comma).
Proof.
  unfold ignore_code, process_options. cbn [select ignore].
  split; [|split; [|split; [|split]]].
  - intros Hs ->. destruct select_value as [|ch sel]; [done|].
    destruct (split_loop_cons (ch :: sel) chr_comma []) as (s0 & ss & E).
    unfold split. rewrite E.
    destruct (truthy (select_loop (s0 :: ss) [[]] code)) eqn:Et.
    + apply select_loop_true in Et as [Hno _]. split; [done|].
      intros (s & Hin & Hp). by apply Hno in Hin.
    + split; [|done]. intros _.
      destruct (decide (Exists (fun s => s `prefix_of` code) (s0 :: ss)))
        as [Hex|Hex].
      * apply Exists_exists in Hex as (s & Hin & Hp). by exists s.
      * assert (truthy (select_loop (s0 :: ss) [[]] code) = true)
          as Ht; [|congruence].
        apply select_loop_true. split.
        -- intros s Hin Hp. apply Hex, Exists_exists. by exists s.
        -- exists []. split; [left | apply prefix_nil].
  - intros -> ->. destruct (testsuite || doctest); [done|].
    change (split DEFAULT_IGNORE chr_comma) with [DEFAULT_IGNORE].
    cbn [select_loop ignore_loop negb andb].
    by destruct (Py.startswith code DEFAULT_IGNORE).
  - intros -> Hi. destruct ignore_value as [|ch ign]; [done|].
    cbn [select_loop]. apply ignore_loop_true.
  - apply split_loop_pieces, not_elem_of_nil.
  - apply split_loop_pieces, not_elem_of_nil.
Qed.

Lemma process_options_filters_witness :
  truthy (ignore_code
            (process_options (py "E5,W6") [] false false default_options)
            (py "E501")) = false <->
  exists s, s ∈ split (py "E5,W6") chr_comma /\ s `prefix_of` py "E501".
Proof.
  apply (proj1 (process_options_filters (py "E5,W6") [] false false
                  default_options (py "E501"))).
  - discriminate.
  - reflexivity.
Defined.

(** ** Fixes that remove their violation *)




(** ** Indentation *)

Lemma one_of_blank (c : ascii) :
  Re.one_of [chr_sp; chr_tab] c = true <-> is_blank c.
Proof.
  unfold Re.one_of, is_blank. cbn [existsb].
  rewrite orb_false_r, orb_true_iff, !Ascii.eqb_eq. done.
Qed.

Lemma indent_of_match (run post : pystr) :
  all_of (Re.one_of [chr_sp; chr_tab]) run ->
  stops (Re.one_of [chr_sp; chr_tab]) post ->
  Re.re_match INDENT_REGEX (run ++ post) =
    Some {| Re.m_start := 0; Re.m_end := length run;
            Re.m_groups := [(1%nat, (0%nat, length run))] |}.
Proof.
  intros Hrun Hpost.
  unfold Re.re_match, Re.match_at, INDENT_REGEX, Re.set.
  cbn [Re.seq fold_right Re.rx Nat.eqb].
  eapply star_at_rx; [reflexivity | done | done |]. reflexivity.
Qed.

Lemma indent_of_run (run post : pystr) :
  Forall is_blank run ->
  match post with [] => True | ch :: _ => ~ is_blank ch end ->
  Checks.indent_of (run ++ post) = Ok run.
Proof.
  intros Hrun Hpost. unfold Checks.indent_of.
  rewrite indent_of_match.
  - unfold Re.group, Re.group_span. cbn [Re.m_groups Re.span_in Nat.eqb].
    rewrite Nat.sub_0_r, drop_0. by rewrite take_app_length.
  - eapply Forall_impl; [exact Hrun|]. intros c Hc. by apply one_of_blank.
  - destruct post as [|ch post]; [done|]. unfold stops.
    destruct (Re.one_of [chr_sp; chr_tab] ch) eqn:E; [|done].
    by apply one_of_blank in E.
Qed.

Lemma blank_run (line : pystr) :
  exists run post,
    line = run ++ post /\ Forall is_blank run /\
    match post with [] => True | ch :: _ => ~ is_blank ch end.
Proof.
  destruct (span (Re.one_of [chr_sp; chr_tab]) line)
    as (run & post & -> & Hrun & Hpost).
  exists run, post. split; [done|]. split.
  - eapply Forall_impl; [exact Hrun|]. intros c Hc. by apply one_of_blank.
  - destruct post as [|ch post]; [done|]. unfold stops in Hpost.
    intros Hb. apply one_of_blank in Hb. congruence.
Qed.

Lemma count_zero (s : pystr) (c : ascii) :
  Py.count s c = 0 <-> c ∉ s.
Proof.
  unfold Py.count, Py.len. induction s as [|x s IH].
  - split; [intros _; apply not_elem_of_nil | done].
  - rewrite filter_cons. destruct (decide (x = c)) as [->|Hne].
    + simpl. split; [lia|]. intros H. exfalso. apply H. left.
    + rewrite IH. rewrite not_elem_of_cons. naive_solver.
Qed.

(** X14: the indentation the physical-line checks look at is the longest
    run of spaces and tabs at the start of the line, and taking it never
    fails.  [tabs_obsolete.check] reports W191 exactly when that run
    contains a tab, at the index of its first tab, so a tab behind the
    first other character is not reported. *)
Theorem tabs_obsolete_indentation (run post : pystr) :
  Forall is_blank run ->
  match post with [] => True | ch :: _ => ~ is_blank ch end ->
  Checks.indent_of (run ++ post) = Ok run /\
  (chr_tab ∉ run -> Checks.tabs_obsolete_check (run ++ post) = Ok None) /\
  (forall spaces rest,
     run = spaces ++ chr_tab :: rest -> chr_tab ∉ spaces ->
     Checks.tabs_obsolete_check (run ++ post) =
       Ok (Some (OffInt (Py.len spaces),
                 py "W191 indentation contains tabs"))).
Proof.
  intros Hrun Hpost.
  pose proof (indent_of_run run post Hrun Hpost) as Hi.
  split; [exact Hi|]. unfold Checks.tabs_obsolete_check, mbind, res_bind.
  rewrite Hi. split.
  - intros Hno. apply count_zero in Hno. by rewrite Hno.
  - intros spaces rest -> Hno.
    rewrite find_after_prefix by done.
    destruct (Py.count _ _ =? 0) eqn:E; [|done].
    apply Z.eqb_eq, count_zero in E. exfalso. apply E.
    apply elem_of_app. right. left.
Qed.

Lemma tabs_obsolete_indentation_witness :
  Checks.indent_of (py "  " ++ py "x	= 1") = Ok (py "  ") /\
  Checks.tabs_obsolete_check (py "  " ++ py "x	= 1") = Ok None.
Proof.
  assert (H1 : Forall is_blank (py "  "))
    by (repeat constructor; by left).
  assert (H2 : ~ is_blank "x"%char) by (intros [H|H]; discriminate H).
  destruct (tabs_obsolete_indentation (py "  ") (py "x	= 1") H1 H2)
    as (Hi & Hnone & _).
  split; [exact Hi|]. apply Hnone.
  intros H. repeat (apply elem_of_cons in H as [H|H]; [discriminate H|]).
  by apply elem_of_nil in H.
Defined.

Lemma replace_no_char (s : pystr) (c : ascii) (new : pystr) :
  c ∉ new -> c ∉ Py.replace s c new.
Proof.
  intros Hnew. induction s as [|x s IH]; simpl; [apply not_elem_of_nil|].
  intros H. apply elem_of_app in H as [H|H]; [|done].
  destruct (Ascii.eqb x c) eqn:E; [done|].
  apply list_elem_of_singleton in H. subst.
  by rewrite Ascii.eqb_refl in E.
Qed.

Lemma replace_absent (s : pystr) (c : ascii) (new : pystr) :
  c ∉ s -> Py.replace s c new = s.
Proof.
  induction s as [|x s IH]; [done|]. intros H.
  apply not_elem_of_cons in H as [Hne H]. simpl.
  rewrite (IH H). destruct (Ascii.eqb x c) eqn:E; [|done].
  apply Ascii.eqb_eq in E. congruence.
Qed.

(** X15: [tabs_obsolete.fix] replaces every tab of the physical line by
    four spaces, those behind the indentation (in a string literal, say)
    as well; no tab is left, the check of the class finds nothing on the
    fixed line, and a line without tabs is returned as it is.  And
    [missing_newline.fix] appends a newline, after which the check of
    its class finds nothing. *)
Theorem physical_fixes_resolve (o : options) (checker : Checker)
    (physical_line : pystr) :
  (exists checker' fixed,
     Checks.tabs_obsolete_fix o checker physical_line =
       Ok (checker', Some fixed) /\
     fixed = Py.replace physical_line chr_tab (py "    ") /\
     chr_tab ∉ fixed /\
     Checks.tabs_obsolete_check fixed = Ok None /\
     (chr_tab ∉ physical_line -> fixed = physical_line)) /\
  (exists checker' fixed,
     Checks.missing_newline_fix o checker physical_line =
       Ok (checker', Some fixed) /\
     fixed = physical_line ++ [chr_nl] /\
     Checks.missing_newline_check fixed = None).
Proof.
  split.
  - eexists _, _. split; [reflexivity|]. split; [reflexivity|].
    assert (Hno : chr_tab ∉ Py.replace physical_line chr_tab (py "    ")).
    { apply replace_no_char. intros H.
      repeat (apply elem_of_cons in H as [H|H]; [discriminate H|]).
      by apply elem_of_nil in H. }
    split; [exact Hno|]. split; [|apply replace_absent].
    destruct (blank_run (Py.replace physical_line chr_tab (py "    ")))
      as (run & post & E & Hrun & Hpost).
    rewrite E in Hno |- *.
    unfold Checks.tabs_obsolete_check, mbind, res_bind.
    rewrite (indent_of_run run post Hrun Hpost).
    assert (Hrun0 : Py.count run chr_tab = 0).
    { apply count_zero. intros H. apply Hno. apply elem_of_app. by left. }
    by rewrite Hrun0.
  - eexists _, _. split; [reflexivity|]. split; [reflexivity|].
    unfold Checks.missing_newline_check, Py.rstrip.
    rewrite rstrip_by_snoc. change (Py.is_space chr_nl) with true.
    cbn match. rewrite bool_decide_eq_false_2; [done|].
    intros H. pose proof (rstrip_by_length Py.is_space physical_line) as Hl.
    rewrite H, length_app in Hl. simpl in Hl. lia.
Qed.

(** ** Quiet runs *)

(** X16: with [-q], an error that is not suppressed is counted but the
    error count of the file is left alone.  With one [-q] the file name
    is printed while that count is zero -- so it is printed again for
    every further error of the file, as the count stays zero -- and
    with more than one [-q] nothing is printed. *)
Theorem report_error_quiet (o : options) (line_number offset : Z)
    (text : pystr) (chk : Check) (c : Checker) :
  quiet o <> 0 ->
  truthy (ignore_code o (Py.slice text None (Some 4))) = false ->
  exists c',
    report_error o line_number offset text chk c = Ok c' /\
    file_errors c' = file_errors c /\
    filename c' = filename c /\
    stdout c' =
      (if (quiet o =? 1) && (file_errors c =? 0)
       then stdout c ++ [filename c] else stdout c) /\
    counters c' !! Py.slice text None (Some 4) =
      Some (default 0 (counters c !! Py.slice text None (Some 4)) + 1).
Proof.
  intros Hq Hcode. unfold report_error. rewrite Hcode.
  apply Z.eqb_neq in Hq. rewrite Hq. cbn [negb orb].
  set (code := Py.slice text None (Some 4)). clearbody code.
  eexists. split; [reflexivity|].
  unfold message. destruct c. cbn.
  destruct (_ && _); destruct (_ !! code);
    cbn; rewrite ?lookup_insert_eq; done.
Qed.

Lemma report_error_quiet_witness :
  exists c',
    report_error
      {| select := []; ignore := []; quiet := 1; repeat_ := false;
         show_source := false; show_pep8 := false; fix_ := false; inplace := false |}
      1 5 (py "W291 trailing whitespace") Registry.trailing_whitespace Runs.start = Ok c' /\
    file_errors c' = file_errors Runs.start /\
    stdout c' = [py "t.py"].
Proof.
  destruct (report_error_quiet
              {| select := []; ignore := []; quiet := 1; repeat_ := false;
                 show_source := false; show_pep8 := false; fix_ := false; inplace := false |}
              1 5 (py "W291 trailing whitespace") Registry.trailing_whitespace Runs.start)
    as (c' & H & Hf & _ & Hs & _).
  - discriminate.
  - reflexivity.
  - exists c'. split; [exact H|]. split; [exact Hf | exact Hs].
Defined.

(** ** Resetting the counters *)

Lemma reset_loop_lookup (keys : list pystr) (counters : gmap pystr Z)
    (k : pystr) :
  reset_loop keys counters !! k =
    if bool_decide (k ∈ keys) && negb (Py.member k BENCHMARK_KEYS)
    then None else counters !! k.
Proof.
  revert counters. induction keys as [|key keys IH]; intros counters.
  - cbn [reset_loop].
    by rewrite bool_decide_eq_false_2 by apply not_elem_of_nil.
  - cbn [reset_loop]. rewrite IH.
    destruct (decide (k = key)) as [->|Hne].
    + rewrite (bool_decide_eq_true_2 (key ∈ key :: keys)) by left.
      destruct (Py.member key BENCHMARK_KEYS) eqn:E; cbn [negb andb].
      * by rewrite andb_false_r.
      * rewrite lookup_delete_eq. by destruct (bool_decide _).
    + assert (Hin : bool_decide (k ∈ key :: keys) = bool_decide (k ∈ keys)).
      { apply bool_decide_ext. rewrite elem_of_cons. naive_solver. }
      rewrite Hin. destruct (Py.member key BENCHMARK_KEYS).
      * done.
      * by rewrite lookup_delete_ne.
Qed.

Lemma member_elem_of (x : pystr) (l : list pystr) :
  Py.member x l = true <-> x ∈ l.
Proof.
  unfold Py.member. rewrite existsb_exists. split.
  - intros (y & Hin & H). apply bool_decide_eq_true in H. subst.
    by apply list_elem_of_In.
  - intros H. exists x. split; [by apply list_elem_of_In|].
    by apply bool_decide_eq_true.
Qed.

(** X17: [reset_counters] keeps the benchmark counters with their
    values, deletes every other counter and every message; afterwards
    [get_count] gives 0 for every prefix, and the codes with a message
    are again the counted codes. *)
Theorem reset_counters_keeps_benchmark (c : Checker) :
  (forall k, counters (reset_counters c) !! k =
             if Py.member k BENCHMARK_KEYS then counters c !! k else None) /\
  messages (reset_counters c) = ∅ /\
  (forall prefix, get_count prefix (reset_counters c) = Ok 0) /\
  counted (reset_counters c).
Proof.
  assert (Hc : forall k, counters (reset_counters c) !! k =
             if Py.member k BENCHMARK_KEYS then counters c !! k else None).
  { intros k. unfold reset_counters.
    replace (counters _) with
      (reset_loop (map fst (map_to_list (counters c))) (counters c))
      by (by destruct c).
    rewrite reset_loop_lookup.
    destruct (Py.member k BENCHMARK_KEYS); cbn [negb].
    - by rewrite andb_false_r.
    - rewrite andb_true_r.
      destruct (decide (k ∈ map fst (map_to_list (counters c)))) as [Hin|Hin].
      + by rewrite bool_decide_eq_true_2.
      + rewrite bool_decide_eq_false_2 by done.
        destruct (counters c !! k) eqn:E; [|done].
        exfalso. apply Hin, elem_of_keys. eauto. }
  assert (Hm : messages (reset_counters c) = ∅) by (by destruct c).
  split; [exact Hc|]. split; [exact Hm|]. split.
  - intros prefix. unfold get_count. rewrite Hm.
    by rewrite map_to_list_empty.
  - intros k. rewrite Hm, Hc, lookup_empty. split.
    + by intros [v Hv].
    + intros [[v Hv] Hk]. destruct (Py.member k BENCHMARK_KEYS) eqn:E.
      * by apply member_elem_of in E.
      * done.
Qed.

(** ** Reading a physical line *)

Lemma only_reports_refl (c : Checker) : only_reports c c.
Proof. unfold only_reports. by destruct c. Qed.

Lemma only_reports_trans (c1 c2 c3 : Checker) :
  only_reports c1 c2 -> only_reports c2 c3 -> only_reports c1 c3.
Proof.
  unfold only_reports. intros H1 H2. destruct c1, c2, c3. cbn in *.
  injection H1; intros; injection H2; intros; subst; reflexivity.
Qed.

Lemma only_reports_report_error (o : options) (line_number offset : Z)
    (text : pystr) (chk : Check) (c c' : Checker) :
  report_error o line_number offset text chk c = Ok c' ->
  only_reports c c' /\ physical_line c' = physical_line c.
Proof.
  unfold report_error, message, mbind, res_bind, only_reports. intros H.
  destruct c. repeat case_match; simplify_eq; split; reflexivity.
Qed.

Lemma only_reports_registry_fix (o : options) (chk : Check)
    (f : options -> Checker -> res (Checker * option pystr))
    (c : Checker) (r : Checker * option pystr) :
  chk ∈ Registry.all_checks -> fix_method chk = Some f ->
  f o c = Ok r -> only_reports c (fst r).
Proof.
  unfold Registry.all_checks. intros Hin.
  repeat (apply elem_of_cons in Hin as [->|Hin]);
    try (by apply elem_of_nil in Hin);
    cbn [fix_method Registry.tabs_or_spaces Registry.tabs_obsolete
         Registry.trailing_whitespace Registry.trailing_blank_lines
         Registry.missing_newline Registry.maximum_line_length
         Registry.blank_lines Registry.extraneous_whitespace
         Registry.missing_whitespace Registry.indentation
         Registry.whitespace_before_parameters
         Registry.whitespace_around_operator
         Registry.missing_whitespace_around_operator
         Registry.whitespace_around_comma
         Registry.whitespace_around_named_parameter_equals
         Registry.whitespace_before_inline_comment
         Registry.imports_on_separate_lines Registry.compound_statements
         Registry.python_3000_has_key Registry.python_3000_raise_comma
         Registry.python_3000_not_equal Registry.python_3000_backticks
         Registry.pure_fix];
    intros Hf Hr; try discriminate Hf; injection Hf as <-;
    revert Hr;
    unfold Checks.tabs_or_spaces_fix, Checks.tabs_obsolete_fix,
      Checks.trailing_whitespace_fix, Checks.trailing_blank_lines_fix,
      Checks.missing_newline_fix, Checks.blank_lines_fix,
      Checks.extraneous_whitespace_fix, Checks.missing_whitespace_fix,
      Checks.whitespace_around_operator_fix,
      Checks.missing_whitespace_around_operator_fix,
      Checks.whitespace_around_comma_fix,
      Checks.whitespace_around_named_parameter_equals_fix,
      Checks.python_3000_raise_comma_fix, report_fix, message, mbind,
      res_bind;
    intros Hr; repeat case_match; simplify_eq; cbn [fst];
    unfold only_reports; destruct c; reflexivity.
Qed.

Lemma only_reports_run_physical_checks (o : options) (checks : list Check) :
  (forall chk, chk ∈ checks -> chk ∈ Registry.all_checks) ->
  forall c c',
    run_physical_checks o checks c = Ok c' ->
    only_reports c c' /\ (fix_ o = false -> physical_line c' = physical_line c).
Proof.
  induction checks as [|chk rest IH]; intros Hall c c'; simpl.
  - intros [= <-]. split; [apply only_reports_refl | done].
  - assert (Hrest : forall x, x ∈ rest -> x ∈ Registry.all_checks)
      by (intros; apply Hall; by right).
    unfold mbind, res_bind.
    destruct (check chk c) as [[[offset text]|]|]; [| |done].
    + destruct offset as [n|p|]; try done.
      destruct (report_error _ _ _ _ _ _) as [c1|] eqn:E1; [|done].
      apply only_reports_report_error in E1 as [E1 Ep].
      unfold fix_wanted. destruct (fix_ o) eqn:Hfix.
      * destruct (fix_method chk) as [f|] eqn:Ef.
        -- destruct (negb (truthy (ignore_code o _))).
           ++ destruct (f o c1) as [r|] eqn:Er; [|done].
              eapply only_reports_registry_fix in Er; [|apply Hall; left|done].
              destruct (snd r) as [fixed|]; [|done].
              intros H. apply (IH Hrest) in H as [H _]. split; [|done].
              eapply only_reports_trans; [exact E1|].
              eapply only_reports_trans; [exact Er|].
              eapply only_reports_trans; [|exact H].
              unfold only_reports. by destruct (fst r).
           ++ intros H. apply (IH Hrest) in H as [H _]. split; [|done].
              eapply only_reports_trans; [exact E1 | exact H].
        -- intros H. apply (IH Hrest) in H as [H _]. split; [|done].
           eapply only_reports_trans; [exact E1 | exact H].
      * intros H. apply (IH Hrest) in H as [H Hp]. split.
        -- eapply only_reports_trans; [exact E1 | exact H].
        -- intros _. rewrite Hp by done. exact Ep.
    + apply (IH Hrest).
Qed.

(** X18: [readline_check_physical], the callback the tokenizer reads
    lines through.  Every call moves [line_number] on by one, also past
    the end of the file, where the empty string is returned and nothing
    is checked.  A line returned is the line of the file at the old
    [line_number]; it is returned as it was read, whatever the fixes
    did to it; one entry is added to [fixed_physical_lines], the line
    as the checks and fixes left it, which is the line itself without
    [--fix]; and the first line that starts with a space or a tab sets
    [indent_char], which is never changed afterwards. *)
Theorem readline_check_physical_line (o : options) (c c' : Checker)
    (line : pystr) :
  readline_check_physical o c = Ok (c', line) ->
  line_number c' = line_number c + 1 /\
  lines c' = lines c /\
  (line = [] ->
   c' = set_line_number (line_number c + 1) c) /\
  (line <> [] ->
   Py.getitem (lines c) (line_number c) = Ok line /\
   fixed_physical_lines c' =
     fixed_physical_lines c ++ [physical_line c'] /\
   (fix_ o = false -> physical_line c' = line) /\
   indent_char c' =
     match indent_char c, line with
     | None, first :: _ =>
         if Py.contains (py " " ++ [chr_tab]) [first] then Some first
         else None
     | ic, _ => ic
     end).
Proof.
  unfold readline_check_physical, mbind, res_bind.
  destruct (readline c) as [[c1 l1]|] eqn:Er; [|done]. cbn [fst snd].
  assert (H1 : c1 = set_line_number (line_number c + 1) c /\
               (l1 <> [] -> Py.getitem (lines c) (line_number c) = Ok l1)).
  { unfold readline, mbind, res_bind in Er.
    replace (line_number (set_line_number (line_number c + 1) c))
      with (line_number c + 1) in Er by (by destruct c).
    replace (lines (set_line_number (line_number c + 1) c))
      with (lines c) in Er by (by destruct c).
    rewrite Z.add_simpl_r in Er.
    repeat case_match; simplify_eq; done. }
  destruct H1 as [-> Hget].
  destruct l1 as [|ch l1].
  - intros [= <- <-]. split; [by destruct c|]. split; [by destruct c|].
    split; done.
  - unfold check_physical, mbind, res_bind.
    match goal with
    | |- context [run_physical_checks _ _ ?x] => set (c0 := x)
    end.
    assert (H0 : line_number c0 = line_number c + 1 /\ lines c0 = lines c /\
                 fixed_physical_lines c0 = fixed_physical_lines c /\
                 physical_line c0 = ch :: l1 /\
                 indent_char c0 =
                   match indent_char c with
                   | None => if Py.contains (py " " ++ [chr_tab]) [ch]
                             then Some ch else None
                   | ic => ic
                   end).
    { subst c0. destruct c. cbn. repeat case_match; by repeat split. }
    clearbody c0. destruct H0 as (L1 & L2 & L3 & L4 & L5).
    destruct (run_physical_checks _ _ c0) as [c2|] eqn:E; [|done].
    intros [= <- <-].
    apply only_reports_run_physical_checks in E as [E Ep];
      [|apply elem_of_find_checks].
    unfold only_reports in E.
    assert (F1 : line_number c2 = line_number c0)
      by (rewrite E; by destruct c0).
    assert (F2 : lines c2 = lines c0) by (rewrite E; by destruct c0).
    assert (F3 : fixed_physical_lines c2 = fixed_physical_lines c0)
      by (rewrite E; by destruct c0).
    assert (F4 : indent_char c2 = indent_char c0)
      by (rewrite E; by destruct c0).
    clear E.
    split; [rewrite <- L1, <- F1; by destruct c2|].
    split; [rewrite <- L2, <- F2; by destruct c2|].
    split; [done|]. intros _.
    split; [by apply Hget|].
    split; [rewrite <- L3, <- F3; by destruct c2|].
    split.
    + intros Hfix. transitivity (physical_line c2); [by destruct c2|].
      by rewrite (Ep Hfix).
    + rewrite <- L5, <- F4. by destruct c2.
Qed.

Lemma readline_check_physical_line_witness :
  exists c',
    readline_check_physical default_options
      (set_line_number 0 Runs.start) = Ok (c', py "x = 1 " ++ [chr_nl]) /\
    line_number c' = line_number (set_line_number 0 Runs.start) + 1.
Proof.
  assert (H : exists c', readline_check_physical default_options
                (set_line_number 0 Runs.start) =
              Ok (c', py "x = 1 " ++ [chr_nl]))
    by (eexists; vm_compute; reflexivity).
  destruct H as [c' H]. exists c'. split; [exact H|].
  apply (proj1 (readline_check_physical_line default_options _ c' _ H)).
Defined.

(** ** Putting the string literals back *)





(** ** Mixed indentation *)

Lemma tabs_or_spaces_loop_same (indent : pystr) (indent_char : option ascii)
    (offset : Z) :
  Forall (fun ch => Some ch = indent_char) indent ->
  Checks.tabs_or_spaces_loop indent indent_char offset = None.
Proof.
  intros H. revert offset. induction H as [|ch indent Hch _ IH]; intros offset.
  - done.
  - cbn [Checks.tabs_or_spaces_loop].
    rewrite bool_decide_eq_false_2 by (intros Hne; by apply Hne).
    apply IH.
Qed.

Lemma tabs_or_spaces_loop_first (same rest : pystr) (ch : ascii)
    (indent_char : option ascii) (offset : Z) :
  Forall (fun x => Some x = indent_char) same ->
  Some ch <> indent_char ->
  Checks.tabs_or_spaces_loop (same ++ ch :: rest) indent_char offset =
    Some (OffInt (offset + Py.len same),
          py "E101 indentation contains mixed spaces and tabs").
Proof.
  intros H Hch. revert offset.
  induction H as [|x same Hx _ IH]; intros offset.
  - cbn [app Checks.tabs_or_spaces_loop].
    rewrite bool_decide_eq_true_2 by done. do 3 f_equal.
    unfold Py.len. simpl. lia.
  - cbn [app Checks.tabs_or_spaces_loop].
    rewrite bool_decide_eq_false_2 by (intros Hne; by apply Hne).
    rewrite IH. do 3 f_equal. unfold Py.len. simpl length. lia.
Qed.

(** X20: [tabs_or_spaces.check] compares every character of the
    indentation -- the longest run of spaces and tabs at the start of
    the line -- with [indent_char], the first indentation character of
    the file: it reports nothing when all are equal to it, and E101 at
    the index of the first one that differs.  Its fix replaces the tabs
    of the indentation by four spaces each and keeps the rest of the
    line. *)
Theorem tabs_or_spaces_indentation (o : options) (checker : Checker)
    (run post : pystr) (indent_char : option ascii) :
  Forall is_blank run ->
  match post with [] => True | ch :: _ => ~ is_blank ch end ->
  (Forall (fun ch => Some ch = indent_char) run ->
   Checks.tabs_or_spaces_check (run ++ post) indent_char = Ok None) /\
  (forall same ch rest,
     run = same ++ ch :: rest ->
     Forall (fun x => Some x = indent_char) same ->
     Some ch <> indent_char ->
     Checks.tabs_or_spaces_check (run ++ post) indent_char =
       Ok (Some (OffInt (Py.len same),
                 py "E101 indentation contains mixed spaces and tabs"))) /\
  (exists checker',
     Checks.tabs_or_spaces_fix o checker (run ++ post) indent_char =
       Ok (checker', Some (Py.replace run chr_tab (py "    ") ++ post))).
Proof.
  intros Hrun Hpost.
  pose proof (indent_of_run run post Hrun Hpost) as Hi.
  unfold Checks.tabs_or_spaces_check, Checks.tabs_or_spaces_fix, mbind,
    res_bind.
  rewrite Hi. split; [|split].
  - intros Hsame. by rewrite tabs_or_spaces_loop_same.
  - intros same ch rest -> Hsame Hch.
    rewrite tabs_or_spaces_loop_first by done. by rewrite Z.add_0_l.
  - eexists. do 3 f_equal.
    replace (Py.slice (run ++ post) (Some (Py.len run)) None)
      with (drop (length run) (run ++ post))
      by (symmetry; apply slice_drop).
    by rewrite drop_app_length.
Qed.

Lemma tabs_or_spaces_indentation_witness :
  Checks.tabs_or_spaces_check ([chr_sp; chr_tab] ++ py "x") (Some chr_sp) =
    Ok (Some (OffInt (Py.len [chr_sp]),
              py "E101 indentation contains mixed spaces and tabs")).
Proof.
  assert (H1 : Forall is_blank [chr_sp; chr_tab])
    by (constructor; [by left | constructor; [by right | constructor]]).
  assert (H2 : ~ is_blank "x"%char) by (intros [H|H]; discriminate H).
  apply (proj1 (proj2 (tabs_or_spaces_indentation default_options Runs.start
                         [chr_sp; chr_tab] (py "x") (Some chr_sp) H1 H2))
           [chr_sp] chr_tab []).
  - reflexivity.
  - by repeat constructor.
  - discriminate.
Defined.

(** ** The benchmark counters of a run *)

Lemma benchmark_key_files : py "files" ∈ BENCHMARK_KEYS.
Proof. unfold BENCHMARK_KEYS. simpl. set_solver. Qed.

Lemma benchmark_key_directories : py "directories" ∈ BENCHMARK_KEYS.
Proof. unfold BENCHMARK_KEYS. simpl. set_solver. Qed.

(** X21: checking a file adds the number of its lines to the counter
    [physical lines], however many of them the tokenizer reads, and
    touches neither [files] nor [directories]: in a fresh process these
    are the length of [lines], 0 and 0 at the end of [input_file]. *)
Theorem input_file_physical_lines (o : options) (filename : pystr)
    (lines : list pystr) (events : list event) (c : Checker) :
  input_file o filename lines events = Ok c ->
  counters c !! py "physical lines" = Some (Py.len lines) /\
  counters c !! py "files" = Some 0 /\
  counters c !! py "directories" = Some 0.
Proof.
  unfold input_file, new_checker, check_all, mbind, res_bind.
  destruct (add_counter _ _ _) as [c1|] eqn:E1; [|done].
  assert (H1 : counters c1 !! py "physical lines" = Some (Py.len lines) /\
               counters c1 !! py "files" = Some 0 /\
               counters c1 !! py "directories" = Some 0).
  { unfold add_counter in E1. cbn [counters] in E1.
    assert (Ei : initial_counters !! py "physical lines" = Some 0)
      by (vm_compute; reflexivity).
    rewrite Ei in E1. injection E1 as <-. cbn [counters set_counters].
    rewrite lookup_insert_eq, !lookup_insert_ne by done.
    rewrite Z.add_0_l. repeat split; vm_compute; reflexivity. }
  clear E1.
  destruct (run_events _ _ _ _) as [c2|] eqn:E2; [|done].
  intros Hres.
  assert (H2 : counters c2 !! py "physical lines" = Some (Py.len lines) /\
               counters c2 !! py "files" = Some 0 /\
               counters c2 !! py "directories" = Some 0).
  { eapply (P_run_events o
              (fun c => counters c !! py "physical lines" =
                          Some (Py.len lines) /\
                        counters c !! py "files" = Some 0 /\
                        counters c !! py "directories" = Some 0)) in E2;
      [exact E2|..].
    - intros c0 c0' (Hc & _) _ H. by rewrite Hc.
    - intros ln off text chk c0 c0' H E.
      destruct (truthy (ignore_code o (Py.slice text None (Some 4))))
        eqn:Hcode.
      + unfold report_error in E. rewrite Hcode in E. by injection E as <-.
      + apply report_error_books in E as (Ec & _); [|done]. rewrite Ec.
        assert (Hne : forall k, k ∈ BENCHMARK_KEYS ->
                                Py.slice text None (Some 4) <> k).
        { intros k Hk Heq. apply (code_not_benchmark text). by rewrite Heq. }
        rewrite (lookup_insert_ne _ _ (py "physical lines"))
          by apply Hne, benchmark_key_physical.
        rewrite (lookup_insert_ne _ _ (py "files"))
          by apply Hne, benchmark_key_files.
        rewrite (lookup_insert_ne _ _ (py "directories"))
          by apply Hne, benchmark_key_directories.
        done.
    - intros c0 c0' H. unfold add_counter.
      destruct (counters c0 !! py "logical lines"); [|done].
      intros [= <-].
      replace (counters (set_counters _ c0))
        with (<[py "logical lines" := z + 1]> (counters c0))
        by (by destruct c0).
      by rewrite !lookup_insert_ne by done.
    - intros c0 H. by destruct c0.
    - intros _ text c0 H. by destruct c0.
    - cbn [counters]. exact H1. }
  replace (counters c) with (counters c2)
    by (repeat case_match; simplify_eq;
        match goal with |- counters ?x = _ => by destruct x end).
  exact H2.
Qed.

Lemma input_file_physical_lines_witness :
  exists c,
    input_file default_options (py "t.py") Runs.two_defs
      Runs.two_defs_events = Ok c /\
    counters c !! py "physical lines" = Some (Py.len Runs.two_defs).
Proof.
  assert (H : exists c, input_file default_options (py "t.py") Runs.two_defs
                          Runs.two_defs_events = Ok c)
    by (eexists; vm_compute; reflexivity).
  destruct H as [c H]. exists c. split; [exact H|].
  apply (proj1 (input_file_physical_lines default_options (py "t.py")
                  Runs.two_defs Runs.two_defs_events c H)).
Defined.
